(** * BurgerBrowsWeb: the wallet and browser glue of [src/app/page.tsx]

    [src/src/app/page.tsx] holds two documents of the same React component
    [BurgerBrowsApp]:
    - lines 1-678: contract addresses and the faucet key are hard-coded,
      the component has a peer transfer ([transferUSDC]);
    - lines 679-1319: addresses and keys come from [process.env], the
      vault has an ABI, there is no peer transfer.
    The helpers [addLog], [initializeWallet], [generateDeviceFingerprint],
    [navigateToUrl], [handleIframeError] and [copyWalletAddress] are the
    same text in both documents and are modelled once.  The operations that
    differ live in [Module Page1] and [Module Page2]. *)

From Stdlib Require Import ZArith NArith String Ascii List Lia DecimalString.
From stdpp Require Import gmap strings list.

Open Scope string_scope.

(** ** JavaScript built-ins used by the component *)

Module JS.

(** [xs.slice(-n)] on an array: the last [n] elements, all of them when
    the array is shorter. *)
Definition slice_last {A : Type} (n : nat) (xs : list A) : list A :=
  drop (length xs - n) xs.

(** [s.slice(0, n)] on a string. *)
Definition str_slice0 (n : nat) (s : string) : string :=
  String.substring 0 n s.

(** [s.slice(-n)] on a string. *)
Definition str_slice_last (n : nat) (s : string) : string :=
  String.substring (String.length s - n) n s.

(** [s.startsWith(p)]. *)
Definition startsWith (s p : string) : bool := String.prefix p s.

(** Truthiness of a string-or-null value: [null], [undefined] and the
    empty string are falsy. *)
Definition truthy (v : option string) : bool :=
  match v with
  | None => false
  | Some s => negb (String.eqb s "")
  end.

(** *** [parseFloat] and the comparison [x <= 0]

    [parseFloat] trims leading white space and reads the longest prefix
    that is a [StrDecimalLiteral] (ECMAScript, sec. parseFloat); no such
    prefix gives [NaN].  The value is kept as the exact decimal that was
    read; the rounding to a double only matters to [le_zero] through
    underflow, which is written out there. *)
Inductive Number : Type :=
| NaN
| Infinity (negative : bool)
| Decimal (negative : bool) (mantissa : N) (exp10 : Z).

Definition code (c : ascii) : nat := nat_of_ascii c.

Definition is_digit (c : ascii) : bool :=
  (48 <=? code c)%nat && (code c <=? 57)%nat.

Definition digit_value (c : ascii) : N := N.of_nat (code c - 48).

(** White space and line terminators, as UTF-8 bytes: TAB, LF, VT, FF, CR,
    SP, then U+00A0, U+1680, U+2000..U+200A, U+2028, U+2029, U+202F,
    U+205F, U+3000, U+FEFF. *)
Fixpoint trim_start (s : string) : string :=
  match s with
  | EmptyString => s
  | String c s1 =>
      if ((9 <=? code c)%nat && (code c <=? 13)%nat) || (code c =? 32)%nat
      then trim_start s1
      else
        match s1 with
        | String c1 s2 =>
            if (code c =? 194)%nat && (code c1 =? 160)%nat then trim_start s2
            else
              match s2 with
              | String c2 s3 =>
                  if ((code c =? 225)%nat && (code c1 =? 154)%nat && (code c2 =? 128)%nat)
                     || ((code c =? 226)%nat && (code c1 =? 128)%nat
                         && (((128 <=? code c2)%nat && (code c2 <=? 138)%nat)
                             || (code c2 =? 168)%nat || (code c2 =? 169)%nat
                             || (code c2 =? 175)%nat))
                     || ((code c =? 226)%nat && (code c1 =? 129)%nat && (code c2 =? 159)%nat)
                     || ((code c =? 227)%nat && (code c1 =? 128)%nat && (code c2 =? 128)%nat)
                     || ((code c =? 239)%nat && (code c1 =? 187)%nat && (code c2 =? 191)%nat)
                  then trim_start s3
                  else s
              | EmptyString => s
              end
        | EmptyString => s
        end
  end.

(** Reads a run of decimal digits: the number they spell after [acc],
    how many there were, and what follows them. *)
Fixpoint read_digits (acc : N) (count : nat) (s : string) : N * nat * string :=
  match s with
  | String c s' =>
      if is_digit c
      then read_digits (acc * 10 + digit_value c)%N (S count) s'
      else (acc, count, s)
  | EmptyString => (acc, count, s)
  end.

(** An optional ["+"] or ["-"]. *)
Definition read_sign (s : string) : bool * string :=
  match s with
  | String c s' =>
      if (code c =? 45)%nat then (true, s')
      else if (code c =? 43)%nat then (false, s')
      else (false, s)
  | EmptyString => (false, s)
  end.

(** [ExponentPart], when one is there in full; otherwise it is not part of
    the prefix and counts as 0. *)
Definition read_exponent (s : string) : Z :=
  match s with
  | String c s' =>
      if (code c =? 101)%nat || (code c =? 69)%nat then
        let '(neg, s1) := read_sign s' in
        let '(e, n, _) := read_digits 0 0 s1 in
        if (n =? 0)%nat then 0%Z
        else if neg then (- Z.of_N e)%Z else Z.of_N e
      else 0%Z
  | EmptyString => 0%Z
  end.

Definition parseFloat (input : string) : Number :=
  let '(neg, s1) := read_sign (trim_start input) in
  if String.prefix "Infinity" s1 then Infinity neg
  else
    let '(whole, n1, s2) := read_digits 0 0 s1 in
    let '(mant, n2, s3) :=
      match s2 with
      | String c s2' =>
          if (code c =? 46)%nat then read_digits whole 0 s2' else (whole, 0%nat, s2)
      | EmptyString => (whole, 0%nat, s2)
      end in
    if (n1 + n2 =? 0)%nat then NaN
    else Decimal neg mant (read_exponent s3 - Z.of_nat n2)%Z.

(** A positive decimal [m * 10^e] rounds to the double [+0] when it is at
    most half the least subnormal, [2^-1075] (ties go to the even
    neighbour, which is 0). *)
Definition rounds_to_zero (m : N) (e : Z) : bool :=
  if (0 <=? e)%Z then false
  else (Z.of_N m * 2 ^ 1075 <=? 10 ^ (- e))%Z.

(** [x <= 0] on numbers: every comparison with [NaN] is false. *)
Definition le_zero (x : Number) : bool :=
  match x with
  | NaN => false
  | Infinity negative => negative
  | Decimal negative m e =>
      (m =? 0)%N || negative || rounds_to_zero m e
  end.

End JS.

(** ** Activity log ([addLog], lines 93-96 and 778-781) *)

(** The state updater of [addLog]:
    [prev => [...prev.slice(-10), `[${timestamp}] ${message}`]]. *)
Definition log_line (timestamp message : string) : string :=
  "[" ++ timestamp ++ "] " ++ message.

Definition addLog_update (timestamp message : string) (prev : list string)
  : list string :=
  JS.slice_last 10 prev ++ [log_line timestamp message].

(** [useState<string[]>(['🚀 BurgerBrows Web initialized!'])] *)
Definition initial_logs : list string :=
  ["🚀 BurgerBrows Web initialized!"].


(** ** Data model *)

(** [interface UserWallet] (lines 25-29, 712-716). *)
Record UserWallet : Type := mkUserWallet {
  address : string;
  privateKey : string;
  deviceHash : string
}.

(** The closures handed to [setTimeout]. *)
Inductive Callback : Type :=
| CbCheckBalance        (* () => checkBalance() *)
| CbBrowsingActivity.   (* () => addLog(`👀 Browsing activity detected ...`) *)

(** The state-changing contract methods the component calls. *)
Inductive TxCall : Type :=
| Mint (to : string) (amount : Z)
| Transfer (to : string) (amount : Z)
| Approve (spender : string) (amount : Z)
| Deposit (amount : Z).

(** What the component asks of the world outside React state, in the
    order it asks. *)
Inductive Event : Type :=
| EvBalanceOf (token owner : string)                  (* contract.balanceOf(owner) *)
| EvSend (signerKey contract : string) (call : TxCall) (* a signed transaction *)
| EvWait (txHash : string)                            (* tx.wait() *)
| EvSetItem (key value : string)                      (* localStorage.setItem *)
| EvClipboard (text : string).                        (* navigator.clipboard.writeText *)

(** A value or a thrown error, rendered as the template literal
    [`${error}`] renders it. *)
Inductive Res (A : Type) : Type :=
| Ok (a : A)
| Throw (error : string).
Arguments Ok {A} a.
Arguments Throw {A} error.

(** Everything the component does not compute itself: the clock, the
    random sources, the browser signals, JSON, the ethers library and the
    chain behind the RPC endpoint.  Chain answers may depend on the
    requests made so far. *)
Record World : Type := mkWorld {
  toLocaleTimeString : nat -> string;          (* n-th reading of the clock *)
  randomUUID : nat -> string;                  (* n-th random draw *)
  createRandom : nat -> string * string;       (* n-th draw: (address, privateKey) *)
  userAgent : string;
  language : string;
  screen_width : string;
  screen_height : string;
  timezoneOffset : string;
  canvas_toDataURL : string;
  keccak256 : string -> string;
  JSON_stringify : UserWallet -> string;
  JSON_parse : string -> Res UserWallet;       (* JSON.parse, read as a UserWallet *)
  isAddress : string -> bool;
  parseUnits6 : string -> Res Z;               (* ethers.parseUnits(s, 6) *)
  formatUnits6 : Z -> string;                  (* ethers.formatUnits(n, 6) *)
  newWallet : string -> Res string;            (* new ethers.Wallet(key, provider).address *)
  rpc_balanceOf : list Event -> string -> string -> Res Z;
  rpc_send : list Event -> string -> string -> TxCall -> Res string;  (* tx.hash *)
  rpc_wait : list Event -> string -> Res string;                      (* receipt.blockNumber *)
  clipboard_writeText : list Event -> string -> Res unit
}.

(** React state of the component (lines 32-41, 719-726) together with the
    browser state it touches: [localStorage], pending timers, and the
    requests issued so far. *)
Record State : Type := mkState {
  wallet : option UserWallet;
  balance : string;
  currentUrl : string;
  provider : bool;                (* provider !== null *)
  loading : bool;
  logs : list string;
  transferAmount : string;
  transferAddress : string;
  browserError : string;
  showWalletPopup : bool;
  localStorage : gmap string string;
  timers : list (nat * Callback); (* (delay in ms, callback), oldest first *)
  trace : list Event;             (* oldest first *)
  clockReads : nat;
  randomDraws : nat;
  logged : list string            (* every message given to addLog, untrimmed;
                                     an observation only, nothing reads it *)
}.

Definition initial_state (storage : gmap string string) : State :=
  {| wallet := None; balance := "0.000000"; currentUrl := "/google-home.html";
     provider := false; loading := false; logs := initial_logs;
     transferAmount := ""; transferAddress := ""; browserError := "";
     showWalletPopup := false; localStorage := storage; timers := [];
     trace := []; clockReads := 0; randomDraws := 0; logged := [] |}.

(** *** State setters *)

Definition setWallet (w : UserWallet) (s : State) : State :=
  mkState (Some w) (balance s) (currentUrl s) (provider s) (loading s) (logs s)
    (transferAmount s) (transferAddress s) (browserError s) (showWalletPopup s)
    (localStorage s) (timers s) (trace s) (clockReads s) (randomDraws s) (logged s).

Definition setBalance (b : string) (s : State) : State :=
  mkState (wallet s) b (currentUrl s) (provider s) (loading s) (logs s)
    (transferAmount s) (transferAddress s) (browserError s) (showWalletPopup s)
    (localStorage s) (timers s) (trace s) (clockReads s) (randomDraws s) (logged s).

Definition setCurrentUrl (u : string) (s : State) : State :=
  mkState (wallet s) (balance s) u (provider s) (loading s) (logs s)
    (transferAmount s) (transferAddress s) (browserError s) (showWalletPopup s)
    (localStorage s) (timers s) (trace s) (clockReads s) (randomDraws s) (logged s).

Definition setProvider (s : State) : State :=
  mkState (wallet s) (balance s) (currentUrl s) true (loading s) (logs s)
    (transferAmount s) (transferAddress s) (browserError s) (showWalletPopup s)
    (localStorage s) (timers s) (trace s) (clockReads s) (randomDraws s) (logged s).

Definition setLoading (b : bool) (s : State) : State :=
  mkState (wallet s) (balance s) (currentUrl s) (provider s) b (logs s)
    (transferAmount s) (transferAddress s) (browserError s) (showWalletPopup s)
    (localStorage s) (timers s) (trace s) (clockReads s) (randomDraws s) (logged s).

Definition setLogs (f : list string -> list string) (s : State) : State :=
  mkState (wallet s) (balance s) (currentUrl s) (provider s) (loading s)
    (f (logs s))
    (transferAmount s) (transferAddress s) (browserError s) (showWalletPopup s)
    (localStorage s) (timers s) (trace s) (clockReads s) (randomDraws s) (logged s).

Definition setTransferAmount (a : string) (s : State) : State :=
  mkState (wallet s) (balance s) (currentUrl s) (provider s) (loading s) (logs s)
    a (transferAddress s) (browserError s) (showWalletPopup s)
    (localStorage s) (timers s) (trace s) (clockReads s) (randomDraws s) (logged s).

Definition setTransferAddress (a : string) (s : State) : State :=
  mkState (wallet s) (balance s) (currentUrl s) (provider s) (loading s) (logs s)
    (transferAmount s) a (browserError s) (showWalletPopup s)
    (localStorage s) (timers s) (trace s) (clockReads s) (randomDraws s) (logged s).

Definition setBrowserError (e : string) (s : State) : State :=
  mkState (wallet s) (balance s) (currentUrl s) (provider s) (loading s) (logs s)
    (transferAmount s) (transferAddress s) e (showWalletPopup s)
    (localStorage s) (timers s) (trace s) (clockReads s) (randomDraws s) (logged s).

Definition setShowWalletPopup (b : bool) (s : State) : State :=
  mkState (wallet s) (balance s) (currentUrl s) (provider s) (loading s) (logs s)
    (transferAmount s) (transferAddress s) (browserError s) b
    (localStorage s) (timers s) (trace s) (clockReads s) (randomDraws s) (logged s).

Definition storage_setItem (k v : string) (s : State) : State :=
  mkState (wallet s) (balance s) (currentUrl s) (provider s) (loading s) (logs s)
    (transferAmount s) (transferAddress s) (browserError s) (showWalletPopup s)
    (<[k := v]> (localStorage s)) (timers s) (trace s ++ [EvSetItem k v])
    (clockReads s) (randomDraws s) (logged s).

Definition push_timer (delay : nat) (cb : Callback) (s : State) : State :=
  mkState (wallet s) (balance s) (currentUrl s) (provider s) (loading s) (logs s)
    (transferAmount s) (transferAddress s) (browserError s) (showWalletPopup s)
    (localStorage s) (timers s ++ [(delay, cb)]) (trace s)
    (clockReads s) (randomDraws s) (logged s).

Definition record_event (e : Event) (s : State) : State :=
  mkState (wallet s) (balance s) (currentUrl s) (provider s) (loading s) (logs s)
    (transferAmount s) (transferAddress s) (browserError s) (showWalletPopup s)
    (localStorage s) (timers s) (trace s ++ [e])
    (clockReads s) (randomDraws s) (logged s).

Definition tick_clock (s : State) : State :=
  mkState (wallet s) (balance s) (currentUrl s) (provider s) (loading s) (logs s)
    (transferAmount s) (transferAddress s) (browserError s) (showWalletPopup s)
    (localStorage s) (timers s) (trace s)
    (S (clockReads s)) (randomDraws s) (logged s).

Definition note_logged (message : string) (s : State) : State :=
  mkState (wallet s) (balance s) (currentUrl s) (provider s) (loading s) (logs s)
    (transferAmount s) (transferAddress s) (browserError s) (showWalletPopup s)
    (localStorage s) (timers s) (trace s)
    (clockReads s) (randomDraws s) (logged s ++ [message]).

Definition tick_random (s : State) : State :=
  mkState (wallet s) (balance s) (currentUrl s) (provider s) (loading s) (logs s)
    (transferAmount s) (transferAddress s) (browserError s) (showWalletPopup s)
    (localStorage s) (timers s) (trace s)
    (clockReads s) (S (randomDraws s)) (logged s).

(** ** The monad of handlers: state passing with thrown errors *)

Definition M (A : Type) : Type := State -> Res A * State.

Definition ret {A : Type} (a : A) : M A := fun s => (Ok a, s).

Definition bind {A B : Type} (m : M A) (k : A -> M B) : M B :=
  fun s =>
    match m s with
    | (Ok a, s') => k a s'
    | (Throw e, s') => (Throw e, s')
    end.

Definition throw {A : Type} (e : string) : M A := fun s => (Throw e, s).

Definition modify (f : State -> State) : M unit := fun s => (Ok tt, f s).

Definition gets {A : Type} (f : State -> A) : M A := fun s => (Ok (f s), s).

(** A synchronous call that may throw. *)
Definition lift_res {A : Type} (r : Res A) : M A := fun s => (r, s).

Declare Scope handler_scope.
Delimit Scope handler_scope with handler.
Notation "'let*' x ':=' m 'in' k" := (bind m (fun x => k))
  (at level 10, x name, m at level 100, k at level 200) : handler_scope.
Notation "m >> k" := (bind m (fun _ => k))
  (at level 100, k at level 200, right associativity) : handler_scope.
Open Scope handler_scope.

(** [try { body } catch (error) { handler } finally { fin }].  A [return]
    inside [body] is the end of [body]: [fin] still runs. *)
Definition try_catch_finally (body : M unit) (handler : string -> M unit)
    (fin : M unit) : M unit :=
  fun s =>
    match body s with
    | (Ok _, s1) => fin s1
    | (Throw e, s1) =>
        match handler e s1 with
        | (Ok _, s2) => fin s2
        | (Throw e', s2) =>
            match fin s2 with
            | (Ok _, s3) => (Throw e', s3)
            | thrown => thrown
            end
        end
    end.

(** [try { body } catch (error) { handler }]. *)
Definition try_catch (body : M unit) (handler : string -> M unit) : M unit :=
  fun s =>
    match body s with
    | (Ok _, s1) => (Ok tt, s1)
    | (Throw e, s1) => handler e s1
    end.

(** [setTimeout(cb, delay)]: the callback is queued, not run. *)
Definition setTimeout (cb : Callback) (delay : nat) : M unit :=
  modify (push_timer delay cb).

(** The state a handler leaves, and what it returns. *)
Definition exec {A : Type} (m : M A) (s : State) : State := snd (m s).
Definition result {A : Type} (m : M A) (s : State) : Res A := fst (m s).

(** ** Helpers shared by both documents *)

Section Shared.

Variable W : World.

(** [addLog] (lines 93-96, 778-781): reads the clock and appends. *)
Definition addLog (message : string) : M unit :=
  fun s =>
    let timestamp := toLocaleTimeString W (clockReads s) in
    (Ok tt,
     note_logged message (setLogs (addLog_update timestamp message) (tick_clock s))).

Definition localStorage_getItem (key : string) : M (option string) :=
  gets (fun s => localStorage s !! key).

Definition localStorage_setItem (key value : string) : M unit :=
  modify (storage_setItem key value).

Definition crypto_randomUUID : M string :=
  fun s => (Ok (randomUUID W (randomDraws s)), tick_random s).

Definition Wallet_createRandom : M (string * string) :=
  fun s => (Ok (createRandom W (randomDraws s)), tick_random s).

(** [contract.balanceOf(owner)]: a read through the provider. *)
Definition contract_balanceOf (token owner : string) : M Z :=
  fun s =>
    (rpc_balanceOf W (trace s) token owner,
     record_event (EvBalanceOf token owner) s).

(** [contract.mint/transfer/approve/deposit(...)] with a signing wallet. *)
Definition contract_send (signerKey contract : string) (call : TxCall)
  : M string :=
  fun s =>
    (rpc_send W (trace s) signerKey contract call,
     record_event (EvSend signerKey contract call) s).

(** [tx.wait()]. *)
Definition tx_wait (txHash : string) : M string :=
  fun s => (rpc_wait W (trace s) txHash, record_event (EvWait txHash) s).

(** [new ethers.Wallet(key, provider)]: the signer's address, or a throw
    on a malformed key. *)
Definition new_Wallet (key : string) : M string := lift_res (newWallet W key).

(** [generateDeviceFingerprint] (lines 44-63, 729-748). *)
Definition generateDeviceFingerprint : M string :=
  let* stored := localStorage_getItem "burgerbrows_device_id" in
  let* device_id :=
    (if JS.truthy stored then ret (default "" stored) else crypto_randomUUID) in
  let fingerprint :=
    String.concat "|"
      [userAgent W; language W; screen_width W ++ "x" ++ screen_height W;
       timezoneOffset W; canvas_toDataURL W; device_id] in
  ret (keccak256 W fingerprint).

(** [initializeWallet] (lines 66-90, 751-775). *)
Definition initializeWallet : M UserWallet :=
  let* stored := localStorage_getItem "burgerbrows_wallet" in
  if JS.truthy stored then
    let* walletData := lift_res (JSON_parse W (default "" stored)) in
    modify (setWallet walletData) >>
    addLog ("👋 Welcome back! Loaded wallet: "
            ++ JS.str_slice0 20 (address walletData) ++ "...") >>
    ret walletData
  else
    let* hash := generateDeviceFingerprint in
    let* created := Wallet_createRandom in
    let walletData :=
      {| address := fst created;
         privateKey := snd created;
         deviceHash := JS.str_slice0 16 hash |} in
    localStorage_setItem "burgerbrows_wallet" (JSON_stringify W walletData) >>
    let* uuid := crypto_randomUUID in
    localStorage_setItem "burgerbrows_device_id" uuid >>
    modify (setWallet walletData) >>
    addLog ("🆕 New wallet created: "
            ++ JS.str_slice0 20 (address walletData) ++ "...") >>
    addLog ("👤 Device ID: " ++ deviceHash walletData) >>
    ret walletData.

(** [copyWalletAddress] (lines 99-108, 784-793). *)
Definition copyWalletAddress : M unit :=
  let* w := gets wallet in
  match w with
  | Some w =>
      if JS.truthy (Some (address w)) then
        try_catch
          ((fun s => (clipboard_writeText W (trace s) (address w),
                      record_event (EvClipboard (address w)) s)) >>
           addLog "📋 Wallet address copied to clipboard!")
          (fun _ => addLog "❌ Failed to copy address")
      else ret tt
  | None => ret tt
  end.

(** [navigateToUrl] (lines 329-341, 1012-1024). *)
Definition navigateToUrl (url : string) : M unit :=
  let url :=
    if negb (JS.startsWith url "http://") && negb (JS.startsWith url "https://")
    then "https://" ++ url
    else url in
  modify (setCurrentUrl url) >>
  modify (setBrowserError "") >>
  addLog ("🌐 Navigating to: " ++ url) >>
  setTimeout CbBrowsingActivity 3000.

(** [handleIframeError] (lines 344-347, 1027-1030). *)
Definition handleIframeError : M unit :=
  let* url := gets currentUrl in
  modify (setBrowserError
    "This site cannot be displayed in an embedded frame due to security policies. Try a different URL.") >>
  addLog ("❌ Failed to load: " ++ url).

(** The iframe's [onLoad] (lines 668-671, 1309-1312). *)
Definition handleIframeLoad : M unit :=
  let* url := gets currentUrl in
  modify (setBrowserError "") >>
  addLog ("✅ Successfully loaded: " ++ url).

(** [safeSites] (lines 319-326, 1002-1009): (name, url). *)
Definition safeSites : list (string * string) :=
  [("Google", "/google-home.html");
   ("Test Page", "/test-page.html");
   ("Example", "https://example.com");
   ("Wikipedia", "https://en.wikipedia.org");
   ("Ethereum.org", "https://ethereum.org");
   ("DuckDuckGo", "https://duckduckgo.com")].

(** The Home button (lines 571-577, 1212-1218). *)
Definition onClick_Home : M unit := navigateToUrl "/google-home.html".

(** A quick-access button (lines 625-633, 1266-1274): the [index]-th safe
    site; no button exists past the end of the list. *)
Definition onClick_quickAccess (index : nat) : M unit :=
  match safeSites !! index with
  | Some site => navigateToUrl (snd site)
  | None => ret tt
  end.

End Shared.

(** Token amounts: [ethers.parseUnits('100', 6)], [('50', 6)], [('10', 6)],
    i.e. the literal scaled by the token's six decimals. *)
Definition units6 (whole : Z) : Z := (whole * 10 ^ 6)%Z.

(** ** First document (lines 1-678): hard-coded configuration *)

Module Page1.

(** [CONTRACTS] (lines 8-12). *)
Definition USDC_ADDRESS : string := "0xE32f7a8eB4Fb132675292306A5928071d126F082".
Definition BROWSER_VAULT : string := "0x9dAE42f31DB601fD0094c05d5b52Eb0a3074f786".
Definition REWARD_POOL : string := "0xc7Fd8EF7Ee3e93e8eff2E12715E504aDfbaE3750".

(** The key of the pre-funded hackathon wallet (lines 159 and 242). *)
Definition FAUCET_KEY : string :=
  "0x05b40792c4a08ab87063e304a619f586921473c6bd74834e322a9fc202951eec".

Section Operations.

Variable W : World.

(** [checkBalance] (lines 124-146). *)
Definition checkBalance (providerInstance : bool) (address_arg : option string)
  : M unit :=
  let* provider_set := gets provider in
  let* wallet_now := gets wallet in
  if negb provider_set && negb providerInstance then ret tt
  else if negb (bool_decide (is_Some wallet_now)) && negb (JS.truthy address_arg)
  then ret tt
  else
    let walletAddress :=
      if JS.truthy address_arg then default "" address_arg
      else default "" (address <$> wallet_now) in
    try_catch_finally
      (modify (setLoading true) >>
       addLog W "🏦 Checking USDC balance..." >>
       let* bal := contract_balanceOf W USDC_ADDRESS walletAddress in
       let formattedBalance := formatUnits6 W bal in
       modify (setBalance formattedBalance) >>
       addLog W ("💰 USDC Balance: " ++ formattedBalance))
      (fun error => addLog W ("❌ Error checking balance: " ++ error))
      (modify (setLoading false)).

(** [mintTestUSDC] (lines 149-182). *)
Definition mintTestUSDC : M unit :=
  let* provider_set := gets provider in
  let* wallet_now := gets wallet in
  match wallet_now with
  | Some wallet =>
    if negb provider_set then ret tt
    else
    try_catch_finally
      (modify (setLoading true) >>
       addLog W "🚰 Getting 100 test USDC from faucet..." >>
       let* _faucetWallet := new_Wallet W FAUCET_KEY in
       let amount := units6 100 in
       addLog W ("🎯 Minting to your wallet: "
                 ++ JS.str_slice0 20 (address wallet) ++ "...") >>
       let* tx := contract_send W FAUCET_KEY USDC_ADDRESS
                    (Mint (address wallet) amount) in
       addLog W ("📤 Transaction sent: " ++ JS.str_slice0 20 tx ++ "...") >>
       let* blockNumber := tx_wait W tx in
       addLog W "✅ USDC minted successfully!" >>
       addLog W ("🔗 Block: " ++ blockNumber) >>
       setTimeout CbCheckBalance 2000)
      (fun error => addLog W ("❌ Faucet error: " ++ error))
      (modify (setLoading false))
  | None => ret tt
  end.

(** [depositUSDC] (lines 185-229). *)
Definition depositUSDC : M unit :=
  let* provider_set := gets provider in
  let* wallet_now := gets wallet in
  match wallet_now with
  | Some wallet =>
    if negb provider_set then ret tt
    else
    try_catch_finally
      (modify (setLoading true) >>
       addLog W "🏦 Preparing USDC deposit to BrowserVault..." >>
       let* _userWallet := new_Wallet W (privateKey wallet) in
       let* bal := contract_balanceOf W USDC_ADDRESS (address wallet) in
       if (bal =? 0)%Z then
         addLog W "❌ No USDC to deposit. Use faucet first!"
       else
         let depositAmount := units6 50 in
         if (bal <? depositAmount)%Z then
           addLog W ("❌ Insufficient balance. Need 50 USDC, have "
                     ++ formatUnits6 W bal)
         else
           addLog W "🔐 Approving USDC spending..." >>
           let* approveTx := contract_send W (privateKey wallet) USDC_ADDRESS
                               (Approve BROWSER_VAULT depositAmount) in
           let* _ := tx_wait W approveTx in
           addLog W "🏦 Depositing 50 USDC to vault..." >>
           addLog W "✅ Would deposit 50 USDC to BrowserVault" >>
           addLog W "📝 Note: Full vault integration requires contract ABI" >>
           setTimeout CbCheckBalance 2000)
      (fun error => addLog W ("❌ Deposit error: " ++ error))
      (modify (setLoading false))
  | None => ret tt
  end.

(** [claimRewards] (lines 232-265). *)
Definition claimRewards : M unit :=
  let* provider_set := gets provider in
  let* wallet_now := gets wallet in
  match wallet_now with
  | Some wallet =>
    if negb provider_set then ret tt
    else
    try_catch_finally
      (modify (setLoading true) >>
       addLog W "🎁 Claiming browsing rewards..." >>
       let* _faucetWallet := new_Wallet W FAUCET_KEY in
       let rewardAmount := units6 10 in
       addLog W "🏆 Distributing 10 USDC browsing reward..." >>
       let* tx := contract_send W FAUCET_KEY USDC_ADDRESS
                    (Mint (address wallet) rewardAmount) in
       addLog W ("📤 Reward transaction: " ++ JS.str_slice0 20 tx ++ "...") >>
       let* _receipt := tx_wait W tx in
       addLog W "✅ Rewards claimed successfully!" >>
       addLog W "🎉 +10 USDC for active browsing" >>
       setTimeout CbCheckBalance 2000)
      (fun error => addLog W ("❌ Claim error: " ++ error))
      (modify (setLoading false))
  | None => ret tt
  end.

(** [transferUSDC] (lines 268-316). *)
Definition transferUSDC (toAddress amount : string) : M unit :=
  let* provider_set := gets provider in
  let* wallet_now := gets wallet in
  match wallet_now with
  | Some wallet =>
    if negb provider_set then ret tt
    else
    try_catch_finally
      (modify (setLoading true) >>
       addLog W ("💸 Preparing to send " ++ amount ++ " USDC...") >>
       if negb (isAddress W toAddress) then
         addLog W "❌ Invalid recipient address"
       else if JS.le_zero (JS.parseFloat amount) then
         addLog W "❌ Invalid amount"
       else
         let* _userWallet := new_Wallet W (privateKey wallet) in
         let* currentBalance :=
           contract_balanceOf W USDC_ADDRESS (address wallet) in
         let* transferAmount := lift_res (parseUnits6 W amount) in
         if (currentBalance <? transferAmount)%Z then
           addLog W ("❌ Insufficient balance. Have "
                     ++ formatUnits6 W currentBalance ++ " USDC")
         else
           addLog W ("📤 Sending " ++ amount ++ " USDC to "
                     ++ JS.str_slice0 8 toAddress ++ "..."
                     ++ JS.str_slice_last 4 toAddress) >>
           let* tx := contract_send W (privateKey wallet) USDC_ADDRESS
                        (Transfer toAddress transferAmount) in
           addLog W ("🔄 Transaction submitted: "
                     ++ JS.str_slice0 20 tx ++ "...") >>
           let* blockNumber := tx_wait W tx in
           addLog W "✅ Transfer completed!" >>
           addLog W ("🔗 Block: " ++ blockNumber) >>
           setTimeout CbCheckBalance 2000)
      (fun error => addLog W ("❌ Transfer failed: " ++ error))
      (modify (setLoading false))
  | None => ret tt
  end.

(** The mount effect (lines 111-121).  It runs in the closure of the
    first render, where [wallet] is still [null]: the address handed over
    is the only one [checkBalance] has there, and with an empty one it
    returns at its guard (line 126). *)
Definition onMount : M unit :=
  modify setProvider >>
  let* walletData := initializeWallet W in
  if JS.truthy (Some (address walletData))
  then checkBalance true (Some (address walletData))
  else ret tt.

(** The wallet popup's buttons (lines 422-476 and 508-521).  Each starts
    its operation and closes the popup. *)
Definition onClick_refresh : M unit :=
  checkBalance false None >> modify (setShowWalletPopup false).

Definition onClick_mint : M unit :=
  mintTestUSDC >> modify (setShowWalletPopup false).

Definition onClick_deposit : M unit :=
  depositUSDC >> modify (setShowWalletPopup false).

Definition onClick_claim : M unit :=
  claimRewards >> modify (setShowWalletPopup false).

Definition onClick_send : M unit :=
  let* to := gets transferAddress in
  let* amt := gets transferAmount in
  if JS.truthy (Some to) && JS.truthy (Some amt) then
    transferUSDC to amt >>
    modify (setTransferAddress "") >>
    modify (setTransferAmount "") >>
    modify (setShowWalletPopup false)
  else ret tt.

(** A timer comes due. *)
Definition fire (cb : Callback) : M unit :=
  match cb with
  | CbCheckBalance => checkBalance false None
  | CbBrowsingActivity =>
      addLog W "👀 Browsing activity detected - earning rewards!"
  end.

End Operations.

End Page1.

(** ** Second document (lines 679-1319): configuration from [process.env] *)

Module Page2.

(** [process.env] as the component reads it (lines 686-691, 710, 867, 966);
    [None] is [undefined]. *)
Record Env : Type := mkEnv {
  NEXT_PUBLIC_MOCK_USDC : option string;
  NEXT_PUBLIC_BROWSER_VAULT : option string;
  NEXT_PUBLIC_REWARD_POOL : option string;
  NEXT_PUBLIC_HACKATHON_WALLET : option string;
  NEXT_PUBLIC_RPC_URL : option string;
  NEXT_PUBLIC_HACKATHON_PRIVATE_KEY : option string
}.

Section Operations.

Variable W : World.
Variable env : Env.

Definition MOCK_USDC : option string := NEXT_PUBLIC_MOCK_USDC env.
Definition BROWSER_VAULT : option string := NEXT_PUBLIC_BROWSER_VAULT env.
Definition REWARD_POOL : option string := NEXT_PUBLIC_REWARD_POOL env.
Definition RPC_URL : option string := NEXT_PUBLIC_RPC_URL env.

(** [checkBalance] (lines 826-852). *)
Definition checkBalance (providerInstance : bool) (address_arg : option string)
  : M unit :=
  let* provider_set := gets provider in
  let* wallet_now := gets wallet in
  if negb provider_set && negb providerInstance then ret tt
  else if negb (bool_decide (is_Some wallet_now)) && negb (JS.truthy address_arg)
  then ret tt
  else if negb (JS.truthy MOCK_USDC) then
    addLog W "❌ MockUSDC contract not configured"
  else
    let walletAddress :=
      if JS.truthy address_arg then default "" address_arg
      else default "" (address <$> wallet_now) in
    try_catch_finally
      (modify (setLoading true) >>
       addLog W "🏦 Checking MockUSDC balance..." >>
       let* bal := contract_balanceOf W (default "" MOCK_USDC) walletAddress in
       let formattedBalance := formatUnits6 W bal in
       modify (setBalance formattedBalance) >>
       addLog W ("💰 MockUSDC Balance: " ++ formattedBalance))
      (fun error => addLog W ("❌ Error checking balance: " ++ error))
      (modify (setLoading false)).

(** [mintTestUSDC] (lines 855-895). *)
Definition mintTestUSDC : M unit :=
  let* provider_set := gets provider in
  let* wallet_now := gets wallet in
  match wallet_now with
  | Some wallet =>
    if negb provider_set then ret tt
    else if negb (JS.truthy MOCK_USDC) then
      addLog W "❌ MockUSDC contract not configured"
    else
    try_catch_finally
      (modify (setLoading true) >>
       addLog W "🚰 Minting 100 test USDC from MockUSDC faucet..." >>
       let hackathonPrivateKey := NEXT_PUBLIC_HACKATHON_PRIVATE_KEY env in
       if negb (JS.truthy hackathonPrivateKey) then
         addLog W "❌ Hackathon wallet not configured"
       else
         let key := default "" hackathonPrivateKey in
         let* _hackathonWallet := new_Wallet W key in
         let amount := units6 100 in
         addLog W ("🎯 Minting to your wallet: "
                   ++ JS.str_slice0 20 (address wallet) ++ "...") >>
         let* tx := contract_send W key (default "" MOCK_USDC)
                      (Mint (address wallet) amount) in
         addLog W ("📤 Mint transaction sent: "
                   ++ JS.str_slice0 20 tx ++ "...") >>
         let* blockNumber := tx_wait W tx in
         addLog W "✅ MockUSDC minted successfully!" >>
         addLog W ("🔗 Block: " ++ blockNumber) >>
         setTimeout CbCheckBalance 2000)
      (fun error => addLog W ("❌ Mint error: " ++ error))
      (modify (setLoading false))
  | None => ret tt
  end.

(** [depositUSDC] (lines 898-951).  The block-number line starts with
    U+FFFD in the source (line 942). *)
Definition depositUSDC : M unit :=
  let* provider_set := gets provider in
  let* wallet_now := gets wallet in
  match wallet_now with
  | Some wallet =>
    if negb provider_set then ret tt
    else if negb (JS.truthy MOCK_USDC) || negb (JS.truthy BROWSER_VAULT) then
      addLog W "❌ Contract addresses not configured"
    else
    try_catch_finally
      (modify (setLoading true) >>
       addLog W "🏦 Preparing MockUSDC deposit to BrowserVault..." >>
       let* _userWallet := new_Wallet W (privateKey wallet) in
       let* bal :=
         contract_balanceOf W (default "" MOCK_USDC) (address wallet) in
       if (bal =? 0)%Z then
         addLog W "❌ No MockUSDC to deposit. Use faucet first!"
       else
         let depositAmount := units6 50 in
         if (bal <? depositAmount)%Z then
           addLog W ("❌ Insufficient balance. Need 50 MockUSDC, have "
                     ++ formatUnits6 W bal)
         else
           addLog W "🔐 Approving BrowserVault to spend MockUSDC..." >>
           let* approveTx :=
             contract_send W (privateKey wallet) (default "" MOCK_USDC)
               (Approve (default "" BROWSER_VAULT) depositAmount) in
           let* _ := tx_wait W approveTx in
           addLog W "✅ Approval confirmed" >>
           addLog W "🏦 Depositing 50 MockUSDC to BrowserVault..." >>
           let* depositTx :=
             contract_send W (privateKey wallet) (default "" BROWSER_VAULT)
               (Deposit depositAmount) in
           addLog W ("📤 Deposit transaction: "
                     ++ JS.str_slice0 20 depositTx ++ "...") >>
           let* blockNumber := tx_wait W depositTx in
           addLog W "✅ Successfully deposited 50 MockUSDC to vault!" >>
           addLog W ("� Block: " ++ blockNumber) >>
           setTimeout CbCheckBalance 2000)
      (fun error => addLog W ("❌ Deposit error: " ++ error))
      (modify (setLoading false))
  | None => ret tt
  end.

(** [claimRewards] (lines 954-999). *)
Definition claimRewards : M unit :=
  let* provider_set := gets provider in
  let* wallet_now := gets wallet in
  match wallet_now with
  | Some wallet =>
    if negb provider_set then ret tt
    else if negb (JS.truthy MOCK_USDC) then
      addLog W "❌ MockUSDC contract not configured"
    else
    try_catch_finally
      (modify (setLoading true) >>
       addLog W "🎁 Claiming browsing rewards..." >>
       let hackathonPrivateKey := NEXT_PUBLIC_HACKATHON_PRIVATE_KEY env in
       if negb (JS.truthy hackathonPrivateKey) then
         addLog W "❌ Hackathon wallet not configured"
       else
         let key := default "" hackathonPrivateKey in
         let* hackathonAddress := new_Wallet W key in
         let rewardAmount := units6 10 in
         let* hackathonBalance :=
           contract_balanceOf W (default "" MOCK_USDC) hackathonAddress in
         if (hackathonBalance <? rewardAmount)%Z then
           addLog W ("❌ Insufficient reward funds. Available: "
                     ++ formatUnits6 W hackathonBalance ++ " USDC")
         else
           addLog W "🏆 Distributing 10 USDC browsing reward..." >>
           let* tx := contract_send W key (default "" MOCK_USDC)
                        (Transfer (address wallet) rewardAmount) in
           addLog W ("📤 Reward transaction: "
                     ++ JS.str_slice0 20 tx ++ "...") >>
           let* _receipt := tx_wait W tx in
           addLog W "✅ Rewards claimed successfully!" >>
           addLog W "🎉 +10 USDC for active browsing" >>
           setTimeout CbCheckBalance 2000)
      (fun error => addLog W ("❌ Claim error: " ++ error))
      (modify (setLoading false))
  | None => ret tt
  end.

(** The mount effect (lines 796-823).  As in the first document, the
    closure's [wallet] is [null], so that with an empty address
    [checkBalance] returns at its guard (line 828). *)
Definition onMount : M unit :=
  try_catch
    (if negb (JS.truthy RPC_URL) then
       addLog W "❌ RPC URL not configured"
     else if negb (JS.truthy MOCK_USDC) || negb (JS.truthy BROWSER_VAULT)
             || negb (JS.truthy REWARD_POOL) then
       addLog W "❌ Contract addresses not configured"
     else
       addLog W ("🔗 Connecting to RPC: "
                 ++ JS.str_slice0 50 (default "" RPC_URL) ++ "...") >>
       addLog W ("📋 Using MockUSDC contract: "
                 ++ JS.str_slice0 20 (default "" MOCK_USDC) ++ "...") >>
       modify setProvider >>
       let* walletData := initializeWallet W in
       addLog W ("💼 Wallet loaded: "
                 ++ JS.str_slice0 10 (address walletData) ++ "...") >>
       if JS.truthy (Some (address walletData))
       then checkBalance true (Some (address walletData))
       else ret tt)
    (fun error => addLog W ("❌ Failed to initialize: " ++ error)).

(** The wallet popup's buttons (lines 1105-1162).  The three operations
    are awaited, then a refresh is queued. *)
Definition onClick_refresh : M unit := checkBalance false None.

Definition onClick_mint : M unit :=
  mintTestUSDC >> setTimeout CbCheckBalance 3000.

Definition onClick_deposit : M unit :=
  depositUSDC >> setTimeout CbCheckBalance 3000.

Definition onClick_claim : M unit :=
  claimRewards >> setTimeout CbCheckBalance 3000.

(** A timer comes due. *)
Definition fire (cb : Callback) : M unit :=
  match cb with
  | CbCheckBalance => checkBalance false None
  | CbBrowsingActivity =>
      addLog W "👀 Browsing activity detected - earning rewards!"
  end.

End Operations.

End Page2.

(** ** A concrete world

    One world to run the handlers in: a chain that answers every balance
    read with [bal], accepts or rejects transactions as [send_ok] says,
    and library functions that follow ethers v6 on plain decimal and hex
    input. *)

Module Demo.

Fixpoint take_digits (s : string) : string * string :=
  match s with
  | String c s' =>
      if JS.is_digit c
      then let '(d, rest) := take_digits s' in (String c d, rest)
      else ("", s)
  | EmptyString => ("", "")
  end.

Fixpoint all_zero_digits (s : string) : bool :=
  match s with
  | String c s' => (JS.code c =? 48)%nat && all_zero_digits s'
  | EmptyString => true
  end.

Definition number_of_digits (s : string) : N := fst (fst (JS.read_digits 0 0 s)).

Fixpoint pad_right_zeros (n : nat) (s : string) : string :=
  match n, s with
  | O, _ => s
  | S n', String c s' => String c (pad_right_zeros n' s')
  | S n', EmptyString => String "0" (pad_right_zeros n' "")
  end.

(** [parseUnits(s, 6)]: the shape [-?digits[.digits]] with at least one
    digit and nothing but zeros after the sixth decimal. *)
Definition parse_units (s : string) : Res Z :=
  let '(neg, s1) :=
    match s with
    | String c s' => if (JS.code c =? 45)%nat then (true, s') else (false, s)
    | EmptyString => (false, s)
    end in
  let '(whole, s2) := take_digits s1 in
  let s3 :=
    match s2 with
    | String c s' => if (JS.code c =? 46)%nat then s' else s2
    | EmptyString => s2
    end in
  let '(frac, rest) := take_digits s3 in
  if negb (String.eqb rest "")
     || (String.length whole + String.length frac =? 0)%nat
  then Throw "TypeError: invalid FixedNumber string value"
  else
    let padded := pad_right_zeros 6 frac in
    if negb (all_zero_digits (String.substring 6 (String.length padded) padded))
    then Throw "Error: too many decimals for format"
    else
      let v := (Z.of_N (number_of_digits whole) * 10 ^ 6
                + Z.of_N (number_of_digits (String.substring 0 6 padded)))%Z in
      Ok (if neg then (- v)%Z else v).

Fixpoint trim_trailing_zeros (fuel : nat) (s : string) : string :=
  match fuel with
  | O => s
  | S fuel' =>
      if (2 <=? String.length s)%nat
         && String.eqb (JS.str_slice_last 1 s) "0"
      then trim_trailing_zeros fuel' (String.substring 0 (String.length s - 1) s)
      else s
  end.

Definition pad_left_zeros (n : nat) (s : string) : string :=
  String.concat "" (replicate (n - String.length s) "0") ++ s.

(** [formatUnits(n, 6)]: the whole part, a point, and the six decimals
    without trailing zeros (one is kept). *)
Definition format_units (n : Z) : string :=
  let a := Z.abs n in
  let whole := NilZero.string_of_uint (N.to_uint (Z.to_N (a / 10 ^ 6))) in
  let frac := pad_left_zeros 6
                (NilZero.string_of_uint (N.to_uint (Z.to_N (a mod 10 ^ 6)))) in
  (if (n <? 0)%Z then "-" else "") ++ whole ++ "." ++ trim_trailing_zeros 6 frac.

Definition is_hex (c : ascii) : bool :=
  JS.is_digit c
  || ((97 <=? JS.code c)%nat && (JS.code c <=? 102)%nat)
  || ((65 <=? JS.code c)%nat && (JS.code c <=? 70)%nat).

Fixpoint all_hex (s : string) : bool :=
  match s with
  | String c s' => is_hex c && all_hex s'
  | EmptyString => true
  end.

(** The shape test of [isAddress]: an optional ["0x"] and forty hex digits.
    (ethers goes on to test the checksum of a mixed-case address.) *)
Definition address_shape (s : string) : bool :=
  let body := if String.prefix "0x" s
              then String.substring 2 (String.length s) s else s in
  (String.length body =? 40)%nat && all_hex body.

Fixpoint until_quote (s : string) : string * string :=
  match s with
  | String c s' =>
      if (JS.code c =? 34)%nat then ("", s)
      else let '(v, rest) := until_quote s' in (String c v, rest)
  | EmptyString => ("", "")
  end.

Definition strip_prefix (p s : string) : option string :=
  if String.prefix p s
  then Some (String.substring (String.length p) (String.length s) s)
  else None.

Definition quote : string := String (ascii_of_nat 34) "".

Definition key_address : string := "{" ++ quote ++ "address" ++ quote ++ ":" ++ quote.
Definition key_privateKey : string :=
  quote ++ "," ++ quote ++ "privateKey" ++ quote ++ ":" ++ quote.
Definition key_deviceHash : string :=
  quote ++ "," ++ quote ++ "deviceHash" ++ quote ++ ":" ++ quote.

(** [JSON.stringify] of a wallet whose three strings need no escaping. *)
Definition stringify_wallet (w : UserWallet) : string :=
  key_address ++ address w ++ key_privateKey ++ privateKey w
  ++ key_deviceHash ++ deviceHash w ++ quote ++ "}".

(** [JSON.parse] on that layout; anything else is reported as an error. *)
Definition parse_wallet (text : string) : Res UserWallet :=
  match strip_prefix key_address text with
  | Some s1 =>
      let '(a, s2) := until_quote s1 in
      match strip_prefix key_privateKey s2 with
      | Some s3 =>
          let '(k, s4) := until_quote s3 in
          match strip_prefix key_deviceHash s4 with
          | Some s5 =>
              let '(d, s6) := until_quote s5 in
              if String.eqb s6 (quote ++ "}")
              then Ok (mkUserWallet a k d)
              else Throw "SyntaxError: Unexpected token"
          | None => Throw "SyntaxError: Unexpected token"
          end
      | None => Throw "SyntaxError: Unexpected token"
      end
  | None => Throw "SyntaxError: Unexpected token"
  end.

Definition user_address : string := "0x1111111111111111111111111111111111111111".
Definition user_key : string :=
  "0x2222222222222222222222222222222222222222222222222222222222222222".
Definition hackathon_address : string :=
  "0x3333333333333333333333333333333333333333".
Definition tx_hash : string :=
  "0x4444444444444444444444444444444444444444444444444444444444444444".

Definition world (bal : Z) (send_ok : bool) : World :=
  {| toLocaleTimeString := fun n =>
       "10:00:" ++ pad_left_zeros 2 (NilZero.string_of_uint (Nat.to_uint n));
     randomUUID := fun _ => "123e4567-e89b-42d3-a456-426614174000";
     createRandom := fun _ => (user_address, user_key);
     userAgent := "Mozilla/5.0";
     language := "en-US";
     screen_width := "1920";
     screen_height := "1080";
     timezoneOffset := "0";
     canvas_toDataURL := "data:image/png;base64,AAAA";
     keccak256 := fun _ =>
       "0x5555555555555555555555555555555555555555555555555555555555555555";
     JSON_stringify := stringify_wallet;
     JSON_parse := parse_wallet;
     isAddress := address_shape;
     parseUnits6 := parse_units;
     formatUnits6 := format_units;
     newWallet := fun key =>
       if String.eqb key user_key then Ok user_address else Ok hackathon_address;
     rpc_balanceOf := fun _ _ _ => Ok bal;
     rpc_send := fun _ _ _ _ =>
       if send_ok then Ok tx_hash else Throw "Error: transaction reverted";
     rpc_wait := fun _ _ => Ok "7";
     clipboard_writeText := fun _ _ => Ok tt |}.

Definition user : UserWallet :=
  {| address := user_address; privateKey := user_key;
     deviceHash := "0x55555555555555" |}.

(** The component before mount, on a browser with nothing stored. *)
Definition first_run : State := initial_state ∅.

(** The component after mount, with the wallet loaded. *)
Definition ready : State :=
  setWallet user (setProvider (initial_state ∅)).

Definition env : Page2.Env :=
  {| Page2.NEXT_PUBLIC_MOCK_USDC := Some "0xE32f7a8eB4Fb132675292306A5928071d126F082";
     Page2.NEXT_PUBLIC_BROWSER_VAULT := Some "0x9dAE42f31DB601fD0094c05d5b52Eb0a3074f786";
     Page2.NEXT_PUBLIC_REWARD_POOL := Some "0xc7Fd8EF7Ee3e93e8eff2E12715E504aDfbaE3750";
     Page2.NEXT_PUBLIC_HACKATHON_WALLET := Some hackathon_address;
     Page2.NEXT_PUBLIC_RPC_URL := Some "https://rpc.example/v2/key";
     Page2.NEXT_PUBLIC_HACKATHON_PRIVATE_KEY := Some Page1.FAUCET_KEY |}.

End Demo.

(** ** Vocabulary of the properties *)

(** [addLog] called on each message in turn. *)
Fixpoint addLog_all (W : World) (messages : list string) : M unit :=
  match messages with
  | [] => ret tt
  | m :: rest => addLog W m >> addLog_all W rest
  end.

(** The lines those calls write when the clock has been read [n] times
    before. *)
Fixpoint stamped (W : World) (n : nat) (messages : list string) : list string :=
  match messages with
  | [] => []
  | m :: rest => log_line (toLocaleTimeString W n) m :: stamped W (S n) rest
  end.

(** What a handler added between two states. *)
Definition new_lines (s s' : State) : list string :=
  drop (length (logged s)) (logged s').

Definition new_events (s s' : State) : list Event :=
  drop (length (trace s)) (trace s').

Definition new_timers (s s' : State) : list (nat * Callback) :=
  drop (length (timers s)) (timers s').

(** A handler gave up: it logged nothing at all, or the last thing it
    logged is one of the failure lines, which all start with the cross
    mark. *)
Definition aborted (s s' : State) : bool :=
  match last (new_lines s s') with
  | Some m => String.prefix "❌" m
  | None => true
  end.

Definition is_send (e : Event) : bool :=
  match e with EvSend _ _ _ => true | _ => false end.

Definition is_balance_read (e : Event) : bool :=
  match e with EvBalanceOf _ _ => true | _ => false end.

Definition is_storage_write (e : Event) : bool :=
  match e with EvSetItem _ _ => true | _ => false end.

Definition is_deposit_call (e : Event) : bool :=
  match e with EvSend _ _ (Deposit _) => true | _ => false end.

(** [initializeWallet] called [n] times in a row. *)
Fixpoint initializeWallet_times (W : World) (n : nat) : M (list UserWallet) :=
  match n with
  | O => ret []
  | S n' =>
      let* w := initializeWallet W in
      let* ws := initializeWallet_times W n' in
      ret (w :: ws)
  end.

(** *** The sequencer's table, row by row, as properties of an operation

    [claim] is a claim-reward operation for the token at [token] paid by
    the wallet whose key is [key]. *)
Definition checks_funds_then_transfers (token key : string)
    (claim : World -> M unit) : Prop :=
  forall (W : World) (s : State) (w : UserWallet) (payer : string) (b : Z),
    wallet s = Some w ->
    provider s = true ->
    newWallet W key = Ok payer ->
    rpc_balanceOf W (trace s) token payer = Ok b ->
    let s' := exec (claim W) s in
    ((b < units6 10)%Z ->
       new_events s s' = [EvBalanceOf token payer]
       /\ aborted s s' = true)
    /\ ((units6 10 <= b)%Z ->
        exists rest,
          new_events s s'
          = EvBalanceOf token payer
            :: EvSend key token (Transfer (address w) (units6 10)) :: rest).

(** [deposit] is a deposit operation of the token at [token] into the
    vault at [vault]. *)
Definition reads_approves_deposits (token vault : string)
    (deposit : World -> M unit) : Prop :=
  forall (W : World) (s : State) (w : UserWallet) (signer : string) (b : Z)
         (approveTx receipt : string),
    wallet s = Some w ->
    provider s = true ->
    newWallet W (privateKey w) = Ok signer ->
    rpc_balanceOf W (trace s) token (address w) = Ok b ->
    (units6 50 <= b)%Z ->
    rpc_send W (trace s ++ [EvBalanceOf token (address w)])
      (privateKey w) token (Approve vault (units6 50)) = Ok approveTx ->
    rpc_wait W (trace s ++ [EvBalanceOf token (address w);
                            EvSend (privateKey w) token (Approve vault (units6 50))])
      approveTx = Ok receipt ->
    exists rest,
      new_events s (exec (deposit W) s)
      = ([EvBalanceOf token (address w);
          EvSend (privateKey w) token (Approve vault (units6 50));
          EvWait approveTx;
          EvSend (privateKey w) vault (Deposit (units6 50))] ++ rest)%list.

(** [op] queues a balance refresh of two to three seconds whatever its
    outcome, once wallet and provider are there. *)
Definition always_queues_refresh (op : World -> M unit) : Prop :=
  forall (W : World) (s : State) (w : UserWallet),
    wallet s = Some w ->
    provider s = true ->
    exists delay,
      2000 <= delay <= 3000
      /\ (delay, CbCheckBalance) ∈ new_timers s (exec (op W) s).

(** *** The success path of an operation, read off the answers of the
    outside: every test passes and every call answers.

    [r] is an answer, not a throw. *)
Definition answered {A : Type} (r : Res A) : bool :=
  match r with
  | Ok _ => true
  | Throw _ => false
  end.

(** The transaction [call], requested after the requests [before], is
    accepted and its confirmation arrives. *)
Definition confirmed (W : World) (before : list Event)
    (key contract : string) (call : TxCall) : bool :=
  match rpc_send W before key contract call with
  | Ok tx => answered (rpc_wait W (before ++ [EvSend key contract call]) tx)
  | Throw _ => false
  end.

(** The refresh an operation queues for itself. *)
Definition refresh_if (success : bool) : list (nat * Callback) :=
  if success then [(2000, CbCheckBalance)] else [].

Module Succeeds.

Section Paths.

Variable W : World.
Variable s : State.          (* the state the operation starts in *)
Variable w : UserWallet.     (* the wallet of that state *)

(** A mint of [amount] to the user, signed with [key]: the mint and the
    claim of the first document, the mint of the second. *)
Definition mint (key token : string) (amount : Z) : bool :=
  answered (newWallet W key)
  && confirmed W (trace s) key token (Mint (address w) amount).

(** The deposit of the first document: funds for 50 units, then the
    approve. *)
Definition approve (token vault : string) : bool :=
  answered (newWallet W (privateKey w))
  && match rpc_balanceOf W (trace s) token (address w) with
     | Ok bal =>
         negb (bal =? 0)%Z && negb (bal <? units6 50)%Z
         && confirmed W (trace s ++ [EvBalanceOf token (address w)])
              (privateKey w) token (Approve vault (units6 50))
     | Throw _ => false
     end.

(** The deposit of the second document: funds for 50 units, the approve,
    then the deposit on the vault. *)
Definition approve_and_deposit (token vault : string) : bool :=
  let read := EvBalanceOf token (address w) in
  let approval := Approve vault (units6 50) in
  answered (newWallet W (privateKey w))
  && match rpc_balanceOf W (trace s) token (address w) with
     | Ok bal =>
         negb (bal =? 0)%Z && negb (bal <? units6 50)%Z
         && match rpc_send W (trace s ++ [read]) (privateKey w) token approval with
            | Ok approveTx =>
                answered (rpc_wait W
                            (trace s ++ [read; EvSend (privateKey w) token approval])
                            approveTx)
                && confirmed W
                     (trace s ++ [read; EvSend (privateKey w) token approval;
                                  EvWait approveTx])
                     (privateKey w) vault (Deposit (units6 50))
            | Throw _ => false
            end
     | Throw _ => false
     end.

(** The peer transfer: both validations, funds for the amount, then the
    transfer. *)
Definition transfer (token toAddress amount : string) : bool :=
  isAddress W toAddress
  && negb (JS.le_zero (JS.parseFloat amount))
  && answered (newWallet W (privateKey w))
  && match rpc_balanceOf W (trace s) token (address w) with
     | Ok currentBalance =>
         match parseUnits6 W amount with
         | Ok transferAmount =>
             negb (currentBalance <? transferAmount)%Z
             && confirmed W (trace s ++ [EvBalanceOf token (address w)])
                  (privateKey w) token (Transfer toAddress transferAmount)
         | Throw _ => false
         end
     | Throw _ => false
     end.

(** The claim of the second document: the paying wallet holds the
    reward, then the transfer of 10 units to the user. *)
Definition reward_transfer (key token : string) : bool :=
  match newWallet W key with
  | Ok payer =>
      match rpc_balanceOf W (trace s) token payer with
      | Ok hackathonBalance =>
          negb (hackathonBalance <? units6 10)%Z
          && confirmed W (trace s ++ [EvBalanceOf token payer])
               key token (Transfer (address w) (units6 10))
      | Throw _ => false
      end
  | Throw _ => false
  end.

End Paths.

End Succeeds.

(** *** Reasoning about one handler at a time

    What the properties observe of a state: the requests, the messages,
    the timers and the busy flag. *)
Record Obs : Type := mkObs {
  o_trace : list Event;
  o_logged : list string;
  o_timers : list (nat * Callback);
  o_loading : bool
}.

Definition obs (s : State) : Obs :=
  {| o_trace := trace s; o_logged := logged s; o_timers := timers s;
     o_loading := loading s |}.

Definition o_same (o : Obs) : Obs := o.
Definition o_setLoading (b : bool) (o : Obs) : Obs :=
  mkObs (o_trace o) (o_logged o) (o_timers o) b.
Definition o_line (m : string) (o : Obs) : Obs :=
  mkObs (o_trace o) (o_logged o ++ [m]) (o_timers o) (o_loading o).
Definition o_event (e : Event) (o : Obs) : Obs :=
  mkObs (o_trace o ++ [e]) (o_logged o) (o_timers o) (o_loading o).
Definition o_timer (d : nat) (cb : Callback) (o : Obs) : Obs :=
  mkObs (o_trace o) (o_logged o) (o_timers o ++ [(d, cb)]) (o_loading o).

(** [Q] holds of what [m] returns and of the state it leaves. *)
Definition wp {A : Type} (m : M A) (s : State) (Q : Res A -> State -> Prop)
  : Prop :=
  Q (fst (m s)) (snd (m s)).

(** An operation never throws to its caller, and it has queued its own
    refresh exactly when it did not give up. *)
Definition settles (op : M unit) (s : State) : Prop :=
  wp op s (fun r s' =>
    r = Ok tt
    /\ timers s'
       = (timers s ++ if aborted s s' then [] else [(2000, CbCheckBalance)])%list).

(** ** What the component renders, and the events it wires

    The JSX is the same in both documents for everything below, apart
    from the Send section, which only the first document has. *)

Module View.

(** The wallet button's label (lines 612, 1253):
    [wallet ? `${wallet.address.slice(0, 6)}...${wallet.address.slice(-4)}`
            : 'Wallet']. *)
Definition walletLabel (s : State) : string :=
  match wallet s with
  | Some w =>
      JS.str_slice0 6 (address w) ++ "..." ++ JS.str_slice_last 4 (address w)
  | None => "Wallet"
  end.

(** The popup's Recent Activity (lines 532, 1173): [logs.slice(-3)]. *)
Definition recentActivity (s : State) : list string :=
  JS.slice_last 3 (logs s).

(** [browserError ? <error panel> : <iframe src={currentUrl}>]
    (lines 639-673, 1280-1314). *)
Definition errorPanel (s : State) : bool := JS.truthy (Some (browserError s)).

Definition iframe_src (s : State) : option string :=
  if errorPanel s then None else Some (currentUrl s).

(** The sites the error panel offers (lines 648, 1289):
    [safeSites.slice(0, 3)]. *)
Definition fallbackSites : list (string * string) := take 3 safeSites.

(** The Send button's [disabled] (line 517). *)
Definition sendDisabled (s : State) : bool :=
  loading s
  || negb (JS.truthy (Some (transferAddress s)))
  || negb (JS.truthy (Some (transferAmount s))).

End View.

(** A timer leaves the queue when it fires. *)
Definition clear_timer (index : nat) (s : State) : State :=
  mkState (wallet s) (balance s) (currentUrl s) (provider s) (loading s) (logs s)
    (transferAmount s) (transferAddress s) (browserError s) (showWalletPopup s)
    (localStorage s) (delete index (timers s)) (trace s)
    (clockReads s) (randomDraws s) (logged s).

Section Events.

Variable W : World.

(** The wallet button (lines 606, 1247). *)
Definition onClick_walletIcon : M unit :=
  let* shown := gets showWalletPopup in
  modify (setShowWalletPopup (negb shown)).

(** The popup's backdrop and its close button (lines 356, 374). *)
Definition onClick_closePopup : M unit := modify (setShowWalletPopup false).

(** The address bar (lines 589-590, 1230-1231). *)
Definition onChange_addressBar (value : string) : M unit :=
  modify (setCurrentUrl value).

Definition onKeyPress_addressBar (key : string) : M unit :=
  if String.eqb key "Enter"
  then let* url := gets currentUrl in navigateToUrl W url
  else ret tt.

(** A button of the error panel (lines 648-656, 1289-1297). *)
Definition onClick_fallback (index : nat) : M unit :=
  match View.fallbackSites !! index with
  | Some site => navigateToUrl W (snd site)
  | None => ret tt
  end.

End Events.

(** *** The first document as a session: mount, then events one after
    the other, each handler run to its end before the next event is
    taken.  An event reaches its handler only when the element that
    carries it is rendered and enabled; a pending timer may come due at
    any point, in any order.  The back, forward and reload buttons
    (lines 553-567) hand over to the browser ([window.history],
    [window.location]) and are no events of a session. *)

Module Session1.

Inductive Action : Type :=
| ClickWalletIcon
| ClickClosePopup
| ClickCopyAddress
| ClickRefresh
| ClickMint
| ClickDeposit
| ClickClaim
| TypeRecipient (value : string)
| TypeAmount (value : string)
| ClickSend
| ClickHome
| TypeUrl (value : string)
| KeyPress (key : string)
| ClickQuickAccess (index : nat)
| ClickFallback (index : nat)
| IframeError
| IframeLoad
| TimerFires (index : nat).        (* the [index]-th pending timer comes due *)

Section Run.

Variable W : World.

Definition timer_fires (index : nat) : M unit :=
  let* pending := gets timers in
  match pending !! index with
  | Some timer => modify (clear_timer index) >> Page1.fire W (snd timer)
  | None => ret tt
  end.

Definition dispatch (a : Action) : M unit :=
  let* popup := gets showWalletPopup in
  let* busy := gets loading in
  let* now := gets id in
  match a with
  | ClickWalletIcon => onClick_walletIcon
  | ClickClosePopup => if popup then onClick_closePopup else ret tt
  | ClickCopyAddress =>
      if popup && bool_decide (is_Some (wallet now))
      then copyWalletAddress W else ret tt
  | ClickRefresh =>
      if popup && negb busy then Page1.onClick_refresh W else ret tt
  | ClickMint =>
      if popup && negb busy then Page1.onClick_mint W else ret tt
  | ClickDeposit =>
      if popup && negb busy then Page1.onClick_deposit W else ret tt
  | ClickClaim =>
      if popup && negb busy then Page1.onClick_claim W else ret tt
  | TypeRecipient value =>
      if popup then modify (setTransferAddress value) else ret tt
  | TypeAmount value =>
      if popup then modify (setTransferAmount value) else ret tt
  | ClickSend =>
      if popup && negb (View.sendDisabled now)
      then Page1.onClick_send W else ret tt
  | ClickHome => onClick_Home W
  | TypeUrl value => onChange_addressBar value
  | KeyPress key => onKeyPress_addressBar W key
  | ClickQuickAccess index => onClick_quickAccess W index
  | ClickFallback index =>
      if View.errorPanel now then onClick_fallback W index else ret tt
  | IframeError =>
      if View.errorPanel now then ret tt else handleIframeError W
  | IframeLoad =>
      if View.errorPanel now then ret tt else handleIframeLoad W
  | TimerFires index => timer_fires index
  end.

(** An error a handler lets through is reported by the browser; the next
    event finds the state the handler left. *)
Definition run (actions : list Action) (s : State) : State :=
  fold_left (fun s a => exec (dispatch a) s) actions s.

Definition mounted (storage : gmap string string) : State :=
  exec (Page1.onMount W) (initial_state storage).

Definition session (storage : gmap string string) (actions : list Action)
  : State :=
  run actions (mounted storage).

End Run.

(** What the first document may ask of the outside on behalf of the
    wallet [w]: its own balance on the token; a mint of 100 or 10 units to
    [w] signed with the faucet key; an approve of the vault for 50 units
    or a transfer, signed with the key of [w]; writes of the two storage
    keys; the address of [w] on the clipboard. *)
Definition permitted (w : UserWallet) (e : Event) : bool :=
  match e with
  | EvBalanceOf token owner =>
      String.eqb token Page1.USDC_ADDRESS && String.eqb owner (address w)
  | EvSend key contract call =>
      String.eqb contract Page1.USDC_ADDRESS
      && match call with
         | Mint to amount =>
             String.eqb key Page1.FAUCET_KEY && String.eqb to (address w)
             && ((amount =? units6 100)%Z || (amount =? units6 10)%Z)
         | Approve spender amount =>
             String.eqb key (privateKey w)
             && String.eqb spender Page1.BROWSER_VAULT
             && (amount =? units6 50)%Z
         | Transfer _ _ => String.eqb key (privateKey w)
         | Deposit _ => false
         end
  | EvWait _ => true
  | EvSetItem key _ =>
      String.eqb key "burgerbrows_wallet" || String.eqb key "burgerbrows_device_id"
  | EvClipboard text => String.eqb text (address w)
  end.

End Session1.

(** *** The second document as a session *)

Module Session2.

Inductive Action : Type :=
| ClickWalletIcon
| ClickClosePopup
| ClickCopyAddress
| ClickRefresh
| ClickMint
| ClickDeposit
| ClickClaim
| ClickHome
| TypeUrl (value : string)
| KeyPress (key : string)
| ClickQuickAccess (index : nat)
| ClickFallback (index : nat)
| IframeError
| IframeLoad
| TimerFires (index : nat).

Section Run.

Variable W : World.
Variable env : Page2.Env.

Definition timer_fires (index : nat) : M unit :=
  let* pending := gets timers in
  match pending !! index with
  | Some timer => modify (clear_timer index) >> Page2.fire W env (snd timer)
  | None => ret tt
  end.

Definition dispatch (a : Action) : M unit :=
  let* popup := gets showWalletPopup in
  let* busy := gets loading in
  let* now := gets id in
  match a with
  | ClickWalletIcon => onClick_walletIcon
  | ClickClosePopup => if popup then onClick_closePopup else ret tt
  | ClickCopyAddress =>
      if popup && bool_decide (is_Some (wallet now))
      then copyWalletAddress W else ret tt
  | ClickRefresh =>
      if popup && negb busy then Page2.onClick_refresh W env else ret tt
  | ClickMint =>
      if popup && negb busy then Page2.onClick_mint W env else ret tt
  | ClickDeposit =>
      if popup && negb busy then Page2.onClick_deposit W env else ret tt
  | ClickClaim =>
      if popup && negb busy then Page2.onClick_claim W env else ret tt
  | ClickHome => onClick_Home W
  | TypeUrl value => onChange_addressBar value
  | KeyPress key => onKeyPress_addressBar W key
  | ClickQuickAccess index => onClick_quickAccess W index
  | ClickFallback index =>
      if View.errorPanel now then onClick_fallback W index else ret tt
  | IframeError =>
      if View.errorPanel now then ret tt else handleIframeError W
  | IframeLoad =>
      if View.errorPanel now then ret tt else handleIframeLoad W
  | TimerFires index => timer_fires index
  end.

Definition run (actions : list Action) (s : State) : State :=
  fold_left (fun s a => exec (dispatch a) s) actions s.

Definition mounted (storage : gmap string string) : State :=
  exec (Page2.onMount W env) (initial_state storage).

Definition session (storage : gmap string string) (actions : list Action)
  : State :=
  run actions (mounted storage).

(** What the second document may ask of the outside on behalf of the
    wallet [w]: balances on the token, of [w] or of the paying wallet; a
    mint of 100 units or a transfer of 10 units to [w] on the token,
    signed with the paying key; an approve of the vault for 50 units on
    the token and a deposit of 50 units on the vault, signed with the key
    of [w]; writes of the two storage keys; the address of [w] on the
    clipboard. *)
Definition permitted (w : UserWallet) (e : Event) : bool :=
  let token := default "" (Page2.MOCK_USDC env) in
  let vault := default "" (Page2.BROWSER_VAULT env) in
  let payingKey := default "" (Page2.NEXT_PUBLIC_HACKATHON_PRIVATE_KEY env) in
  match e with
  | EvBalanceOf contract owner =>
      String.eqb contract token
      && (String.eqb owner (address w)
          || match newWallet W payingKey with
             | Ok payer => String.eqb owner payer
             | Throw _ => false
             end)
  | EvSend key contract call =>
      match call with
      | Mint to amount =>
          String.eqb key payingKey && String.eqb contract token
          && String.eqb to (address w) && (amount =? units6 100)%Z
      | Transfer to amount =>
          String.eqb key payingKey && String.eqb contract token
          && String.eqb to (address w) && (amount =? units6 10)%Z
      | Approve spender amount =>
          String.eqb key (privateKey w) && String.eqb contract token
          && String.eqb spender vault && (amount =? units6 50)%Z
      | Deposit amount =>
          String.eqb key (privateKey w) && String.eqb contract vault
          && (amount =? units6 50)%Z
      end
  | EvWait _ => true
  | EvSetItem key _ =>
      String.eqb key "burgerbrows_wallet" || String.eqb key "burgerbrows_device_id"
  | EvClipboard text => String.eqb text (address w)
  end.

End Run.

End Session2.

(** *** More worlds and browsers to run the component in *)

Module Scenario.

(** The world [W] with another answer to transactions. *)
Definition with_send (W : World)
    (send : list Event -> string -> string -> TxCall -> Res string) : World :=
  mkWorld (toLocaleTimeString W) (randomUUID W) (createRandom W)
    (userAgent W) (language W) (screen_width W) (screen_height W)
    (timezoneOffset W) (canvas_toDataURL W) (keccak256 W)
    (JSON_stringify W) (JSON_parse W) (isAddress W)
    (parseUnits6 W) (formatUnits6 W) (newWallet W)
    (rpc_balanceOf W) send (rpc_wait W) (clipboard_writeText W).

(** A chain that holds 50 units for every address, accepts approvals and
    reverts deposits. *)
Definition vault_reverts : World :=
  with_send (Demo.world 50000000 true)
    (fun _ _ _ call =>
       match call with
       | Deposit _ => Throw "Error: execution reverted"
       | _ => Ok Demo.tx_hash
       end).

(** A browser whose stored wallet record is not JSON. *)
Definition corrupted : gmap string string :=
  {[ "burgerbrows_wallet" := "{oops" ]}.

(** A browser that has run the component before. *)
Definition returning : gmap string string :=
  <[ "burgerbrows_device_id" := "123e4567-e89b-42d3-a456-426614174000" ]>
    {[ "burgerbrows_wallet" := Demo.stringify_wallet Demo.user ]}.

(** An environment without the paying key. *)
Definition env_without_key : Page2.Env :=
  {| Page2.NEXT_PUBLIC_MOCK_USDC := Page2.NEXT_PUBLIC_MOCK_USDC Demo.env;
     Page2.NEXT_PUBLIC_BROWSER_VAULT := Page2.NEXT_PUBLIC_BROWSER_VAULT Demo.env;
     Page2.NEXT_PUBLIC_REWARD_POOL := Page2.NEXT_PUBLIC_REWARD_POOL Demo.env;
     Page2.NEXT_PUBLIC_HACKATHON_WALLET := None;
     Page2.NEXT_PUBLIC_RPC_URL := Page2.NEXT_PUBLIC_RPC_URL Demo.env;
     Page2.NEXT_PUBLIC_HACKATHON_PRIVATE_KEY := None |}.

(** An environment with nothing set. *)
Definition env_empty : Page2.Env :=
  {| Page2.NEXT_PUBLIC_MOCK_USDC := None;
     Page2.NEXT_PUBLIC_BROWSER_VAULT := None;
     Page2.NEXT_PUBLIC_REWARD_POOL := None;
     Page2.NEXT_PUBLIC_HACKATHON_WALLET := None;
     Page2.NEXT_PUBLIC_RPC_URL := None;
     Page2.NEXT_PUBLIC_HACKATHON_PRIVATE_KEY := None |}.

(** A first visit with the first document: get test tokens, let the
    refresh fire, send 5 units, then browse to a site that refuses to be
    framed and take the third site the error panel offers. *)
Definition first_visit : list Session1.Action :=
  [Session1.ClickWalletIcon; Session1.ClickMint; Session1.TimerFires 0;
   Session1.ClickWalletIcon; Session1.TypeRecipient Demo.hackathon_address;
   Session1.TypeAmount "5"; Session1.ClickSend; Session1.TypeUrl "example.com";
   Session1.KeyPress "Enter"; Session1.IframeError; Session1.ClickFallback 2].

(** A later visit with the second document: deposit, claim, let the
    button's refresh fire, copy the address, close the popup. *)
Definition later_visit : list Session2.Action :=
  [Session2.ClickWalletIcon; Session2.ClickDeposit; Session2.ClickClaim;
   Session2.TimerFires 1; Session2.ClickCopyAddress; Session2.ClickClosePopup].

End Scenario.

(** The text [generateDeviceFingerprint] hashes, for an installation id. *)
Definition fingerprint_text (W : World) (device_id : string) : string :=
  String.concat "|"
    [userAgent W; language W; screen_width W ++ "x" ++ screen_height W;
     timezoneOffset W; canvas_toDataURL W; device_id].

(** *** Invariants of a session *)

(** Every line ever written: the initial one, then one per call of
    [addLog], stamped with the successive readings of the clock. *)
Definition log_history (W : World) (s : State) : list string :=
  (initial_logs ++ stamped W 0 (logged s))%list.

(** The log shows the last eleven lines of the history. *)
Definition log_in_step (W : World) (s : State) : Prop :=
  logs s = JS.slice_last 11 (log_history W s)
  /\ clockReads s = length (logged s).

(** The requests a wallet (or the lack of one) allows. *)
Definition within (permitted : UserWallet -> Event -> bool)
    (w : option UserWallet) (e : Event) : bool :=
  match w with
  | Some w => permitted w e
  | None => false
  end.

(** What stays put once the component is mounted: the wallet, the
    provider and storage; and which requests are allowed. *)
Record Frame : Type := mkFrame {
  frame_wallet : option UserWallet;
  frame_provider : bool;
  frame_storage : gmap string string;
  frame_allows : Event -> bool
}.

(** [s] is a state of the mounted component: wallet, provider and storage
    are those of the frame, the log follows the history, and every request
    made so far is allowed. *)
Definition steady (W : World) (F : Frame) (s : State) : Prop :=
  wallet s = frame_wallet F
  /\ provider s = frame_provider F
  /\ localStorage s = frame_storage F
  /\ log_in_step W s
  /\ forallb (frame_allows F) (trace s) = true.

(** [m] keeps [I]. *)
Definition keeps {A : Type} (I : State -> Prop) (m : M A) : Prop :=
  forall s, I s -> I (exec m s).

(** No operation is in flight: the buttons are enabled. *)
Definition idle (s : State) : Prop := loading s = false.

(** [m] returns normally from every state: nothing is thrown to the
    caller. *)
Definition returns {A : Type} (m : M A) : Prop :=
  forall s, exists a, result m s = Ok a.

(** * Properties *)

(** ** Built-ins *)

Lemma prefix_app (p rest : string) : String.prefix p (p ++ rest) = true.
Proof.
  induction p as [|c p IH]; simpl.
  - now destruct rest.
  - destruct (ascii_dec c c) as [_|ne]; [exact IH | now destruct ne].
Qed.

Lemma prefix_inv (p s : string) :
  String.prefix p s = true -> exists rest, s = p ++ rest.
Proof.
  revert s. induction p as [|c p IH]; intros s H.
  - now exists s.
  - destruct s as [|d s]; simpl in H; [discriminate|].
    destruct (ascii_dec c d) as [->|]; [|discriminate].
    destruct (IH _ H) as [rest ->]. now exists rest.
Qed.

Lemma startsWith_false (s p : string) :
  (forall rest, s <> p ++ rest) -> JS.startsWith s p = false.
Proof.
  intros H. unfold JS.startsWith.
  destruct (String.prefix p s) eqn:E; [|reflexivity].
  destruct (prefix_inv _ _ E) as [rest ->]. now destruct (H rest).
Qed.

Lemma slice_last_length {A : Type} (n : nat) (xs : list A) :
  length (JS.slice_last n xs) <= n.
Proof. unfold JS.slice_last. rewrite length_drop. lia. Qed.

Lemma slice_last_snoc {A : Type} (n : nat) (xs : list A) (x : A) :
  (JS.slice_last n xs ++ [x])%list = JS.slice_last (S n) (xs ++ [x]).
Proof.
  unfold JS.slice_last. rewrite length_app. simpl.
  replace (length xs + 1 - S n) with (length xs - n) by lia.
  rewrite drop_app_le by lia. reflexivity.
Qed.

Lemma slice_last_absorb {A : Type} (n : nat) (xs ys : list A) :
  JS.slice_last n (JS.slice_last n xs ++ ys) = JS.slice_last n (xs ++ ys).
Proof.
  unfold JS.slice_last.
  rewrite !length_app, length_drop.
  destruct (Nat.le_gt_cases (length xs) n) as [Hle|Hgt].
  - replace (length xs - n) with 0 by lia. simpl.
    now rewrite Nat.sub_0_r.
  - replace (length xs - (length xs - n) + length ys - n) with (length ys) by lia.
    replace (length xs + length ys - n) with ((length xs - n) + length ys) by lia.
    rewrite <- drop_drop. rewrite (drop_app_le xs ys) by lia. reflexivity.
Qed.

(** ** Activity log *)

Lemma addLog_logs (W : World) (s : State) (m : string) :
  logs (exec (addLog W m) s)
  = (JS.slice_last 10 (logs s)
     ++ [log_line (toLocaleTimeString W (clockReads s)) m])%list.
Proof. reflexivity. Qed.

Lemma addLog_clock (W : World) (s : State) (m : string) :
  clockReads (exec (addLog W m) s) = S (clockReads s).
Proof. reflexivity. Qed.

Lemma addLog_all_cons (W : World) (m : string) (ms : list string) (s : State) :
  exec (addLog_all W (m :: ms)) s = exec (addLog_all W ms) (exec (addLog W m) s).
Proof. reflexivity. Qed.

Lemma addLog_all_logs (W : World) (ms : list string) (s : State) :
  JS.slice_last 11 (logs (exec (addLog_all W ms) s))
  = JS.slice_last 11 (logs s ++ stamped W (clockReads s) ms).
Proof.
  revert s. induction ms as [|m ms IH]; intros s.
  - simpl. now rewrite app_nil_r.
  - rewrite addLog_all_cons, IH, addLog_logs, addLog_clock.
    rewrite slice_last_snoc, slice_last_absorb.
    simpl stamped. now rewrite <- app_assoc.
Qed.

Lemma addLog_all_length (W : World) (m : string) (ms : list string) (s : State) :
  length (logs (exec (addLog_all W (m :: ms)) s)) <= 11.
Proof.
  revert m s. induction ms as [|m' ms IH]; intros m s.
  - change (exec (addLog_all W [m]) s) with (exec (addLog W m) s).
    rewrite addLog_logs, length_app. simpl.
    pose proof (slice_last_length 10 (logs s)). lia.
  - rewrite addLog_all_cons. apply IH.
Qed.

Lemma slice_last_all {A : Type} (n : nat) (xs : list A) :
  length xs <= n -> JS.slice_last n xs = xs.
Proof.
  intros H. unfold JS.slice_last.
  now replace (length xs - n) with 0 by lia.
Qed.

(** C6. Each append keeps at most the last ten earlier lines, in their
    order, and puts the new line after them; so the log never holds more
    than eleven lines, a run of appends leaves the last eleven lines of
    everything written so far, and fifteen appends after the initial line
    leave exactly the lines of the last eleven messages, oldest first. *)
Theorem log_append_only_bounded_fifo (W : World) :
  (forall s m,
      logs (exec (addLog W m) s)
      = (JS.slice_last 10 (logs s)
         ++ [log_line (toLocaleTimeString W (clockReads s)) m])%list)
  /\ (forall s m, length (logs (exec (addLog W m) s)) <= 11)
  /\ (forall s m ms,
         logs (exec (addLog_all W (m :: ms)) s)
         = JS.slice_last 11 (logs s ++ stamped W (clockReads s) (m :: ms)))
  /\ (forall storage (f : nat -> string),
         let s' := exec (addLog_all W (map f (seq 0 15))) (initial_state storage) in
         logs s' = stamped W 4 (map f (seq 4 11)) /\ length (logs s') = 11).
Proof.
  split; [|split; [|split]].
  - intros s m. apply addLog_logs.
  - intros s m. rewrite addLog_logs, length_app. simpl.
    pose proof (slice_last_length 10 (logs s)). lia.
  - intros s m ms.
    rewrite <- addLog_all_logs.
    symmetry. apply slice_last_all. apply addLog_all_length.
  - intros storage f s'.
    assert (E : logs s' = stamped W 4 (map f (seq 4 11))).
    { subst s'. change (seq 0 15) with (0 :: seq 1 14). rewrite map_cons.
      rewrite <- (slice_last_all 11 (logs _)) by apply addLog_all_length.
      rewrite addLog_all_logs. reflexivity. }
    split; [exact E|]. rewrite E. reflexivity.
Qed.

(** ** Browser viewport *)

Lemma navigateToUrl_target (W : World) (s : State) (url : string) :
  currentUrl (exec (navigateToUrl W url) s)
  = if negb (JS.startsWith url "http://") && negb (JS.startsWith url "https://")
    then "https://" ++ url else url.
Proof. reflexivity. Qed.

(** C8. Navigating to ["example.com"] sets the viewport target to
    ["https://example.com"]; a URL that starts with ["http://"] or
    ["https://"] becomes the target as it is; any other input becomes the
    target with ["https://"] put in front. *)
Theorem navigateToUrl_normalizes_scheme (W : World) (s : State) :
  currentUrl (exec (navigateToUrl W "example.com") s) = "https://example.com"
  /\ (forall rest,
         currentUrl (exec (navigateToUrl W ("http://" ++ rest)) s)
         = "http://" ++ rest)
  /\ (forall rest,
         currentUrl (exec (navigateToUrl W ("https://" ++ rest)) s)
         = "https://" ++ rest)
  /\ (forall url,
         (forall rest, url <> "http://" ++ rest) ->
         (forall rest, url <> "https://" ++ rest) ->
         currentUrl (exec (navigateToUrl W url) s) = "https://" ++ url).
Proof.
  split; [reflexivity|]. split; [|split].
  - intros rest. rewrite navigateToUrl_target.
    unfold JS.startsWith. now rewrite (prefix_app "http://" rest).
  - intros rest. rewrite navigateToUrl_target.
    unfold JS.startsWith. rewrite (prefix_app "https://" rest).
    now rewrite andb_false_r.
  - intros url H1 H2. rewrite navigateToUrl_target.
    now rewrite (startsWith_false _ _ H1), (startsWith_false _ _ H2).
Qed.

Lemma navigateToUrl_normalizes_scheme_witness :
  currentUrl (exec (navigateToUrl (Demo.world 0 true) "example.com") Demo.ready)
  = "https://example.com".
Proof.
  apply (proj2 (proj2 (proj2
           (navigateToUrl_normalizes_scheme (Demo.world 0 true) Demo.ready)))).
  - intros rest H. discriminate H.
  - intros rest H. discriminate H.
Defined.

(** C10. The prefix is put in front of the component's own root-relative
    paths too: the Home button and the first two quick links call
    [navigateToUrl] with ["/google-home.html"] and ["/test-page.html"],
    and the viewport target becomes ["https:///google-home.html"]
    (resp. ["https:///test-page.html"]), not the path the component started
    on. *)
Theorem home_path_gets_https_prefix (W : World) (s : State) :
  currentUrl (exec (navigateToUrl W "/google-home.html") s)
  = "https:///google-home.html"
  /\ currentUrl (exec (onClick_Home W) s) = "https:///google-home.html"
  /\ currentUrl (exec (onClick_quickAccess W 0) s) = "https:///google-home.html"
  /\ map (fun i => currentUrl (exec (onClick_quickAccess W i) s)) (seq 0 6)
     = ["https:///google-home.html"; "https:///test-page.html";
        "https://example.com"; "https://en.wikipedia.org";
        "https://ethereum.org"; "https://duckduckgo.com"]
  /\ currentUrl (exec (onClick_Home W) s) <> currentUrl (initial_state ∅).
Proof.
  repeat split; try reflexivity. intros H. discriminate H.
Qed.

(** ** Running an operation

    The handlers are straight-line code over the answers of the world, so
    their properties are read off by following every answer. *)

Ltac unfold_handler :=
  unfold exec, result,
    Page1.transferUSDC, Page1.mintTestUSDC, Page1.depositUSDC,
    Page1.claimRewards, Page1.checkBalance,
    Page1.onClick_mint, Page1.onClick_deposit, Page1.onClick_claim,
    Page1.onClick_send, Page1.onClick_refresh,
    Page2.mintTestUSDC, Page2.depositUSDC, Page2.claimRewards,
    Page2.checkBalance,
    Page2.onClick_mint, Page2.onClick_deposit, Page2.onClick_claim,
    Page2.MOCK_USDC, Page2.BROWSER_VAULT, Page2.REWARD_POOL, Page2.RPC_URL,
    bind, gets, try_catch_finally, try_catch, new_Wallet, lift_res.

(** Splits on the next answer the goal depends on. *)
Ltac follow_answer :=
  match goal with
  | |- context [match ?x with _ => _ end] =>
      lazymatch x with
      | context [match _ with _ => _ end] => fail
      | context [aborted] => fail
      | _ => destruct x eqn:?
      end
  end.

Ltac follow_all := repeat (follow_answer; cbn).

Ltac read_off :=
  unfold aborted, new_lines, new_events, new_timers; cbn;
  rewrite <- ?app_assoc;
  rewrite ?drop_app_length, ?drop_all, ?app_nil_r; cbn.

Lemma not_elem_of_1 {A : Type} (x a : A) : x <> a -> x ∉ [a].
Proof. intros H Hin. apply list_elem_of_singleton in Hin. contradiction. Qed.

(** ** Peer transfer: validation *)

(** C7. With wallet and provider in place, [transferUSDC] tests the
    recipient first and the amount second.  A recipient [isAddress]
    rejects ends the operation with the invalid-address line, whatever the
    amount; an accepted recipient with an amount that parses to a number
    [<= 0] ends it with the invalid-amount line.  In both cases nothing has
    been asked of the chain (no balance read, no transaction), and ["0"] is
    such an amount. *)
Theorem transfer_validation_short_circuits
    (W : World) (s : State) (w : UserWallet) (toAddress amount : string) :
  wallet s = Some w ->
  provider s = true ->
  let s' := exec (Page1.transferUSDC W toAddress amount) s in
  (isAddress W toAddress = false ->
     new_lines s s'
     = [("💸 Preparing to send " ++ amount ++ " USDC...")%string;
        "❌ Invalid recipient address"]
     /\ new_events s s' = [])
  /\ (isAddress W toAddress = true ->
      JS.le_zero (JS.parseFloat amount) = true ->
      new_lines s s'
      = [("💸 Preparing to send " ++ amount ++ " USDC...")%string;
         "❌ Invalid amount"]
      /\ new_events s s' = [])
  /\ JS.le_zero (JS.parseFloat "0") = true.
Proof.
  intros Hw Hp s'. subst s'. split; [|split].
  - intros Ha. unfold_handler. rewrite Hw, Hp. cbn. rewrite Ha. cbn.
    read_off. now split.
  - intros Ha Hz. unfold_handler. rewrite Hw, Hp. cbn. rewrite Ha. cbn.
    rewrite Hz. read_off. now split.
  - reflexivity.
Qed.

Lemma transfer_validation_short_circuits_witness :
  (let s' := exec (Page1.transferUSDC (Demo.world 0 true) "not-an-address" "5")
               Demo.ready in
   new_lines Demo.ready s'
   = ["💸 Preparing to send 5 USDC..."; "❌ Invalid recipient address"]
   /\ new_events Demo.ready s' = [])
  /\ (let s' := exec (Page1.transferUSDC (Demo.world 0 true)
                        Demo.hackathon_address "0") Demo.ready in
      new_lines Demo.ready s'
      = ["💸 Preparing to send 0 USDC..."; "❌ Invalid amount"]
      /\ new_events Demo.ready s' = []).
Proof.
  split.
  - apply (proj1 (transfer_validation_short_circuits (Demo.world 0 true)
                    Demo.ready Demo.user "not-an-address" "5"
                    eq_refl eq_refl)).
    reflexivity.
  - apply (proj1 (proj2 (transfer_validation_short_circuits (Demo.world 0 true)
                           Demo.ready Demo.user Demo.hackathon_address "0"
                           eq_refl eq_refl))).
    + reflexivity.
    + reflexivity.
Defined.

Ltac not_among :=
  rewrite ?not_elem_of_cons; repeat split;
  try apply not_elem_of_nil; try (intros Heq; cbn in Heq; discriminate Heq).

(** C9. The amount test rejects only what parses to a number [<= 0].  For
    an amount [parseFloat] turns into [NaN] (["abc"] is one), with an
    accepted recipient and a well-formed stored key, [transferUSDC] does
    not log the invalid-amount line and goes on to read the balance; when
    [parseUnits] then throws on that amount, nothing else is asked of the
    chain and the operation ends in the catch branch with the
    transfer-failed line (carrying the error of the balance read, had that
    failed first). *)
Theorem transfer_nan_amount_passes_validation
    (W : World) (s : State) (w : UserWallet) (toAddress amount signer : string) :
  wallet s = Some w ->
  provider s = true ->
  isAddress W toAddress = true ->
  JS.parseFloat amount = JS.NaN ->
  newWallet W (privateKey w) = Ok signer ->
  let s' := exec (Page1.transferUSDC W toAddress amount) s in
  ("❌ Invalid amount" ∉ new_lines s s')
  /\ (exists rest,
         new_events s s' = EvBalanceOf Page1.USDC_ADDRESS (address w) :: rest)
  /\ (forall e,
         parseUnits6 W amount = Throw e ->
         new_events s s' = [EvBalanceOf Page1.USDC_ADDRESS (address w)]
         /\ new_lines s s'
            = [("💸 Preparing to send " ++ amount ++ " USDC...")%string;
               ("❌ Transfer failed: "
                ++ match rpc_balanceOf W (trace s) Page1.USDC_ADDRESS (address w) with
                   | Throw read_error => read_error
                   | Ok _ => e
                   end)%string])
  /\ JS.parseFloat "abc" = JS.NaN
  /\ JS.le_zero JS.NaN = false.
Proof.
  intros Hw Hp Ha Hnan Hkey s'. subst s'.
  split; [|split; [|split; [|split; reflexivity]]].
  - unfold_handler. rewrite Hw, Hp. cbn. rewrite Ha, Hnan, Hkey. cbn.
    follow_all; read_off; not_among.
  - unfold_handler. rewrite Hw, Hp. cbn. rewrite Ha, Hnan, Hkey. cbn.
    follow_all; read_off; eexists; reflexivity.
  - intros e He.
    unfold_handler. rewrite Hw, Hp. cbn. rewrite Ha, Hnan, Hkey. cbn.
    rewrite He.
    destruct (rpc_balanceOf W (trace s) Page1.USDC_ADDRESS (address w));
      cbn; read_off; now split.
Qed.

Lemma transfer_nan_amount_passes_validation_witness :
  let s' := exec (Page1.transferUSDC (Demo.world 0 true)
                    Demo.hackathon_address "abc") Demo.ready in
  new_events Demo.ready s'
  = [EvBalanceOf Page1.USDC_ADDRESS Demo.user_address]
  /\ new_lines Demo.ready s'
     = ["💸 Preparing to send abc USDC...";
        "❌ Transfer failed: TypeError: invalid FixedNumber string value"].
Proof.
  apply (proj1 (proj2 (proj2
           (transfer_nan_amount_passes_validation (Demo.world 0 true)
              Demo.ready Demo.user Demo.hackathon_address "abc"
              Demo.user_address eq_refl eq_refl eq_refl eq_refl eq_refl)))
           "TypeError: invalid FixedNumber string value").
  reflexivity.
Defined.


(** ** Rules for the handler monad

    One rule per construct and per primitive.  A rule for a primitive
    names the state the primitive leaves and says how it is observed,
    relative to the state before. *)

Lemma wp_exec {A : Type} (m : M A) (s : State) (P : State -> Prop) :
  wp m s (fun _ s' => P s') -> P (exec m s).
Proof. exact (fun H => H). Qed.

Lemma wp_ret {A : Type} (a : A) (s : State) (Q : Res A -> State -> Prop) :
  Q (Ok a) s -> wp (ret a) s Q.
Proof. exact (fun H => H). Qed.

Lemma wp_bind {A B : Type} (m : M A) (k : A -> M B) (s : State)
    (Q : Res B -> State -> Prop) :
  wp m s (fun r s1 =>
            match r with
            | Ok a => wp (k a) s1 Q
            | Throw e => Q (Throw e) s1
            end) ->
  wp (bind m k) s Q.
Proof.
  unfold wp, bind. destruct (m s) as [[a|e] s1]; exact (fun H => H).
Qed.

Lemma wp_gets {A : Type} (f : State -> A) (s : State)
    (Q : Res A -> State -> Prop) :
  Q (Ok (f s)) s -> wp (gets f) s Q.
Proof. exact (fun H => H). Qed.

Lemma wp_lift_res {A : Type} (r : Res A) (s : State)
    (Q : Res A -> State -> Prop) :
  Q r s -> wp (lift_res r) s Q.
Proof. exact (fun H => H). Qed.

Lemma wp_new_Wallet (W : World) (key : string) (s : State)
    (Q : Res string -> State -> Prop) :
  Q (newWallet W key) s -> wp (new_Wallet W key) s Q.
Proof. exact (fun H => H). Qed.

Lemma wp_silent (f : State -> State) (s : State)
    (Q : Res unit -> State -> Prop) :
  (forall s0, obs (f s0) = obs s0) ->
  (forall s1, obs s1 = o_same (obs s) -> Q (Ok tt) s1) ->
  wp (modify f) s Q.
Proof. intros Hf H. apply H. apply Hf. Qed.

Lemma wp_setLoading (b : bool) (s : State) (Q : Res unit -> State -> Prop) :
  (forall s1, obs s1 = o_setLoading b (obs s) -> Q (Ok tt) s1) ->
  wp (modify (setLoading b)) s Q.
Proof. intros H. apply H. reflexivity. Qed.

Lemma wp_addLog (W : World) (m : string) (s : State)
    (Q : Res unit -> State -> Prop) :
  (forall s1, obs s1 = o_line m (obs s) -> Q (Ok tt) s1) ->
  wp (addLog W m) s Q.
Proof. intros H. apply H. reflexivity. Qed.

Lemma wp_setTimeout (cb : Callback) (d : nat) (s : State)
    (Q : Res unit -> State -> Prop) :
  (forall s1, obs s1 = o_timer d cb (obs s) -> Q (Ok tt) s1) ->
  wp (setTimeout cb d) s Q.
Proof. intros H. apply H. reflexivity. Qed.

Lemma wp_balanceOf (W : World) (token owner : string) (s : State)
    (Q : Res Z -> State -> Prop) :
  (forall s1, obs s1 = o_event (EvBalanceOf token owner) (obs s) ->
              Q (rpc_balanceOf W (o_trace (obs s)) token owner) s1) ->
  wp (contract_balanceOf W token owner) s Q.
Proof. intros H. apply H. reflexivity. Qed.

Lemma wp_send (W : World) (key contract : string) (call : TxCall) (s : State)
    (Q : Res string -> State -> Prop) :
  (forall s1, obs s1 = o_event (EvSend key contract call) (obs s) ->
              Q (rpc_send W (o_trace (obs s)) key contract call) s1) ->
  wp (contract_send W key contract call) s Q.
Proof. intros H. apply H. reflexivity. Qed.

Lemma wp_wait (W : World) (tx : string) (s : State)
    (Q : Res string -> State -> Prop) :
  (forall s1, obs s1 = o_event (EvWait tx) (obs s) ->
              Q (rpc_wait W (o_trace (obs s)) tx) s1) ->
  wp (tx_wait W tx) s Q.
Proof. intros H. apply H. reflexivity. Qed.

Lemma wp_try_catch_finally (body : M unit) (handler : string -> M unit)
    (fin : M unit) (s : State) (Q : Res unit -> State -> Prop) :
  wp body s (fun r s1 =>
    match r with
    | Ok _ => wp fin s1 Q
    | Throw e =>
        wp (handler e) s1 (fun r2 s2 =>
          match r2 with
          | Ok _ => wp fin s2 Q
          | Throw e' =>
              wp fin s2 (fun r3 s3 =>
                match r3 with
                | Ok _ => Q (Throw e') s3
                | Throw e3 => Q (Throw e3) s3
                end)
          end)
    end) ->
  wp (try_catch_finally body handler fin) s Q.
Proof.
  unfold wp, try_catch_finally.
  destruct (body s) as [[[]|e] s1]; cbn [fst snd].
  - destruct (fin s1) as [[[]|?] ?]; exact (fun H => H).
  - destruct (handler e s1) as [[[]|e'] s2]; cbn [fst snd].
    + destruct (fin s2) as [[[]|?] ?]; exact (fun H => H).
    + destruct (fin s2) as [[[]|?] ?]; exact (fun H => H).
Qed.

Ltac obs_simpl_in H :=
  cbv beta iota delta
    [o_same o_setLoading o_line o_event o_timer
     o_trace o_logged o_timers o_loading] in H.

Ltac obs_simpl :=
  cbv beta iota delta
    [o_same o_setLoading o_line o_event o_timer
     o_trace o_logged o_timers o_loading].

(** Names the state a primitive leaves and rewrites what is observed of
    it in terms of the state the handler started in. *)
Ltac wp_intro :=
  let s1 := fresh "s" in
  let H := fresh "Hobs" in
  intros s1 H;
  lazymatch type of H with
  | obs _ = _ (obs ?s0) =>
      lazymatch goal with
      | Hp : obs s0 = _ |- _ =>
          rewrite Hp in H; obs_simpl_in H;
          rewrite <- ?app_assoc in H; cbn [app] in H;
          try (rewrite Hp; obs_simpl);
          clear Hp; try clear s0
      end
  end.

(** Uses an assumption about the answer or the test at hand. *)
Ltac wp_known c :=
  match goal with
  | H : c = _ |- _ => rewrite H
  | H : ?l = _ |- _ => match c with context [l] => rewrite H end
  end.

Ltac wp_step :=
  lazymatch goal with
  | |- wp (bind _ _) _ _ => apply wp_bind
  | |- wp (ret _) _ _ => apply wp_ret
  | |- wp (gets _) _ _ => apply wp_gets
  | |- wp (lift_res _) _ _ => apply wp_lift_res
  | |- wp (new_Wallet _ _) _ _ => apply wp_new_Wallet
  | |- wp (modify (setLoading _)) _ _ => apply wp_setLoading; wp_intro
  | |- wp (modify (setShowWalletPopup _)) _ _ =>
      apply wp_silent; [reflexivity | wp_intro]
  | |- wp (modify (setTransferAddress _)) _ _ =>
      apply wp_silent; [reflexivity | wp_intro]
  | |- wp (modify (setTransferAmount _)) _ _ =>
      apply wp_silent; [reflexivity | wp_intro]
  | |- wp (addLog _ _) _ _ => apply wp_addLog; wp_intro
  | |- wp (setTimeout _ _) _ _ => apply wp_setTimeout; wp_intro
  | |- wp (contract_balanceOf _ _ _) _ _ => apply wp_balanceOf; wp_intro
  | |- wp (contract_send _ _ _ _) _ _ => apply wp_send; wp_intro
  | |- wp (tx_wait _ _) _ _ => apply wp_wait; wp_intro
  | |- wp (try_catch_finally _ _ _) _ _ => apply wp_try_catch_finally
  | |- wp (if ?c then _ else _) _ _ =>
      first [ progress (repeat wp_known c); cbn [negb andb orb]
            | destruct c eqn:? ]
  | |- wp (match ?x with _ => _ end) _ _ =>
      first [ progress (repeat wp_known x) | destruct x eqn:? ]
  | |- match ?r with _ => _ end =>
      first [ progress (repeat wp_known r) | destruct r eqn:? ]
  end;
  cbv beta iota zeta; cbn [default from_option id].

(** Turns a statement about the state [exec m s] into one about [m]. *)
Ltac wp_start :=
  match goal with
  | |- context [exec ?m ?s] =>
      pattern (exec m s); apply wp_exec;
      let H := fresh "Hobs" in
      assert (H : obs s = mkObs (trace s) (logged s) (timers s) (loading s))
        by reflexivity
  end.

(** Reads the observations of the final state into the goal. *)
Ltac wp_finish :=
  unfold aborted; unfold new_events, new_lines, new_timers;
  repeat match goal with
  | H : obs ?s1 = _ |- _ =>
      change (trace s1) with (o_trace (obs s1));
      change (logged s1) with (o_logged (obs s1));
      change (timers s1) with (o_timers (obs s1));
      change (loading s1) with (o_loading (obs s1));
      rewrite H; clear H
  end;
  obs_simpl;
  rewrite <- ?app_assoc;
  rewrite ?drop_app_length, ?drop_all, ?app_nil_r; cbn [app last].


(** ** Deposit *)

Lemma truthy_Some (v : string) : v <> "" -> JS.truthy (Some v) = true.
Proof.
  intros H. unfold JS.truthy. apply negb_true_iff. now apply String.eqb_neq.
Qed.

(** C4. With wallet, provider and a well-formed stored key, when the
    balance read answers less than 50 units (0 and 30 included),
    [depositUSDC] stops there: the balance read is the only thing asked of
    the chain (no approve, no deposit), the last line logged is the
    no-funds line for a balance of 0 and otherwise the insufficient-balance
    line that names the 50 needed and the balance held, no refresh is
    queued and the busy flag is back to false.  Both documents agree, up to
    the token's name in the lines. *)
Theorem deposit_aborts_below_fifty
    (W : World) (s : State) (w : UserWallet) (signer : string) (b : Z) :
  wallet s = Some w ->
  provider s = true ->
  newWallet W (privateKey w) = Ok signer ->
  (b < units6 50)%Z ->
  (rpc_balanceOf W (trace s) Page1.USDC_ADDRESS (address w) = Ok b ->
   let s' := exec (Page1.depositUSDC W) s in
   new_events s s' = [EvBalanceOf Page1.USDC_ADDRESS (address w)]
   /\ new_lines s s'
      = ["🏦 Preparing USDC deposit to BrowserVault...";
         if (b =? 0)%Z then "❌ No USDC to deposit. Use faucet first!"
         else ("❌ Insufficient balance. Need 50 USDC, have "
               ++ formatUnits6 W b)%string]
   /\ new_timers s s' = []
   /\ loading s' = false)
  /\ (forall (env : Page2.Env) (token vault : string),
         Page2.NEXT_PUBLIC_MOCK_USDC env = Some token -> token <> "" ->
         Page2.NEXT_PUBLIC_BROWSER_VAULT env = Some vault -> vault <> "" ->
         rpc_balanceOf W (trace s) token (address w) = Ok b ->
         let s' := exec (Page2.depositUSDC W env) s in
         new_events s s' = [EvBalanceOf token (address w)]
         /\ new_lines s s'
            = ["🏦 Preparing MockUSDC deposit to BrowserVault...";
               if (b =? 0)%Z then "❌ No MockUSDC to deposit. Use faucet first!"
               else ("❌ Insufficient balance. Need 50 MockUSDC, have "
                     ++ formatUnits6 W b)%string]
         /\ new_timers s s' = []
         /\ loading s' = false).
Proof.
  intros Hw Hp Hkey Hb. apply Z.ltb_lt in Hb. split.
  - intros Hbal s'. subst s'.
    wp_start. unfold Page1.depositUSDC.
    repeat wp_step; wp_finish; repeat split; reflexivity.
  - intros env token vault Ht Htne Hv Hvne Hbal s'. subst s'.
    apply truthy_Some in Htne, Hvne.
    wp_start. unfold Page2.depositUSDC, Page2.MOCK_USDC, Page2.BROWSER_VAULT.
    rewrite Ht, Hv.
    repeat wp_step; wp_finish; repeat split; reflexivity.
Qed.

Lemma deposit_aborts_below_fifty_witness :
  (let s' := exec (Page1.depositUSDC (Demo.world 0 true)) Demo.ready in
   new_events Demo.ready s'
   = [EvBalanceOf Page1.USDC_ADDRESS Demo.user_address]
   /\ new_lines Demo.ready s'
      = ["🏦 Preparing USDC deposit to BrowserVault...";
         "❌ No USDC to deposit. Use faucet first!"]
   /\ new_timers Demo.ready s' = []
   /\ loading s' = false)
  /\ (let s' := exec (Page2.depositUSDC (Demo.world 30000000 true) Demo.env)
                  Demo.ready in
      new_events Demo.ready s'
      = [EvBalanceOf Page1.USDC_ADDRESS Demo.user_address]
      /\ new_lines Demo.ready s'
         = ["🏦 Preparing MockUSDC deposit to BrowserVault...";
            "❌ Insufficient balance. Need 50 MockUSDC, have 30.0"]
      /\ new_timers Demo.ready s' = []
      /\ loading s' = false).
Proof.
  split.
  - apply (proj1 (deposit_aborts_below_fifty (Demo.world 0 true) Demo.ready
                    Demo.user Demo.user_address 0
                    eq_refl eq_refl eq_refl eq_refl)).
    reflexivity.
  - apply (proj2 (deposit_aborts_below_fifty (Demo.world 30000000 true)
                    Demo.ready Demo.user Demo.user_address 30000000
                    eq_refl eq_refl eq_refl eq_refl)
             Demo.env Page1.USDC_ADDRESS Page1.BROWSER_VAULT).
    + reflexivity.
    + intros H. discriminate H.
    + reflexivity.
    + intros H. discriminate H.
    + reflexivity.
Defined.


Lemma deposit_page2_follows_table (env : Page2.Env) (token vault : string) :
  Page2.NEXT_PUBLIC_MOCK_USDC env = Some token -> token <> "" ->
  Page2.NEXT_PUBLIC_BROWSER_VAULT env = Some vault -> vault <> "" ->
  reads_approves_deposits token vault (fun W => Page2.depositUSDC W env).
Proof.
  intros Ht Htne Hv Hvne W s w signer b approveTx receipt
         Hw Hp Hkey Hbal Hb Happrove Hwait.
  apply truthy_Some in Htne, Hvne.
  assert (Hz : (b =? 0)%Z = false) by (apply Z.eqb_neq; unfold units6 in Hb; lia).
  assert (Hlt : (b <? units6 50)%Z = false) by (apply Z.ltb_ge; exact Hb).
  wp_start. unfold Page2.depositUSDC, Page2.MOCK_USDC, Page2.BROWSER_VAULT.
  rewrite Ht, Hv.
  repeat wp_step; wp_finish; eexists; reflexivity.
Qed.

Lemma deposit_page1_stops_after_approve
    (W : World) (s : State) (w : UserWallet) (signer : string) (b : Z)
    (approveTx receipt : string) :
  wallet s = Some w ->
  provider s = true ->
  newWallet W (privateKey w) = Ok signer ->
  rpc_balanceOf W (trace s) Page1.USDC_ADDRESS (address w) = Ok b ->
  (units6 50 <= b)%Z ->
  rpc_send W (trace s ++ [EvBalanceOf Page1.USDC_ADDRESS (address w)])
    (privateKey w) Page1.USDC_ADDRESS
    (Approve Page1.BROWSER_VAULT (units6 50)) = Ok approveTx ->
  rpc_wait W (trace s ++ [EvBalanceOf Page1.USDC_ADDRESS (address w);
                          EvSend (privateKey w) Page1.USDC_ADDRESS
                            (Approve Page1.BROWSER_VAULT (units6 50))])
    approveTx = Ok receipt ->
  let s' := exec (Page1.depositUSDC W) s in
  new_events s s'
  = [EvBalanceOf Page1.USDC_ADDRESS (address w);
     EvSend (privateKey w) Page1.USDC_ADDRESS
       (Approve Page1.BROWSER_VAULT (units6 50));
     EvWait approveTx]
  /\ new_lines s s'
     = ["🏦 Preparing USDC deposit to BrowserVault...";
        "🔐 Approving USDC spending...";
        "🏦 Depositing 50 USDC to vault...";
        "✅ Would deposit 50 USDC to BrowserVault";
        "📝 Note: Full vault integration requires contract ABI"].
Proof.
  intros Hw Hp Hkey Hbal Hb Happrove Hwait s'. subst s'.
  assert (Hz : (b =? 0)%Z = false) by (apply Z.eqb_neq; unfold units6 in Hb; lia).
  assert (Hlt : (b <? units6 50)%Z = false) by (apply Z.ltb_ge; exact Hb).
  wp_start. unfold Page1.depositUSDC.
  repeat wp_step; wp_finish; split; reflexivity.
Qed.

(** C2 (as amended). With wallet, provider, a well-formed stored key, a
    balance of at least 50 units and an approve that is sent and
    confirmed: in the document configured from [process.env] the
    operation asks, in this order, for the balance, for an [approve] of
    the vault for 50 units signed with the user's key, for its
    confirmation, and for a [deposit] of 50 units on the vault signed with
    the user's key; in the hard-coded document it stops after the
    confirmation of the approve, logs that it would deposit, and sends no
    deposit. *)
Theorem deposit_sequence_by_document :
  (forall (env : Page2.Env) (token vault : string),
      Page2.NEXT_PUBLIC_MOCK_USDC env = Some token -> token <> "" ->
      Page2.NEXT_PUBLIC_BROWSER_VAULT env = Some vault -> vault <> "" ->
      reads_approves_deposits token vault (fun W => Page2.depositUSDC W env))
  /\ (forall (W : World) (s : State) (w : UserWallet) (signer : string) (b : Z)
             (approveTx receipt : string),
         wallet s = Some w ->
         provider s = true ->
         newWallet W (privateKey w) = Ok signer ->
         rpc_balanceOf W (trace s) Page1.USDC_ADDRESS (address w) = Ok b ->
         (units6 50 <= b)%Z ->
         rpc_send W (trace s ++ [EvBalanceOf Page1.USDC_ADDRESS (address w)])
           (privateKey w) Page1.USDC_ADDRESS
           (Approve Page1.BROWSER_VAULT (units6 50)) = Ok approveTx ->
         rpc_wait W (trace s ++ [EvBalanceOf Page1.USDC_ADDRESS (address w);
                                 EvSend (privateKey w) Page1.USDC_ADDRESS
                                   (Approve Page1.BROWSER_VAULT (units6 50))])
           approveTx = Ok receipt ->
         let s' := exec (Page1.depositUSDC W) s in
         new_events s s'
         = [EvBalanceOf Page1.USDC_ADDRESS (address w);
            EvSend (privateKey w) Page1.USDC_ADDRESS
              (Approve Page1.BROWSER_VAULT (units6 50));
            EvWait approveTx]
         /\ new_lines s s'
            = ["🏦 Preparing USDC deposit to BrowserVault...";
               "🔐 Approving USDC spending...";
               "🏦 Depositing 50 USDC to vault...";
               "✅ Would deposit 50 USDC to BrowserVault";
               "📝 Note: Full vault integration requires contract ABI"]).
Proof.
  split.
  - exact deposit_page2_follows_table.
  - exact deposit_page1_stops_after_approve.
Qed.

Lemma deposit_sequence_by_document_witness :
  (exists rest,
      new_events Demo.ready
        (exec (Page2.depositUSDC (Demo.world 50000000 true) Demo.env) Demo.ready)
      = ([EvBalanceOf Page1.USDC_ADDRESS Demo.user_address;
          EvSend Demo.user_key Page1.USDC_ADDRESS
            (Approve Page1.BROWSER_VAULT (units6 50));
          EvWait Demo.tx_hash;
          EvSend Demo.user_key Page1.BROWSER_VAULT (Deposit (units6 50))]
         ++ rest)%list)
  /\ new_events Demo.ready
       (exec (Page1.depositUSDC (Demo.world 50000000 true)) Demo.ready)
     = [EvBalanceOf Page1.USDC_ADDRESS Demo.user_address;
        EvSend Demo.user_key Page1.USDC_ADDRESS
          (Approve Page1.BROWSER_VAULT (units6 50));
        EvWait Demo.tx_hash].
Proof.
  split.
  - apply (proj1 deposit_sequence_by_document Demo.env
             Page1.USDC_ADDRESS Page1.BROWSER_VAULT
             eq_refl ltac:(discriminate) eq_refl ltac:(discriminate)
             (Demo.world 50000000 true) Demo.ready Demo.user
             Demo.user_address 50000000%Z Demo.tx_hash "7"
             eq_refl eq_refl eq_refl eq_refl ltac:(discriminate)
             eq_refl eq_refl).
  - apply (proj2 deposit_sequence_by_document
             (Demo.world 50000000 true) Demo.ready Demo.user
             Demo.user_address 50000000%Z Demo.tx_hash "7"
             eq_refl eq_refl eq_refl eq_refl ltac:(discriminate)
             eq_refl eq_refl).
Defined.

(** The claim C2 read on the hard-coded document: with a balance of
    exactly 50 units and a chain that accepts everything, the requests
    are the balance read, the approve and its confirmation; no deposit is
    sent, so the operation is not one that reads, approves and deposits. *)
Lemma deposit_hardcoded_sends_no_deposit :
  new_events Demo.ready
    (exec (Page1.depositUSDC (Demo.world 50000000 true)) Demo.ready)
  = [EvBalanceOf Page1.USDC_ADDRESS Demo.user_address;
     EvSend Demo.user_key Page1.USDC_ADDRESS
       (Approve Page1.BROWSER_VAULT 50000000);
     EvWait Demo.tx_hash]
  /\ ~ reads_approves_deposits Page1.USDC_ADDRESS Page1.BROWSER_VAULT
         Page1.depositUSDC.
Proof.
  split; [reflexivity|].
  intros H.
  destruct (H (Demo.world 50000000 true) Demo.ready Demo.user
              Demo.user_address 50000000%Z Demo.tx_hash "7"
              eq_refl eq_refl eq_refl eq_refl ltac:(discriminate)
              eq_refl eq_refl) as [rest Hrest].
  vm_compute in Hrest. discriminate Hrest.
Qed.


(** ** Claim reward *)

Lemma claim_page2_follows_table (env : Page2.Env) (token key : string) :
  Page2.NEXT_PUBLIC_MOCK_USDC env = Some token -> token <> "" ->
  Page2.NEXT_PUBLIC_HACKATHON_PRIVATE_KEY env = Some key -> key <> "" ->
  checks_funds_then_transfers token key (fun W => Page2.claimRewards W env).
Proof.
  intros Ht Htne Hk Hkne W s w payer b Hw Hp Hkey Hbal s'. subst s'.
  apply truthy_Some in Htne, Hkne.
  split.
  - intros Hb. apply Z.ltb_lt in Hb.
    split.
    + wp_start. unfold Page2.claimRewards, Page2.MOCK_USDC. rewrite Ht, Hk.
      repeat wp_step; wp_finish; reflexivity.
    + wp_start. unfold Page2.claimRewards, Page2.MOCK_USDC. rewrite Ht, Hk.
      repeat wp_step; wp_finish; reflexivity.
  - intros Hb. apply Z.ltb_ge in Hb.
    wp_start. unfold Page2.claimRewards, Page2.MOCK_USDC. rewrite Ht, Hk.
    repeat wp_step; wp_finish; eexists; reflexivity.
Qed.

Lemma claim_page2_abort_line
    (env : Page2.Env) (token key : string)
    (W : World) (s : State) (w : UserWallet) (payer : string) (b : Z) :
  Page2.NEXT_PUBLIC_MOCK_USDC env = Some token -> token <> "" ->
  Page2.NEXT_PUBLIC_HACKATHON_PRIVATE_KEY env = Some key -> key <> "" ->
  wallet s = Some w ->
  provider s = true ->
  newWallet W key = Ok payer ->
  rpc_balanceOf W (trace s) token payer = Ok b ->
  (b < units6 10)%Z ->
  new_lines s (exec (Page2.claimRewards W env) s)
  = ["🎁 Claiming browsing rewards...";
     ("❌ Insufficient reward funds. Available: "
      ++ formatUnits6 W b ++ " USDC")%string].
Proof.
  intros Ht Htne Hk Hkne Hw Hp Hkey Hbal Hb.
  apply truthy_Some in Htne, Hkne. apply Z.ltb_lt in Hb.
  wp_start. unfold Page2.claimRewards, Page2.MOCK_USDC. rewrite Ht, Hk.
  repeat wp_step; wp_finish; reflexivity.
Qed.

Lemma claim_page1_mints_unchecked
    (W : World) (s : State) (w : UserWallet) (payer : string) :
  wallet s = Some w ->
  provider s = true ->
  newWallet W Page1.FAUCET_KEY = Ok payer ->
  new_events s (exec (Page1.claimRewards W) s)
  = EvSend Page1.FAUCET_KEY Page1.USDC_ADDRESS (Mint (address w) (units6 10))
    :: match rpc_send W (trace s) Page1.FAUCET_KEY Page1.USDC_ADDRESS
               (Mint (address w) (units6 10)) with
       | Ok tx => [EvWait tx]
       | Throw _ => []
       end.
Proof.
  intros Hw Hp Hkey.
  wp_start. unfold Page1.claimRewards.
  repeat wp_step; wp_finish; reflexivity.
Qed.

(** C1 (as amended). With wallet and provider in place and a well-formed
    paying key: in the document configured from [process.env] (token
    address and hackathon key set), [claimRewards] first reads the paying
    wallet's own balance; below 10 units it stops there with the
    insufficient-funds line, and otherwise the next request is a
    [transfer] of 10 units from the paying wallet to the user.  In the
    hard-coded document [claimRewards] reads no balance: its first request
    is a [mint] of 10 units to the user, followed only by the wait for its
    confirmation. *)
Theorem claimRewards_by_document :
  (forall (env : Page2.Env) (token key : string),
      Page2.NEXT_PUBLIC_MOCK_USDC env = Some token -> token <> "" ->
      Page2.NEXT_PUBLIC_HACKATHON_PRIVATE_KEY env = Some key -> key <> "" ->
      checks_funds_then_transfers token key (fun W => Page2.claimRewards W env)
      /\ (forall (W : World) (s : State) (w : UserWallet) (payer : string) (b : Z),
             wallet s = Some w ->
             provider s = true ->
             newWallet W key = Ok payer ->
             rpc_balanceOf W (trace s) token payer = Ok b ->
             (b < units6 10)%Z ->
             new_lines s (exec (Page2.claimRewards W env) s)
             = ["🎁 Claiming browsing rewards...";
                ("❌ Insufficient reward funds. Available: "
                 ++ formatUnits6 W b ++ " USDC")%string]))
  /\ (forall (W : World) (s : State) (w : UserWallet) (payer : string),
         wallet s = Some w ->
         provider s = true ->
         newWallet W Page1.FAUCET_KEY = Ok payer ->
         new_events s (exec (Page1.claimRewards W) s)
         = EvSend Page1.FAUCET_KEY Page1.USDC_ADDRESS
             (Mint (address w) (units6 10))
           :: match rpc_send W (trace s) Page1.FAUCET_KEY Page1.USDC_ADDRESS
                      (Mint (address w) (units6 10)) with
              | Ok tx => [EvWait tx]
              | Throw _ => []
              end).
Proof.
  split.
  - intros env token key Ht Htne Hk Hkne. split.
    + now apply claim_page2_follows_table.
    + intros W s w payer b. now apply claim_page2_abort_line.
  - exact claim_page1_mints_unchecked.
Qed.

Lemma claimRewards_by_document_witness :
  new_lines Demo.ready
    (exec (Page2.claimRewards (Demo.world 0 true) Demo.env) Demo.ready)
  = ["🎁 Claiming browsing rewards...";
     "❌ Insufficient reward funds. Available: 0.0 USDC"]
  /\ new_events Demo.ready
       (exec (Page1.claimRewards (Demo.world 0 true)) Demo.ready)
     = [EvSend Page1.FAUCET_KEY Page1.USDC_ADDRESS
          (Mint Demo.user_address (units6 10));
        EvWait Demo.tx_hash].
Proof.
  split.
  - apply (proj2 (proj1 claimRewards_by_document Demo.env
                    Page1.USDC_ADDRESS Page1.FAUCET_KEY
                    eq_refl ltac:(discriminate) eq_refl ltac:(discriminate))
             (Demo.world 0 true) Demo.ready Demo.user Demo.hackathon_address
             0%Z eq_refl eq_refl eq_refl eq_refl eq_refl).
  - apply (proj2 claimRewards_by_document (Demo.world 0 true) Demo.ready
             Demo.user Demo.hackathon_address eq_refl eq_refl eq_refl).
Defined.

(** The claim C1 read on the hard-coded document: the paying wallet holds
    nothing, yet the operation does not stop; it reads no balance and
    sends a [mint], not a [transfer]. *)
Lemma claimRewards_hardcoded_mints_without_check :
  new_events Demo.ready
    (exec (Page1.claimRewards (Demo.world 0 true)) Demo.ready)
  = [EvSend Page1.FAUCET_KEY Page1.USDC_ADDRESS
       (Mint Demo.user_address 10000000);
     EvWait Demo.tx_hash]
  /\ ~ checks_funds_then_transfers Page1.USDC_ADDRESS Page1.FAUCET_KEY
         Page1.claimRewards.
Proof.
  split; [reflexivity|].
  intros H.
  destruct (H (Demo.world 0 true) Demo.ready Demo.user
              Demo.hackathon_address 0%Z eq_refl eq_refl eq_refl eq_refl)
    as [Hlow _].
  destruct (Hlow eq_refl) as [Hev _].
  vm_compute in Hev. discriminate Hev.
Qed.


(** ** The delayed balance refresh *)

Ltac settle op_unfold :=
  unfold settles;
  match goal with
  | |- wp _ ?s _ =>
      let H := fresh "Hobs" in
      assert (H : obs s = mkObs (trace s) (logged s) (timers s) (loading s))
        by reflexivity
  end;
  op_unfold; repeat wp_step;
  (split; [reflexivity | wp_finish; cbn; rewrite ?app_nil_r; reflexivity]).

Lemma settles_page1_mint (W : World) (s : State) :
  settles (Page1.mintTestUSDC W) s.
Proof. settle ltac:(unfold Page1.mintTestUSDC). Qed.

Lemma settles_page1_deposit (W : World) (s : State) :
  settles (Page1.depositUSDC W) s.
Proof. settle ltac:(unfold Page1.depositUSDC). Qed.

Lemma settles_page1_claim (W : World) (s : State) :
  settles (Page1.claimRewards W) s.
Proof. settle ltac:(unfold Page1.claimRewards). Qed.

Lemma settles_page1_transfer (W : World) (toAddress amount : string) (s : State) :
  settles (Page1.transferUSDC W toAddress amount) s.
Proof. settle ltac:(unfold Page1.transferUSDC). Qed.

Lemma settles_page2_mint (W : World) (env : Page2.Env) (s : State) :
  settles (Page2.mintTestUSDC W env) s.
Proof. settle ltac:(unfold Page2.mintTestUSDC, Page2.MOCK_USDC). Qed.

Lemma settles_page2_deposit (W : World) (env : Page2.Env) (s : State) :
  settles (Page2.depositUSDC W env) s.
Proof.
  settle ltac:(unfold Page2.depositUSDC, Page2.MOCK_USDC, Page2.BROWSER_VAULT).
Qed.

Lemma settles_page2_claim (W : World) (env : Page2.Env) (s : State) :
  settles (Page2.claimRewards W env) s.
Proof. settle ltac:(unfold Page2.claimRewards, Page2.MOCK_USDC). Qed.

Lemma exec_then {A B : Type} (m : M A) (k : A -> M B) (s : State) (a : A) :
  result m s = Ok a -> exec (bind m k) s = exec (k a) (exec m s).
Proof.
  unfold exec, result, bind. destruct (m s) as [r s1]. cbn [fst snd].
  intros ->. reflexivity.
Qed.

Lemma timers_grow (op : M unit) (s : State) :
  settles op s -> exists added, timers (exec op s) = (timers s ++ added)%list.
Proof. intros [_ H]. eexists. exact H. Qed.

(** A button of the first document: the operation, then the popup is
    closed; no timer is added. *)
Lemma button_adds_no_timer (op : M unit) (s : State) :
  settles op s ->
  timers (exec (op >> modify (setShowWalletPopup false)) s)
  = timers (exec op s).
Proof.
  intros Hs. rewrite (exec_then op _ s tt (proj1 Hs)). reflexivity.
Qed.

(** Reads the answers met on the way into the success test. *)
Ltac path_known :=
  repeat match goal with
  | H : negb _ = true |- _ => apply negb_true_iff in H
  | H : negb _ = false |- _ => apply negb_false_iff in H
  | H : _ || _ = false |- _ =>
      apply orb_false_iff in H; destruct H
  | H : _ || _ = true |- _ =>
      apply orb_true_iff in H; destruct H
  end;
  repeat match goal with
  | H : ?x = _ |- context [?x] => rewrite H
  end.

Ltac on_path op_unfold :=
  wp_start; op_unfold; repeat wp_step; wp_finish;
  unfold refresh_if, Succeeds.mint, Succeeds.approve,
    Succeeds.approve_and_deposit, Succeeds.transfer,
    Succeeds.reward_transfer, confirmed, answered;
  repeat (progress (rewrite <- ?app_assoc; cbn [app negb andb orb];
                    path_known));
  rewrite ?andb_false_r; try reflexivity.

Ltac off_guard H s :=
  unfold new_timers;
  match goal with
  | |- context [exec ?m s] => replace (exec m s) with s; [apply drop_all|]
  end;
  unfold_handler; cbv beta;
  destruct (wallet s); try discriminate H;
  destruct (provider s); try discriminate H; reflexivity.


(** What a button of the second document adds to its operation. *)
Lemma button_adds_refresh (op : M unit) (s : State) :
  settles op s ->
  new_timers s (exec (op >> setTimeout CbCheckBalance 3000) s)
  = (new_timers s (exec op s) ++ [(3000, CbCheckBalance)])%list.
Proof.
  intros Hs. unfold new_timers.
  rewrite (exec_then op _ s tt (proj1 Hs)).
  change (timers (exec (setTimeout CbCheckBalance 3000) (exec op s)))
    with (timers (exec op s) ++ [(3000, CbCheckBalance)])%list.
  destruct (timers_grow op s Hs) as [added ->].
  now rewrite <- app_assoc, !drop_app_length.
Qed.

(** C3 (as amended). With wallet and provider in place, each operation
    queues one balance refresh of 2000 ms exactly when it went all the way
    down its success path (every validation and precondition passed,
    every call answered), and no timer otherwise; without wallet or
    provider it queues none.  In the document configured from
    [process.env] the mint, deposit and claim buttons queue, after
    whatever the operation queued, one further refresh of 3000 ms, on
    every outcome.  The buttons of the hard-coded document, the only one
    with a peer transfer, add no timer of their own. *)
Theorem refresh_on_success_or_by_button (W : World) (s : State) :
  (forall w,
      wallet s = Some w ->
      provider s = true ->
      new_timers s (exec (Page1.mintTestUSDC W) s)
      = refresh_if (Succeeds.mint W s w Page1.FAUCET_KEY Page1.USDC_ADDRESS
                      (units6 100))
      /\ new_timers s (exec (Page1.depositUSDC W) s)
         = refresh_if (Succeeds.approve W s w Page1.USDC_ADDRESS
                         Page1.BROWSER_VAULT)
      /\ new_timers s (exec (Page1.claimRewards W) s)
         = refresh_if (Succeeds.mint W s w Page1.FAUCET_KEY Page1.USDC_ADDRESS
                         (units6 10))
      /\ (forall toAddress amount,
             new_timers s (exec (Page1.transferUSDC W toAddress amount) s)
             = refresh_if (Succeeds.transfer W s w Page1.USDC_ADDRESS
                             toAddress amount))
      /\ (forall env,
             let token := default "" (Page2.NEXT_PUBLIC_MOCK_USDC env) in
             let vault := default "" (Page2.NEXT_PUBLIC_BROWSER_VAULT env) in
             let key :=
               default "" (Page2.NEXT_PUBLIC_HACKATHON_PRIVATE_KEY env) in
             new_timers s (exec (Page2.mintTestUSDC W env) s)
             = refresh_if
                 (JS.truthy (Page2.NEXT_PUBLIC_MOCK_USDC env)
                  && JS.truthy (Page2.NEXT_PUBLIC_HACKATHON_PRIVATE_KEY env)
                  && Succeeds.mint W s w key token (units6 100))
             /\ new_timers s (exec (Page2.depositUSDC W env) s)
                = refresh_if
                    (JS.truthy (Page2.NEXT_PUBLIC_MOCK_USDC env)
                     && JS.truthy (Page2.NEXT_PUBLIC_BROWSER_VAULT env)
                     && Succeeds.approve_and_deposit W s w token vault)
             /\ new_timers s (exec (Page2.claimRewards W env) s)
                = refresh_if
                    (JS.truthy (Page2.NEXT_PUBLIC_MOCK_USDC env)
                     && JS.truthy (Page2.NEXT_PUBLIC_HACKATHON_PRIVATE_KEY env)
                     && Succeeds.reward_transfer W s w key token)))
  /\ (wallet s = None \/ provider s = false ->
      new_timers s (exec (Page1.mintTestUSDC W) s) = []
      /\ new_timers s (exec (Page1.depositUSDC W) s) = []
      /\ new_timers s (exec (Page1.claimRewards W) s) = []
      /\ (forall toAddress amount,
             new_timers s (exec (Page1.transferUSDC W toAddress amount) s) = [])
      /\ (forall env,
             new_timers s (exec (Page2.mintTestUSDC W env) s) = []
             /\ new_timers s (exec (Page2.depositUSDC W env) s) = []
             /\ new_timers s (exec (Page2.claimRewards W env) s) = []))
  /\ (forall env,
         new_timers s (exec (Page2.onClick_mint W env) s)
         = (new_timers s (exec (Page2.mintTestUSDC W env) s)
            ++ [(3000, CbCheckBalance)])%list
         /\ new_timers s (exec (Page2.onClick_deposit W env) s)
            = (new_timers s (exec (Page2.depositUSDC W env) s)
               ++ [(3000, CbCheckBalance)])%list
         /\ new_timers s (exec (Page2.onClick_claim W env) s)
            = (new_timers s (exec (Page2.claimRewards W env) s)
               ++ [(3000, CbCheckBalance)])%list)
  /\ (timers (exec (Page1.onClick_mint W) s)
      = timers (exec (Page1.mintTestUSDC W) s)
      /\ timers (exec (Page1.onClick_deposit W) s)
         = timers (exec (Page1.depositUSDC W) s)
      /\ timers (exec (Page1.onClick_claim W) s)
         = timers (exec (Page1.claimRewards W) s)
      /\ timers (exec (Page1.onClick_send W) s)
         = if JS.truthy (Some (transferAddress s))
              && JS.truthy (Some (transferAmount s))
           then timers (exec (Page1.transferUSDC W (transferAddress s)
                                (transferAmount s)) s)
           else timers s).
Proof.
  split; [|split; [|split]].
  - intros w Hw Hp. split; [|split; [|split; [|split]]].
    + on_path ltac:(unfold Page1.mintTestUSDC).
    + on_path ltac:(unfold Page1.depositUSDC).
    + on_path ltac:(unfold Page1.claimRewards).
    + intros toAddress amount. on_path ltac:(unfold Page1.transferUSDC).
    + intros env token vault key. subst token vault key.
      split; [|split].
      * on_path ltac:(unfold Page2.mintTestUSDC, Page2.MOCK_USDC).
      * on_path ltac:(unfold Page2.depositUSDC, Page2.MOCK_USDC,
                        Page2.BROWSER_VAULT).
      * on_path ltac:(unfold Page2.claimRewards, Page2.MOCK_USDC).
  - intros [H|H]; (split; [|split; [|split; [|split]]]);
      try (intros toAddress amount);
      try (intros env; split; [|split]);
      off_guard H s.
  - intros env. repeat split.
    + apply (button_adds_refresh _ s (settles_page2_mint W env s)).
    + apply (button_adds_refresh _ s (settles_page2_deposit W env s)).
    + apply (button_adds_refresh _ s (settles_page2_claim W env s)).
  - repeat split.
    + apply (button_adds_no_timer _ s (settles_page1_mint W s)).
    + apply (button_adds_no_timer _ s (settles_page1_deposit W s)).
    + apply (button_adds_no_timer _ s (settles_page1_claim W s)).
    + unfold Page1.onClick_send.
      change (exec (let* to := gets transferAddress in
                    let* amt := gets transferAmount in _) s)
        with (exec (if JS.truthy (Some (transferAddress s))
                       && JS.truthy (Some (transferAmount s))
                    then
                      Page1.transferUSDC W (transferAddress s) (transferAmount s) >>
                      (modify (setTransferAddress "") >>
                       modify (setTransferAmount "") >>
                       modify (setShowWalletPopup false))
                    else ret tt) s).
      destruct (JS.truthy (Some (transferAddress s))
                && JS.truthy (Some (transferAmount s))); [|reflexivity].
      rewrite (exec_then _ _ s tt
                 (proj1 (settles_page1_transfer W (transferAddress s)
                           (transferAmount s) s))).
      reflexivity.
Qed.

(** The claim C3 read on the peer transfer: a rejected recipient ends the
    operation, and the button, with no timer queued at all. *)
Lemma transfer_failure_queues_no_refresh :
  new_timers Demo.ready
    (exec (Page1.transferUSDC (Demo.world 0 true) "not-an-address" "5")
       Demo.ready) = []
  /\ new_timers (setTransferAmount "5" (setTransferAddress "not-an-address" Demo.ready))
       (exec (Page1.onClick_send (Demo.world 0 true))
          (setTransferAmount "5" (setTransferAddress "not-an-address" Demo.ready)))
     = []
  /\ ~ always_queues_refresh
         (fun W => Page1.transferUSDC W "not-an-address" "5").
Proof.
  split; [reflexivity|]. split; [reflexivity|].
  intros H.
  destruct (H (Demo.world 0 true) Demo.ready Demo.user eq_refl eq_refl)
    as [delay [_ Hin]].
  vm_compute in Hin. apply elem_of_nil in Hin. exact Hin.
Qed.

Lemma refresh_on_success_or_by_button_witness :
  new_timers Demo.ready
    (exec (Page1.mintTestUSDC (Demo.world 0 true)) Demo.ready)
  = [(2000, CbCheckBalance)]
  /\ new_timers Demo.ready
       (exec (Page1.transferUSDC (Demo.world 0 true) "not-an-address" "5")
          Demo.ready)
     = []
  /\ new_timers Demo.first_run
       (exec (Page1.depositUSDC (Demo.world 0 true)) Demo.first_run)
     = []
  /\ new_timers Demo.ready
       (exec (Page2.onClick_mint (Demo.world 0 false) Demo.env) Demo.ready)
     = [(3000, CbCheckBalance)].
Proof.
  split; [|split; [|split]].
  - exact (proj1 (proj1 (refresh_on_success_or_by_button
                           (Demo.world 0 true) Demo.ready)
                    Demo.user eq_refl eq_refl)).
  - exact (proj1 (proj2 (proj2 (proj2
             (proj1 (refresh_on_success_or_by_button
                       (Demo.world 0 true) Demo.ready)
                Demo.user eq_refl eq_refl))))
             "not-an-address" "5").
  - exact (proj1 (proj2 (proj1 (proj2 (refresh_on_success_or_by_button
                                         (Demo.world 0 true) Demo.first_run))
                           (or_introl eq_refl)))).
  - exact (proj1 (proj1 (proj2 (proj2 (refresh_on_success_or_by_button
                                         (Demo.world 0 false) Demo.ready)))
                    Demo.env)).
Defined.


(** ** Wallet identity *)

Lemma run_bind {A B : Type} (m : M A) (k : A -> M B) (s s1 : State) (a : A) :
  m s = (Ok a, s1) -> bind m k s = k a s1.
Proof. intros H. unfold bind. now rewrite H. Qed.

(** A stored record is parsed and returned; storage and the list of
    requests are left as they were. *)
Lemma initializeWallet_loads (W : World) (s : State) (text : string)
    (w : UserWallet) :
  localStorage s !! "burgerbrows_wallet" = Some text ->
  text <> "" ->
  JSON_parse W text = Ok w ->
  exists s1,
    initializeWallet W s = (Ok w, s1)
    /\ localStorage s1 = localStorage s
    /\ trace s1 = trace s.
Proof.
  intros Hget Hne Hparse.
  unfold initializeWallet, localStorage_getItem, gets, bind, lift_res.
  rewrite Hget, (truthy_Some _ Hne). cbn [default from_option id].
  rewrite Hparse.
  eexists. split; [reflexivity|]. split; reflexivity.
Qed.

(** Nothing stored (or an empty string): a wallet is created, the record
    and the installation id are written, in this order. *)
Lemma initializeWallet_creates (W : World) (s : State) :
  JS.truthy (localStorage s !! "burgerbrows_wallet") = false ->
  exists w uuid s1,
    initializeWallet W s = (Ok w, s1)
    /\ trace s1
       = (trace s ++ [EvSetItem "burgerbrows_wallet" (JSON_stringify W w);
                      EvSetItem "burgerbrows_device_id" uuid])%list
    /\ localStorage s1
       = <["burgerbrows_device_id" := uuid]>
           (<["burgerbrows_wallet" := JSON_stringify W w]> (localStorage s)).
Proof.
  intros Hnone.
  unfold initializeWallet, localStorage_getItem, gets, bind.
  rewrite Hnone.
  unfold generateDeviceFingerprint, localStorage_getItem, gets, bind.
  destruct (JS.truthy (localStorage s !! "burgerbrows_device_id"));
    cbn; do 3 eexists; (split; [reflexivity|]);
    (split; [cbn; rewrite <- app_assoc; reflexivity | reflexivity]).
Qed.

Lemma initializeWallet_times_loaded (W : World) (text : string)
    (w : UserWallet) (n : nat) :
  text <> "" ->
  JSON_parse W text = Ok w ->
  forall s,
    localStorage s !! "burgerbrows_wallet" = Some text ->
    exists s1,
      initializeWallet_times W n s = (Ok (replicate n w), s1)
      /\ localStorage s1 = localStorage s
      /\ trace s1 = trace s.
Proof.
  intros Hne Hparse. induction n as [|n IH]; intros s Hget.
  - exists s. repeat split; reflexivity.
  - destruct (initializeWallet_loads W s text w Hget Hne Hparse)
      as (s1 & Hrun & Hst & Htr).
    assert (Hget1 : localStorage s1 !! "burgerbrows_wallet" = Some text)
      by (rewrite Hst; exact Hget).
    destruct (IH s1 Hget1) as (s2 & Hrun2 & Hst2 & Htr2).
    exists s2. split; [|split].
    + cbn [initializeWallet_times].
      rewrite (run_bind _ _ s s1 w Hrun), (run_bind _ _ s1 s2 _ Hrun2).
      reflexivity.
    + now rewrite Hst2.
    + now rewrite Htr2.
Qed.

(** C5. A stored wallet record is returned as it is and nothing is
    written.  On a first run the resolver creates a wallet and writes
    storage in that call only (the record, then the installation id);
    when the stored text parses back to the record, every later call
    returns the same wallet, so two calls give the same address and
    private key, and however many calls follow, the writes of the first
    one stay the only ones. *)
Theorem identity_created_once_then_reused (W : World) (s : State) :
  (forall text w,
      localStorage s !! "burgerbrows_wallet" = Some text ->
      text <> "" ->
      JSON_parse W text = Ok w ->
      result (initializeWallet W) s = Ok w
      /\ localStorage (exec (initializeWallet W) s) = localStorage s
      /\ new_events s (exec (initializeWallet W) s) = [])
  /\ (JS.truthy (localStorage s !! "burgerbrows_wallet") = false ->
      exists w uuid,
        result (initializeWallet W) s = Ok w
        /\ new_events s (exec (initializeWallet W) s)
           = [EvSetItem "burgerbrows_wallet" (JSON_stringify W w);
              EvSetItem "burgerbrows_device_id" uuid]
        /\ (JSON_stringify W w <> "" ->
            JSON_parse W (JSON_stringify W w) = Ok w ->
            forall n,
              result (initializeWallet_times W (S n)) s
              = Ok (replicate (S n) w)
              /\ new_events s (exec (initializeWallet_times W (S n)) s)
                 = [EvSetItem "burgerbrows_wallet" (JSON_stringify W w);
                    EvSetItem "burgerbrows_device_id" uuid])).
Proof.
  split.
  - intros text w Hget Hne Hparse.
    destruct (initializeWallet_loads W s text w Hget Hne Hparse)
      as (s1 & Hrun & Hst & Htr).
    unfold result, exec, new_events. rewrite Hrun. cbn [fst snd].
    rewrite Htr, drop_all. repeat split; [exact Hst].
  - intros Hnone.
    destruct (initializeWallet_creates W s Hnone)
      as (w & uuid & s1 & Hrun & Htr & Hst).
    exists w, uuid. split; [|split].
    + unfold result. now rewrite Hrun.
    + unfold exec, new_events. rewrite Hrun. cbn [snd].
      now rewrite Htr, drop_app_length.
    + intros Hne Hparse n.
      assert (Hget1 : localStorage s1 !! "burgerbrows_wallet"
                      = Some (JSON_stringify W w)).
      { rewrite Hst. rewrite lookup_insert_ne by discriminate.
        apply lookup_insert_eq. }
      destruct (initializeWallet_times_loaded W _ w n Hne Hparse s1 Hget1)
        as (s2 & Hrun2 & Hst2 & Htr2).
      unfold result, exec, new_events. cbn [initializeWallet_times].
      rewrite (run_bind _ _ s s1 w Hrun), (run_bind _ _ s1 s2 _ Hrun2).
      cbn [ret fst snd]. split; [reflexivity|].
      now rewrite Htr2, Htr, drop_app_length.
Qed.

Lemma identity_created_once_then_reused_witness :
  result (initializeWallet_times (Demo.world 0 true) 2) Demo.first_run
  = Ok [Demo.user; Demo.user]
  /\ new_events Demo.first_run
       (exec (initializeWallet_times (Demo.world 0 true) 2) Demo.first_run)
     = [EvSetItem "burgerbrows_wallet"
          (JSON_stringify (Demo.world 0 true) Demo.user);
        EvSetItem "burgerbrows_device_id"
          "123e4567-e89b-42d3-a456-426614174000"].
Proof.
  destruct (proj2 (identity_created_once_then_reused (Demo.world 0 true)
                     Demo.first_run)
              ltac:(vm_compute; reflexivity))
    as (w & uuid & Hw & Hev & Hn).
  vm_compute in Hw. injection Hw as <-.
  vm_compute in Hev. injection Hev as <-.
  apply (Hn ltac:(discriminate) eq_refl 1).
Defined.


(** ** Sessions: what every handler keeps *)

Lemma exec_bind {A B : Type} (m : M A) (k : A -> M B) (s : State) :
  exec (bind m k) s
  = match result m s with
    | Ok a => exec (k a) (exec m s)
    | Throw _ => exec m s
    end.
Proof.
  unfold exec, result, bind. destruct (m s) as [[a|e] s1]; reflexivity.
Qed.

Lemma exec_gets_bind {A B : Type} (f : State -> A) (k : A -> M B) (s : State) :
  exec (bind (gets f) k) s = exec (k (f s)) s.
Proof. reflexivity. Qed.

Lemma exec_try_catch (body : M unit) (handler : string -> M unit) (s : State) :
  exec (try_catch body handler) s
  = match result body s with
    | Ok _ => exec body s
    | Throw e => exec (handler e) (exec body s)
    end.
Proof.
  unfold exec, result, try_catch. destruct (body s) as [[[]|e] s1]; reflexivity.
Qed.

Lemma stamped_snoc (W : World) (ms : list string) (m : string) (n : nat) :
  stamped W n (ms ++ [m])
  = (stamped W n ms ++ [log_line (toLocaleTimeString W (n + length ms)) m])%list.
Proof.
  revert n. induction ms as [|m0 ms IH]; intros n; simpl.
  - now rewrite Nat.add_0_r.
  - rewrite IH. now replace (S n + length ms) with (n + S (length ms)) by lia.
Qed.

Lemma log_in_step_initial (W : World) (storage : gmap string string) :
  log_in_step W (initial_state storage).
Proof. split; reflexivity. Qed.

Lemma log_in_step_addLog (W : World) (m : string) (s : State) :
  log_in_step W s -> log_in_step W (exec (addLog W m) s).
Proof.
  intros [Hlogs Hclock]. split.
  - rewrite addLog_logs, Hlogs, Hclock. unfold log_history.
    change (logged (exec (addLog W m) s)) with (logged s ++ [m])%list.
    rewrite stamped_snoc, app_assoc. cbn [Nat.add].
    now rewrite slice_last_snoc, slice_last_absorb.
  - change (S (clockReads s) = length (logged s ++ [m])%list).
    rewrite length_app, Hclock. simpl. lia.
Qed.

Lemma log_in_step_same (W : World) (s s' : State) :
  logs s' = logs s -> logged s' = logged s -> clockReads s' = clockReads s ->
  log_in_step W s -> log_in_step W s'.
Proof.
  unfold log_in_step, log_history. intros -> -> ->. exact (fun H => H).
Qed.

Lemma log_in_step_setProvider (W : World) (s : State) :
  log_in_step W s -> log_in_step W (setProvider s).
Proof. exact (fun H => H). Qed.

(** Rules that hold of any invariant. *)
Section Keeps.

Variable I : State -> Prop.

Lemma keeps_ret {A : Type} (a : A) : keeps I (ret a).
Proof. exact (fun s H => H). Qed.

Lemma keeps_bind {A B : Type} (m : M A) (k : A -> M B) :
  keeps I m -> (forall a, keeps I (k a)) -> keeps I (bind m k).
Proof.
  intros Hm Hk s Hs. rewrite exec_bind.
  destruct (result m s); [apply Hk|]; apply Hm, Hs.
Qed.

Lemma keeps_gets_bind {A B : Type} (f : State -> A) (k : A -> M B) :
  (forall a, keeps I (k a)) -> keeps I (bind (gets f) k).
Proof. intros Hk s Hs. rewrite exec_gets_bind. apply Hk, Hs. Qed.

Lemma keeps_res_bind {A B : Type} (r : Res A) (k : A -> M B) :
  (forall a, r = Ok a -> keeps I (k a)) -> keeps I (bind (lift_res r) k).
Proof.
  intros Hk s Hs. rewrite exec_bind. unfold result, exec, lift_res. cbn [fst snd].
  destruct r as [a|e]; [now apply (Hk a)|exact Hs].
Qed.

Lemma keeps_modify (f : State -> State) :
  (forall s, I s -> I (f s)) -> keeps I (modify f).
Proof. exact (fun H => H). Qed.

Lemma keeps_try_catch_finally (body : M unit) (handler : string -> M unit)
    (fin : M unit) :
  keeps I body -> (forall e, keeps I (handler e)) -> keeps I fin ->
  keeps I (try_catch_finally body handler fin).
Proof.
  intros Hb Hh Hf s Hs. specialize (Hb s Hs).
  unfold exec, try_catch_finally in *.
  destruct (body s) as [[[]|e] s1]; cbn [snd] in Hb.
  - apply Hf, Hb.
  - specialize (Hh e s1 Hb). unfold exec in Hh.
    destruct (handler e s1) as [[[]|e'] s2]; cbn [snd] in Hh.
    + apply Hf, Hh.
    + specialize (Hf s2 Hh). unfold exec in Hf.
      destruct (fin s2) as [[[]|?] s3]; exact Hf.
Qed.

Lemma keeps_try_catch (body : M unit) (handler : string -> M unit) :
  keeps I body -> (forall e, keeps I (handler e)) ->
  keeps I (try_catch body handler).
Proof.
  intros Hb Hh s Hs. rewrite exec_try_catch.
  destruct (result body s); [|apply Hh]; apply Hb, Hs.
Qed.

End Keeps.

(** Rules for the states of a mounted component. *)
Section Steady.

Variable W : World.
Variable F : Frame.

Lemma keeps_wallet_bind {B : Type} (k : option UserWallet -> M B) :
  keeps (steady W F) (k (frame_wallet F)) ->
  keeps (steady W F) (bind (gets wallet) k).
Proof.
  intros Hk s Hs. rewrite exec_gets_bind.
  rewrite (proj1 Hs). apply Hk, Hs.
Qed.

Lemma keeps_provider_bind {B : Type} (k : bool -> M B) :
  keeps (steady W F) (k (frame_provider F)) ->
  keeps (steady W F) (bind (gets provider) k).
Proof.
  intros Hk s Hs. rewrite exec_gets_bind.
  rewrite (proj1 (proj2 Hs)). apply Hk, Hs.
Qed.

Lemma keeps_addLog (m : string) : keeps (steady W F) (addLog W m).
Proof.
  intros s (Hw & Hp & Hst & Hlog & Hok).
  repeat split; try assumption; now apply log_in_step_addLog.
Qed.

Lemma steady_event (e : Event) (s : State) :
  frame_allows F e = true -> steady W F s -> steady W F (record_event e s).
Proof.
  intros He (Hw & Hp & Hst & Hlog & Hok).
  repeat split; try assumption; try apply Hlog.
  change (forallb (frame_allows F) (trace s ++ [e]) = true).
  rewrite forallb_app, Hok. simpl. now rewrite He.
Qed.

Lemma keeps_balanceOf (token owner : string) :
  frame_allows F (EvBalanceOf token owner) = true ->
  keeps (steady W F) (contract_balanceOf W token owner).
Proof. intros He s Hs. now apply steady_event. Qed.

Lemma keeps_send (key contract : string) (call : TxCall) :
  frame_allows F (EvSend key contract call) = true ->
  keeps (steady W F) (contract_send W key contract call).
Proof. intros He s Hs. now apply steady_event. Qed.

Lemma keeps_wait (tx : string) :
  frame_allows F (EvWait tx) = true -> keeps (steady W F) (tx_wait W tx).
Proof. intros He s Hs. now apply steady_event. Qed.

Lemma keeps_clipboard (text : string) :
  frame_allows F (EvClipboard text) = true ->
  keeps (steady W F)
    (fun s => (clipboard_writeText W (trace s) text,
               record_event (EvClipboard text) s)).
Proof. intros He s Hs. now apply steady_event. Qed.

End Steady.

(** Shows that a request is allowed. *)
Ltac allowed :=
  cbv beta iota zeta
    delta [frame_allows within Session1.permitted Session2.permitted];
  cbn [default from_option id];
  repeat match goal with
  | H : _ = Ok _ |- _ => rewrite H
  end;
  rewrite ?String.eqb_refl, ?Z.eqb_refl, ?orb_true_r; reflexivity.

Ltac keeps_quiet :=
  let Hs := fresh "Hs" in apply keeps_modify; intros ? Hs; exact Hs.

Ltac head_of t :=
  lazymatch t with
  | ?f _ => head_of f
  | _ => t
  end.

(** One step through a handler; a handler met on the way is opened. *)
Ltac keeps_step :=
  lazymatch goal with
  | |- keeps _ (bind (gets wallet) _) => apply keeps_wallet_bind
  | |- keeps _ (bind (gets provider) _) => apply keeps_provider_bind
  | |- keeps _ (bind (gets _) _) => apply keeps_gets_bind; intros ?
  | |- keeps _ (bind (lift_res _) _) => apply keeps_res_bind; intros ? ?
  | |- keeps _ (bind (new_Wallet _ _) _) => apply keeps_res_bind; intros ? ?
  | |- keeps _ (bind _ _) => apply keeps_bind; [|intros ?]
  | |- keeps _ (ret _) => apply keeps_ret
  | |- keeps _ (addLog _ _) => apply keeps_addLog
  | |- keeps _ (modify _) => keeps_quiet
  | |- keeps _ (setTimeout _ _) => unfold setTimeout; keeps_quiet
  | |- keeps _ (contract_balanceOf _ _ _) => apply keeps_balanceOf; allowed
  | |- keeps _ (contract_send _ _ _ _) => apply keeps_send; allowed
  | |- keeps _ (tx_wait _ _) => apply keeps_wait; allowed
  | |- keeps _ (fun s => (_, record_event _ s)) => apply keeps_clipboard; allowed
  | |- keeps _ (try_catch_finally _ _ _) =>
      apply keeps_try_catch_finally; [|intros ?|]
  | |- keeps _ (try_catch _ _) => apply keeps_try_catch; [|intros ?]
  | |- keeps _ (if ?c then _ else _) =>
      let Hc := fresh "Hc" in
      destruct c eqn:Hc; try (exfalso; cbn in Hc; discriminate Hc)
  | |- keeps _ (match ?x with _ => _ end) => destruct x eqn:?
  | |- keeps _ ?m => let h := head_of m in unfold h
  end;
  cbv beta iota zeta;
  cbn [default from_option id fmap option_fmap option_map negb andb orb
       frame_wallet frame_provider].

(** *** Fields a handler leaves alone

    For an invariant that speaks of fields a primitive does not write,
    the primitive keeps it by computation. *)

Ltac frame_prim :=
  let Hs := fresh "Hs" in intros ? Hs; exact Hs.

Ltac frame_step :=
  lazymatch goal with
  | |- keeps _ (bind (gets _) _) => apply keeps_gets_bind; intros ?
  | |- keeps _ (bind (lift_res _) _) => apply keeps_res_bind; intros ? ?
  | |- keeps _ (bind (new_Wallet _ _) _) => apply keeps_res_bind; intros ? ?
  | |- keeps _ (bind _ _) => apply keeps_bind; [|intros ?]
  | |- keeps _ (ret _) => apply keeps_ret
  | |- keeps _ (try_catch_finally _ _ _) =>
      apply keeps_try_catch_finally; [|intros ?|]
  | |- keeps _ (try_catch _ _) => apply keeps_try_catch; [|intros ?]
  | |- keeps _ (if ?c then _ else _) => destruct c
  | |- keeps _ (match ?x with _ => _ end) => destruct x
  | |- keeps _ (addLog _ _) => frame_prim
  | |- keeps _ (gets _) => frame_prim
  | |- keeps _ (lift_res _) => frame_prim
  | |- keeps _ (modify _) => frame_prim
  | |- keeps _ (setTimeout _ _) => frame_prim
  | |- keeps _ (contract_balanceOf _ _ _) => frame_prim
  | |- keeps _ (contract_send _ _ _ _) => frame_prim
  | |- keeps _ (tx_wait _ _) => frame_prim
  | |- keeps _ (fun s => (_, record_event _ s)) => frame_prim
  | |- keeps _ ?m => let h := head_of m in unfold h
  end;
  cbv beta iota zeta.

(** *** The busy flag

    [idle] is kept by everything outside a [try]; a [try] whose [finally]
    resets the flag ends idle whatever happened inside. *)

Lemma idle_try_finally_resets (body : M unit) (handler : string -> M unit) :
  keeps idle (try_catch_finally body handler (modify (setLoading false))).
Proof.
  intros s _. unfold idle, exec, try_catch_finally.
  destruct (body s) as [[[]|e] s1]; [reflexivity|].
  destruct (handler e s1) as [[[]|e'] s2]; reflexivity.
Qed.

Ltac idle_prim :=
  let Hs := fresh "Hs" in intros ? Hs; exact Hs.

Ltac idle_step :=
  lazymatch goal with
  | |- keeps idle (try_catch_finally _ _ (modify (setLoading false))) =>
      apply idle_try_finally_resets
  | |- keeps idle (bind (gets _) _) => apply keeps_gets_bind; intros ?
  | |- keeps idle (bind (lift_res _) _) => apply keeps_res_bind; intros ? ?
  | |- keeps idle (bind _ _) => apply keeps_bind; [|intros ?]
  | |- keeps idle (ret _) => apply keeps_ret
  | |- keeps idle (addLog _ _) => idle_prim
  | |- keeps idle (gets _) => idle_prim
  | |- keeps idle (lift_res _) => idle_prim
  | |- keeps idle (localStorage_getItem _) => idle_prim
  | |- keeps idle (modify _) => idle_prim
  | |- keeps idle (setTimeout _ _) => idle_prim
  | |- keeps idle (localStorage_setItem _ _) => idle_prim
  | |- keeps idle (crypto_randomUUID _) => idle_prim
  | |- keeps idle (Wallet_createRandom _) => idle_prim
  | |- keeps idle (fun s => (_, record_event _ s)) => idle_prim
  | |- keeps idle (try_catch _ _) => apply keeps_try_catch; [|intros ?]
  | |- keeps idle (if ?c then _ else _) => destruct c
  | |- keeps idle (match ?x with _ => _ end) => destruct x
  | |- keeps idle ?m => let h := head_of m in unfold h
  end;
  cbv beta iota zeta.

(** *** Handlers that never throw

    A [try] with a [catch] that only logs and a [finally] that only resets
    the flag returns normally whatever its body did. *)

Lemma returns_ret {A : Type} (a : A) : returns (ret a).
Proof. intros s. now exists a. Qed.

Lemma returns_bind {A B : Type} (m : M A) (k : A -> M B) :
  returns m -> (forall a, returns (k a)) -> returns (bind m k).
Proof.
  intros Hm Hk s. destruct (Hm s) as [a Ha].
  unfold result, bind in *. destruct (m s) as [r s1]. cbn [fst] in Ha.
  subst r. apply Hk.
Qed.

Lemma returns_gets {A : Type} (f : State -> A) : returns (gets f).
Proof. intros s. now exists (f s). Qed.

Lemma returns_modify (f : State -> State) : returns (modify f).
Proof. intros s. now exists tt. Qed.

Lemma returns_addLog (W : World) (m : string) : returns (addLog W m).
Proof. intros s. now exists tt. Qed.

Lemma returns_try_catch_finally (body : M unit) (handler : string -> M unit)
    (fin : M unit) :
  (forall e, returns (handler e)) -> returns fin ->
  returns (try_catch_finally body handler fin).
Proof.
  intros Hh Hf s. unfold result, try_catch_finally.
  destruct (body s) as [[[]|e] s1].
  - apply Hf.
  - destruct (Hh e s1) as [[] Ha]. unfold result in Ha.
    destruct (handler e s1) as [r s2]. cbn [fst] in Ha. subst r. apply Hf.
Qed.

Lemma returns_try_catch (body : M unit) (handler : string -> M unit) :
  (forall e, returns (handler e)) -> returns (try_catch body handler).
Proof.
  intros Hh s. unfold result, try_catch.
  destruct (body s) as [[[]|e] s1]; [now exists tt|apply Hh].
Qed.

Ltac returns_step :=
  lazymatch goal with
  | |- returns (bind _ _) => apply returns_bind; [|intros ?]
  | |- returns (ret _) => apply returns_ret
  | |- returns (gets _) => apply returns_gets
  | |- returns (modify _) => apply returns_modify
  | |- returns (setTimeout _ _) => apply returns_modify
  | |- returns (addLog _ _) => apply returns_addLog
  | |- returns (try_catch_finally _ _ _) =>
      apply returns_try_catch_finally; [intros ?|]
  | |- returns (try_catch _ _) => apply returns_try_catch; intros ?
  | |- returns (if ?c then _ else _) => destruct c
  | |- returns (match ?x with _ => _ end) => destruct x
  | |- returns ?m => let h := head_of m in unfold h
  end;
  cbv beta iota zeta.

(** *** Mount *)

Lemma log_in_step_line (W : World) (s s1 : State) (m : string) :
  log_in_step W s ->
  logs s1
  = (JS.slice_last 10 (logs s)
     ++ [log_line (toLocaleTimeString W (clockReads s)) m])%list ->
  logged s1 = (logged s ++ [m])%list ->
  clockReads s1 = S (clockReads s) ->
  log_in_step W s1.
Proof.
  intros H Hl Hg Hc.
  apply (log_in_step_same W (exec (addLog W m) s) s1); try assumption.
  now apply log_in_step_addLog.
Qed.

Lemma result_exec_of_run {A : Type} (m : M A) (s s1 : State) (r : Res A) :
  m s = (r, s1) -> result m s = r /\ exec m s = s1.
Proof. unfold result, exec. now intros ->. Qed.

(** What [initializeWallet] leaves: a parse error before anything has
    changed, or a wallet that is now the component's, with the two storage
    keys as the only writes. *)
Lemma initializeWallet_outcome (W : World) (s : State) :
  (exists e, initializeWallet W s = (Throw e, s)
             /\ JS.truthy (localStorage s !! "burgerbrows_wallet") = true)
  \/ (exists w s1,
         initializeWallet W s = (Ok w, s1)
         /\ wallet s1 = Some w
         /\ provider s1 = provider s
         /\ (log_in_step W s -> log_in_step W s1)
         /\ (forall ok : Event -> bool,
                (forall k v,
                    k = "burgerbrows_wallet" \/ k = "burgerbrows_device_id" ->
                    ok (EvSetItem k v) = true) ->
                forallb ok (trace s) = true -> forallb ok (trace s1) = true)
         /\ (forall k,
                k <> "burgerbrows_wallet" -> k <> "burgerbrows_device_id" ->
                localStorage s1 !! k = localStorage s !! k)
         /\ (JS.truthy (localStorage s !! "burgerbrows_wallet") = true ->
             localStorage s1 = localStorage s /\ trace s1 = trace s)).
Proof.
  unfold initializeWallet, localStorage_getItem, gets, bind, lift_res.
  destruct (JS.truthy (localStorage s !! "burgerbrows_wallet")) eqn:Hstored.
  - destruct (JSON_parse W (default "" (localStorage s !! "burgerbrows_wallet")))
      as [w|e] eqn:Hparse.
    + right. exists w. eexists. split; [cbn; reflexivity|].
      split; [reflexivity|]. split; [reflexivity|].
      split; [|split; [|split]].
      * intros H. eapply (log_in_step_line W s); [exact H|reflexivity..].
      * intros ok _ H. exact H.
      * reflexivity.
      * intros _. split; reflexivity.
    + left. exists e. split; reflexivity.
  - right.
    unfold generateDeviceFingerprint, localStorage_getItem, gets, bind.
    destruct (JS.truthy (localStorage s !! "burgerbrows_device_id"));
      cbn; do 2 eexists; (split; [reflexivity|]);
      (split; [reflexivity|]); (split; [reflexivity|]);
      (split; [|split; [|split]]).
    all: try (intros H;
              eapply (log_in_step_line W (exec (addLog W _) s));
              [apply log_in_step_addLog; exact H | reflexivity..]).
    all: try (intros ok Hok H; cbn; rewrite !forallb_app, H; cbn;
              rewrite !Hok by (now left + now right); reflexivity).
    all: try (intros k Hk1 Hk2; cbn;
              rewrite !lookup_insert_ne by congruence; reflexivity).
    all: intros Hno; discriminate Hno.
Qed.

(** *** First document *)

Lemma keeps_page1_checkBalance (W : World) (w : option UserWallet) (p : bool)
    (storage : gmap string string) :
  keeps (steady W (mkFrame w p storage (within Session1.permitted w)))
    (Page1.checkBalance W false None).
Proof. destruct w as [u|]; repeat keeps_step. Qed.

Lemma keeps_page1_checkBalance_of (W : World) (u : UserWallet) (p : bool)
    (storage : gmap string string) :
  keeps (steady W (mkFrame (Some u) p storage
                     (within Session1.permitted (Some u))))
    (Page1.checkBalance W true (Some (address u))).
Proof.
  unfold Page1.checkBalance.
  destruct (JS.truthy (Some (address u))); repeat keeps_step.
Qed.

Lemma keeps_page1_dispatch (W : World) (w : option UserWallet) (p : bool)
    (storage : gmap string string) (a : Session1.Action) :
  keeps (steady W (mkFrame w p storage (within Session1.permitted w)))
    (Session1.dispatch W a).
Proof.
  pose proof (keeps_page1_checkBalance W w p storage) as Hcheck.
  destruct a; unfold Session1.dispatch;
    repeat first [ exact Hcheck | keeps_step ].
Qed.

Lemma run1_steady (W : World) (w : option UserWallet) (p : bool)
    (storage : gmap string string) (actions : list Session1.Action) (s : State) :
  steady W (mkFrame w p storage (within Session1.permitted w)) s ->
  steady W (mkFrame w p storage (within Session1.permitted w))
    (Session1.run W actions s).
Proof.
  revert s. induction actions as [|a actions IH]; intros s Hs; [exact Hs|].
  apply IH. now apply keeps_page1_dispatch.
Qed.

Lemma permitted1_writes (w : option UserWallet) (k v : string) :
  k = "burgerbrows_wallet" \/ k = "burgerbrows_device_id" ->
  match w with
  | Some w => Session1.permitted w (EvSetItem k v) = true
  | None => True
  end.
Proof. destruct w; [|easy]. now intros [->| ->]. Qed.

(** The mounted component is steady for the wallet it resolved (or for
    none, after a parse error), and mount wrote nothing but the two keys. *)
Lemma mounted1_steady (W : World) (storage : gmap string string) :
  exists w st,
    steady W (mkFrame w true st (within Session1.permitted w))
      (Session1.mounted W storage)
    /\ (forall k,
           k <> "burgerbrows_wallet" -> k <> "burgerbrows_device_id" ->
           st !! k = storage !! k)
    /\ (JS.truthy (storage !! "burgerbrows_wallet") = true -> st = storage).
Proof.
  unfold Session1.mounted, Page1.onMount.
  change (exec (modify setProvider >> _) (initial_state storage))
    with (exec (let* walletData := initializeWallet W in
                if JS.truthy (Some (address walletData))
                then Page1.checkBalance W true (Some (address walletData))
                else ret tt)
            (setProvider (initial_state storage))).
  rewrite exec_bind.
  destruct (initializeWallet_outcome W (setProvider (initial_state storage)))
    as [(e & Hrun & _) | (w & s1 & Hrun & Hw & Hp & Hlog & Hok & Hkeys & Hsame)];
    destruct (result_exec_of_run _ _ _ _ Hrun) as [-> ->].
  - exists None, storage. split; [|split; [reflexivity|reflexivity]].
    repeat split.
  - exists (Some w), (localStorage s1).
    split; [|split; [exact Hkeys|intros H; apply (Hsame H)]].
    assert (Hs1 : steady W (mkFrame (Some w) true (localStorage s1)
                              (within Session1.permitted (Some w))) s1).
    { split; [exact Hw|]. split; [exact Hp|]. split; [reflexivity|].
      split; [apply Hlog, log_in_step_initial|].
      apply Hok; [|reflexivity].
      intros k v Hk. exact (permitted1_writes (Some w) k v Hk). }
    destruct (JS.truthy (Some (address w)));
      [now apply keeps_page1_checkBalance_of | exact Hs1].
Qed.

Lemma session1_steady (W : World) (storage : gmap string string)
    (actions : list Session1.Action) :
  exists w st,
    steady W (mkFrame w true st (within Session1.permitted w))
      (Session1.mounted W storage)
    /\ steady W (mkFrame w true st (within Session1.permitted w))
         (Session1.session W storage actions)
    /\ (forall k,
           k <> "burgerbrows_wallet" -> k <> "burgerbrows_device_id" ->
           st !! k = storage !! k)
    /\ (JS.truthy (storage !! "burgerbrows_wallet") = true -> st = storage).
Proof.
  destruct (mounted1_steady W storage) as (w & st & Hs & Hk & Hsame).
  exists w, st. split; [exact Hs|]. split; [|split; assumption].
  now apply run1_steady.
Qed.

(** *** Second document *)

Lemma exec_addLog_bind {B : Type} (W : World) (m : string) (k : M B) (s : State) :
  exec (addLog W m >> k) s = exec k (exec (addLog W m) s).
Proof. reflexivity. Qed.

Lemma exec_modify_bind {B : Type} (f : State -> State) (k : M B) (s : State) :
  exec (modify f >> k) s = exec k (f s).
Proof. reflexivity. Qed.

Lemma keeps_page2_checkBalance (W : World) (env : Page2.Env)
    (w : option UserWallet) (p : bool) (storage : gmap string string) :
  keeps (steady W (mkFrame w p storage (within (Session2.permitted W env) w)))
    (Page2.checkBalance W env false None).
Proof. destruct w as [u|]; repeat keeps_step. Qed.

Lemma keeps_page2_checkBalance_of (W : World) (env : Page2.Env)
    (u : UserWallet) (p : bool) (storage : gmap string string) :
  keeps (steady W (mkFrame (Some u) p storage
                     (within (Session2.permitted W env) (Some u))))
    (Page2.checkBalance W env true (Some (address u))).
Proof.
  unfold Page2.checkBalance.
  destruct (JS.truthy (Some (address u))); repeat keeps_step.
Qed.

Lemma keeps_page2_dispatch (W : World) (env : Page2.Env)
    (w : option UserWallet) (p : bool) (storage : gmap string string)
    (a : Session2.Action) :
  keeps (steady W (mkFrame w p storage (within (Session2.permitted W env) w)))
    (Session2.dispatch W env a).
Proof.
  pose proof (keeps_page2_checkBalance W env w p storage) as Hcheck.
  destruct a; unfold Session2.dispatch;
    repeat first [ exact Hcheck | keeps_step ].
Qed.

Lemma run2_steady (W : World) (env : Page2.Env) (w : option UserWallet)
    (p : bool) (storage : gmap string string)
    (actions : list Session2.Action) (s : State) :
  steady W (mkFrame w p storage (within (Session2.permitted W env) w)) s ->
  steady W (mkFrame w p storage (within (Session2.permitted W env) w))
    (Session2.run W env actions s).
Proof.
  revert s. induction actions as [|a actions IH]; intros s Hs; [exact Hs|].
  apply IH. now apply keeps_page2_dispatch.
Qed.

Lemma permitted2_writes (W : World) (env : Page2.Env) (w : UserWallet)
    (k v : string) :
  k = "burgerbrows_wallet" \/ k = "burgerbrows_device_id" ->
  Session2.permitted W env w (EvSetItem k v) = true.
Proof. now intros [->| ->]. Qed.

Lemma steady_try_catch_addLog (W : World) (F : Frame) (body : M unit)
    (line : string -> string) (s : State) :
  steady W F (exec body s) ->
  steady W F (exec (try_catch body (fun error => addLog W (line error))) s).
Proof.
  intros H. rewrite exec_try_catch.
  destruct (result body s); [exact H|]. now apply keeps_addLog.
Qed.

Lemma steady_initial (W : World) (storage : gmap string string)
    (ok : Event -> bool) :
  steady W (mkFrame None false storage ok) (initial_state storage).
Proof. repeat split. Qed.

Lemma mount2_body (W : World) (env : Page2.Env)
    (storage : gmap string string) (a b : string)
    (line : UserWallet -> string) :
  exists w st,
    steady W (mkFrame w true st (within (Session2.permitted W env) w))
      (exec (addLog W a >> addLog W b >> modify setProvider >>
             let* walletData := initializeWallet W in
             addLog W (line walletData) >>
             if JS.truthy (Some (address walletData))
             then Page2.checkBalance W env true (Some (address walletData))
             else ret tt)
         (initial_state storage))
    /\ (forall k,
           k <> "burgerbrows_wallet" -> k <> "burgerbrows_device_id" ->
           st !! k = storage !! k)
    /\ (JS.truthy (storage !! "burgerbrows_wallet") = true -> st = storage).
Proof.
  rewrite !exec_addLog_bind, exec_modify_bind, exec_bind.
  assert (Hlog2 : log_in_step W
            (setProvider (exec (addLog W b)
                            (exec (addLog W a) (initial_state storage))))).
  { apply log_in_step_setProvider.
    do 2 apply log_in_step_addLog. apply log_in_step_initial. }
  destruct (initializeWallet_outcome W
              (setProvider (exec (addLog W b)
                              (exec (addLog W a) (initial_state storage)))))
    as [(e & Hrun & _) | (w & s3 & Hrun & Hw & Hp & Hlog & Hok & Hkeys & Hsame)];
    destruct (result_exec_of_run _ _ _ _ Hrun) as [-> ->].
  - exists None, storage. split; [|split; reflexivity].
    split; [reflexivity|]. split; [reflexivity|]. split; [reflexivity|].
    split; [exact Hlog2|reflexivity].
  - exists (Some w), (localStorage s3).
    split; [|split; [exact Hkeys|intros H; apply (Hsame H)]].
    apply keeps_bind;
      [ apply keeps_addLog
      | intros _; destruct (JS.truthy (Some (address w)));
          [apply keeps_page2_checkBalance_of | apply keeps_ret]
      |].
    split; [exact Hw|]. split; [exact Hp|]. split; [reflexivity|].
    split; [apply Hlog, Hlog2|].
    apply Hok; [|reflexivity].
    intros k v Hk. exact (permitted2_writes W env w k v Hk).
Qed.

Lemma mounted2_steady (W : World) (env : Page2.Env)
    (storage : gmap string string) :
  exists w p st,
    steady W (mkFrame w p st (within (Session2.permitted W env) w))
      (Session2.mounted W env storage)
    /\ (forall k,
           k <> "burgerbrows_wallet" -> k <> "burgerbrows_device_id" ->
           st !! k = storage !! k)
    /\ (JS.truthy (storage !! "burgerbrows_wallet") = true -> st = storage).
Proof.
  unfold Session2.mounted, Page2.onMount.
  destruct (negb (JS.truthy (Page2.RPC_URL env))).
  { exists None, false, storage. split; [|split; reflexivity].
    apply steady_try_catch_addLog, keeps_addLog, steady_initial. }
  destruct (negb (JS.truthy (Page2.MOCK_USDC env))
            || negb (JS.truthy (Page2.BROWSER_VAULT env))
            || negb (JS.truthy (Page2.REWARD_POOL env))).
  { exists None, false, storage. split; [|split; reflexivity].
    apply steady_try_catch_addLog, keeps_addLog, steady_initial. }
  edestruct (mount2_body W env storage) as (w & st & Hs & Hk & Hsame).
  exists w, true, st. split; [|split; [exact Hk|exact Hsame]].
  apply steady_try_catch_addLog. exact Hs.
Qed.

Lemma session2_steady (W : World) (env : Page2.Env)
    (storage : gmap string string) (actions : list Session2.Action) :
  exists w p st,
    steady W (mkFrame w p st (within (Session2.permitted W env) w))
      (Session2.mounted W env storage)
    /\ steady W (mkFrame w p st (within (Session2.permitted W env) w))
         (Session2.session W env storage actions)
    /\ (forall k,
           k <> "burgerbrows_wallet" -> k <> "burgerbrows_device_id" ->
           st !! k = storage !! k)
    /\ (JS.truthy (storage !! "burgerbrows_wallet") = true -> st = storage).
Proof.
  destruct (mounted2_steady W env storage) as (w & p & st & Hs & Hk & Hsame).
  exists w, p, st. split; [exact Hs|]. split; [|split; assumption].
  now apply run2_steady.
Qed.

(** ** Properties of whole sessions *)

Lemma steady_logs (W : World) (F : Frame) (s : State) :
  steady W F s ->
  logs s = JS.slice_last 11 (log_history W s) /\ length (logs s) <= 11.
Proof.
  intros (_ & _ & _ & [Hlogs _] & _). split; [exact Hlogs|].
  rewrite Hlogs. apply slice_last_length.
Qed.

Lemma nothing_allowed (P : UserWallet -> Event -> bool) (events : list Event) :
  forallb (within P None) events = true -> events = [].
Proof. destruct events as [|e events]; [reflexivity|discriminate]. Qed.

Lemma steady_requests (W : World) (P : UserWallet -> Event -> bool)
    (w : option UserWallet) (p : bool) (st : gmap string string) (s : State) :
  steady W (mkFrame w p st (within P w)) s ->
  match wallet s with
  | Some u => forallb (P u) (trace s) = true
  | None => trace s = []
  end.
Proof.
  intros (Hw & _ & _ & _ & Hok). cbn in Hw, Hok. rewrite Hw.
  destruct w as [u|]; [exact Hok|]. exact (nothing_allowed P _ Hok).
Qed.

(** X1. The log of a session.  Whatever the user and the browser do after
    mount, in whatever order, the log shows the last eleven lines of
    everything written since the component started (the initial line,
    then one line per call of [addLog], each stamped with the clock
    reading of its call), and never holds more than eleven lines. *)
Theorem session_log_shows_tail_of_history :
  (forall (W : World) (storage : gmap string string)
          (actions : list Session1.Action),
      let s := Session1.session W storage actions in
      logs s = JS.slice_last 11 (log_history W s) /\ length (logs s) <= 11)
  /\ (forall (W : World) (env : Page2.Env) (storage : gmap string string)
             (actions : list Session2.Action),
         let s := Session2.session W env storage actions in
         logs s = JS.slice_last 11 (log_history W s) /\ length (logs s) <= 11).
Proof.
  split.
  - intros W storage actions s.
    destruct (session1_steady W storage actions) as (w & st & _ & Hs & _).
    exact (steady_logs W _ _ Hs).
  - intros W env storage actions s.
    destruct (session2_steady W env storage actions) as (w & p & st & _ & Hs & _).
    exact (steady_logs W _ _ Hs).
Qed.

(** X2. Requests of the first document.  In a session of the hard-coded
    document every request made of the outside is on the list
    [Session1.permitted] of the session's wallet: reads of that wallet's
    own balance on the token, mints of 100 or 10 units to it signed with
    the faucet key, an approve of the vault for 50 units or a transfer
    signed with the wallet's key, writes of the two storage keys, and the
    wallet's address on the clipboard.  Without a wallet (mount failed on
    a stored record that does not parse) no request is ever made. *)
Theorem session1_requests_permitted
    (W : World) (storage : gmap string string)
    (actions : list Session1.Action) :
  let s := Session1.session W storage actions in
  match wallet s with
  | Some w => forallb (Session1.permitted w) (trace s) = true
  | None => trace s = []
  end.
Proof.
  intros s.
  destruct (session1_steady W storage actions) as (w & st & _ & Hs & _).
  exact (steady_requests W _ _ _ _ _ Hs).
Qed.

(** X3. Requests of the second document.  In a session of the document
    configured from [process.env] every request is on the list
    [Session2.permitted]: balance reads on the configured token, of the
    session's wallet or of the paying wallet; a mint of 100 units or a
    transfer of 10 units to the session's wallet, signed with the paying
    key; an approve of the configured vault for 50 units on the token and
    a deposit of 50 units on the vault, signed with the wallet's key;
    writes of the two storage keys; the wallet's address on the
    clipboard.  Without a wallet (configuration missing, or a stored
    record that does not parse) no request is ever made. *)
Theorem session2_requests_permitted
    (W : World) (env : Page2.Env) (storage : gmap string string)
    (actions : list Session2.Action) :
  let s := Session2.session W env storage actions in
  match wallet s with
  | Some w => forallb (Session2.permitted W env w) (trace s) = true
  | None => trace s = []
  end.
Proof.
  intros s.
  destruct (session2_steady W env storage actions) as (w & p & st & _ & Hs & _).
  exact (steady_requests W _ _ _ _ _ Hs).
Qed.

Lemma steady_fixed (W : World) (F : Frame) (s1 s : State) :
  steady W F s1 -> steady W F s ->
  wallet s = wallet s1 /\ provider s = provider s1
  /\ localStorage s = localStorage s1.
Proof.
  intros (Hw1 & Hp1 & Hst1 & _) (Hw & Hp & Hst & _).
  now rewrite Hw, Hw1, Hp, Hp1, Hst, Hst1.
Qed.

(** X4. Identity and storage after mount.  Once the component is mounted,
    no event changes the wallet, the provider or [localStorage]: they stay
    what mount left.  Storage differs from what the browser held before
    mount at most under the keys ["burgerbrows_wallet"] and
    ["burgerbrows_device_id"], and when a non-empty wallet record was
    stored it is never written at all. *)
Theorem session_identity_and_storage_fixed :
  (forall (W : World) (storage : gmap string string)
          (actions : list Session1.Action),
      let s1 := Session1.mounted W storage in
      let s := Session1.session W storage actions in
      wallet s = wallet s1 /\ provider s = provider s1
      /\ localStorage s = localStorage s1
      /\ (forall k,
             k <> "burgerbrows_wallet" -> k <> "burgerbrows_device_id" ->
             localStorage s !! k = storage !! k)
      /\ (JS.truthy (storage !! "burgerbrows_wallet") = true ->
          localStorage s = storage))
  /\ (forall (W : World) (env : Page2.Env) (storage : gmap string string)
             (actions : list Session2.Action),
         let s1 := Session2.mounted W env storage in
         let s := Session2.session W env storage actions in
         wallet s = wallet s1 /\ provider s = provider s1
         /\ localStorage s = localStorage s1
         /\ (forall k,
                k <> "burgerbrows_wallet" -> k <> "burgerbrows_device_id" ->
                localStorage s !! k = storage !! k)
         /\ (JS.truthy (storage !! "burgerbrows_wallet") = true ->
             localStorage s = storage)).
Proof.
  split.
  - intros W storage actions s1 s.
    destruct (session1_steady W storage actions)
      as (w & st & Hs1 & Hs & Hkeys & Hsame).
    destruct (steady_fixed W _ _ _ Hs1 Hs) as (Hw & Hp & Hst).
    assert (Est : localStorage s = st) by apply Hs.
    repeat split; try assumption.
    + intros k Hk1 Hk2. rewrite Est. now apply Hkeys.
    + intros H. rewrite Est. now apply Hsame.
  - intros W env storage actions s1 s.
    destruct (session2_steady W env storage actions)
      as (w & p & st & Hs1 & Hs & Hkeys & Hsame).
    destruct (steady_fixed W _ _ _ Hs1 Hs) as (Hw & Hp & Hst).
    assert (Est : localStorage s = st) by apply Hs.
    repeat split; try assumption.
    + intros k Hk1 Hk2. rewrite Est. now apply Hkeys.
    + intros H. rewrite Est. now apply Hsame.
Qed.

(** *** The busy flag *)

Lemma idle_initializeWallet (W : World) : keeps idle (initializeWallet W).
Proof. unfold initializeWallet. repeat idle_step. Qed.

Lemma idle_page1_mount (W : World) : keeps idle (Page1.onMount W).
Proof.
  pose proof (idle_initializeWallet W) as Hinit.
  unfold Page1.onMount. repeat first [ exact Hinit | idle_step ].
Qed.

Lemma idle_page2_mount (W : World) (env : Page2.Env) :
  keeps idle (Page2.onMount W env).
Proof.
  pose proof (idle_initializeWallet W) as Hinit.
  unfold Page2.onMount. repeat first [ exact Hinit | idle_step ].
Qed.

Lemma idle_page1_dispatch (W : World) (a : Session1.Action) :
  keeps idle (Session1.dispatch W a).
Proof. destruct a; unfold Session1.dispatch; repeat idle_step. Qed.

Lemma idle_page2_dispatch (W : World) (env : Page2.Env) (a : Session2.Action) :
  keeps idle (Session2.dispatch W env a).
Proof. destruct a; unfold Session2.dispatch; repeat idle_step. Qed.

(** X5. The busy flag is always released.  Each operation of either document
    that finds the flag down leaves it down, whatever the chain and the
    library answered to it and wherever it stopped; so after mount and
    after every event of a session the buttons are enabled again. *)
Theorem busy_flag_always_released :
  (forall (W : World) (toAddress amount : string),
      keeps idle (Page1.checkBalance W false None)
      /\ keeps idle (Page1.mintTestUSDC W)
      /\ keeps idle (Page1.depositUSDC W)
      /\ keeps idle (Page1.claimRewards W)
      /\ keeps idle (Page1.transferUSDC W toAddress amount))
  /\ (forall (W : World) (env : Page2.Env),
         keeps idle (Page2.checkBalance W env false None)
         /\ keeps idle (Page2.mintTestUSDC W env)
         /\ keeps idle (Page2.depositUSDC W env)
         /\ keeps idle (Page2.claimRewards W env))
  /\ (forall (W : World) (storage : gmap string string)
             (actions : list Session1.Action),
         loading (Session1.session W storage actions) = false)
  /\ (forall (W : World) (env : Page2.Env) (storage : gmap string string)
             (actions : list Session2.Action),
         loading (Session2.session W env storage actions) = false).
Proof.
  split; [|split; [|split]].
  - intros W toAddress amount. repeat split; repeat idle_step.
  - intros W env. repeat split; repeat idle_step.
  - intros W storage actions. unfold Session1.session.
    assert (H : idle (Session1.mounted W storage))
      by (apply idle_page1_mount; reflexivity).
    revert H. generalize (Session1.mounted W storage).
    induction actions as [|a actions IH]; intros s Hs; [exact Hs|].
    apply IH. now apply idle_page1_dispatch.
  - intros W env storage actions. unfold Session2.session.
    assert (H : idle (Session2.mounted W env storage))
      by (apply idle_page2_mount; reflexivity).
    revert H. generalize (Session2.mounted W env storage).
    induction actions as [|a actions IH]; intros s Hs; [exact Hs|].
    apply IH. now apply idle_page2_dispatch.
Qed.

(** *** Errors stay inside the handlers *)

(** X6. No event handler throws.  Every handler the two documents wire to an
    event returns normally from every state, whatever the chain, the
    library and the clipboard answer: the operations catch and log, and
    the handlers outside a [try] call nothing that can throw.  The mount
    effect of the second document returns normally too. *)
Theorem handlers_never_throw :
  (forall (W : World) (a : Session1.Action), returns (Session1.dispatch W a))
  /\ (forall (W : World) (env : Page2.Env) (a : Session2.Action),
         returns (Session2.dispatch W env a))
  /\ (forall (W : World) (env : Page2.Env), returns (Page2.onMount W env)).
Proof.
  split; [|split].
  - intros W a. destruct a; unfold Session1.dispatch; repeat returns_step.
  - intros W env a. destruct a; unfold Session2.dispatch; repeat returns_step.
  - intros W env. unfold Page2.onMount. repeat returns_step.
Qed.

(** ** Operations, one at a time *)

(** *** Balance refresh *)

(** X7. [checkBalance] with wallet and provider in place: one balance read
    for the wallet's own address and nothing else asked of the chain, no
    timer, the busy flag down at the end.  When the read answers, the
    displayed balance becomes the answer formatted with six decimals; when
    it throws, the displayed balance is left as it was and the error is
    logged.  The two documents agree up to the token's name and address. *)
Theorem checkBalance_updates_or_keeps_balance
    (W : World) (s : State) (w : UserWallet) :
  wallet s = Some w ->
  provider s = true ->
  (let s' := exec (Page1.checkBalance W false None) s in
   new_events s s' = [EvBalanceOf Page1.USDC_ADDRESS (address w)]
   /\ new_timers s s' = []
   /\ loading s' = false
   /\ match rpc_balanceOf W (trace s) Page1.USDC_ADDRESS (address w) with
      | Ok b =>
          balance s' = formatUnits6 W b
          /\ new_lines s s'
             = ["🏦 Checking USDC balance...";
                ("💰 USDC Balance: " ++ formatUnits6 W b)%string]
      | Throw e =>
          balance s' = balance s
          /\ new_lines s s'
             = ["🏦 Checking USDC balance...";
                ("❌ Error checking balance: " ++ e)%string]
      end)
  /\ (forall (env : Page2.Env) (token : string),
         Page2.NEXT_PUBLIC_MOCK_USDC env = Some token -> token <> "" ->
         let s' := exec (Page2.checkBalance W env false None) s in
         new_events s s' = [EvBalanceOf token (address w)]
         /\ new_timers s s' = []
         /\ loading s' = false
         /\ match rpc_balanceOf W (trace s) token (address w) with
            | Ok b =>
                balance s' = formatUnits6 W b
                /\ new_lines s s'
                   = ["🏦 Checking MockUSDC balance...";
                      ("💰 MockUSDC Balance: " ++ formatUnits6 W b)%string]
            | Throw e =>
                balance s' = balance s
                /\ new_lines s s'
                   = ["🏦 Checking MockUSDC balance...";
                      ("❌ Error checking balance: " ++ e)%string]
            end).
Proof.
  intros Hw Hp. split.
  - intros s'. subst s'.
    unfold_handler; rewrite Hw, Hp; cbn.
    destruct (rpc_balanceOf W (trace s) Page1.USDC_ADDRESS (address w));
      cbn; read_off; repeat split; reflexivity.
  - intros env token Ht Hne s'. subst s'. apply truthy_Some in Hne.
    unfold_handler; rewrite Hw, Hp, Ht, Hne; cbn.
    destruct (rpc_balanceOf W (trace s) token (address w));
      cbn; read_off; repeat split; reflexivity.
Qed.

Lemma checkBalance_updates_or_keeps_balance_witness :
  (let s' := exec (Page1.checkBalance (Demo.world 30000000 true) false None)
               Demo.ready in
   new_events Demo.ready s'
   = [EvBalanceOf Page1.USDC_ADDRESS Demo.user_address]
   /\ new_timers Demo.ready s' = []
   /\ loading s' = false
   /\ balance s' = "30.0"
   /\ new_lines Demo.ready s'
      = ["🏦 Checking USDC balance..."; "💰 USDC Balance: 30.0"]).
Proof.
  exact (proj1 (checkBalance_updates_or_keeps_balance
                  (Demo.world 30000000 true) Demo.ready Demo.user
                  eq_refl eq_refl)).
Defined.

(** *** Faucet mint *)

(** X8. The faucet mint is one transaction signed with the privileged key,
    never with the user's: a [mint] of 100 units to the user's own
    address on the token, followed by the wait for its confirmation when
    it was accepted.  When the chain rejects it the error is logged under
    the operation's name and no refresh is queued.  In the second
    document the key comes from the environment; without it the operation
    stops before any request. *)
Theorem mint_is_signed_by_the_privileged_key
    (W : World) (s : State) (w : UserWallet) :
  wallet s = Some w ->
  provider s = true ->
  (forall payer,
      newWallet W Page1.FAUCET_KEY = Ok payer ->
      let s' := exec (Page1.mintTestUSDC W) s in
      let request :=
        rpc_send W (trace s) Page1.FAUCET_KEY Page1.USDC_ADDRESS
          (Mint (address w) (units6 100)) in
      new_events s s'
      = EvSend Page1.FAUCET_KEY Page1.USDC_ADDRESS
          (Mint (address w) (units6 100))
        :: match request with Ok tx => [EvWait tx] | Throw _ => [] end
      /\ (forall e, request = Throw e ->
            last (new_lines s s') = Some ("❌ Faucet error: " ++ e)%string
            /\ new_timers s s' = []))
  /\ (forall (env : Page2.Env) (token : string),
         Page2.NEXT_PUBLIC_MOCK_USDC env = Some token -> token <> "" ->
         (forall key payer,
             Page2.NEXT_PUBLIC_HACKATHON_PRIVATE_KEY env = Some key ->
             key <> "" ->
             newWallet W key = Ok payer ->
             let s' := exec (Page2.mintTestUSDC W env) s in
             let request :=
               rpc_send W (trace s) key token (Mint (address w) (units6 100)) in
             new_events s s'
             = EvSend key token (Mint (address w) (units6 100))
               :: match request with Ok tx => [EvWait tx] | Throw _ => [] end
             /\ (forall e, request = Throw e ->
                   last (new_lines s s') = Some ("❌ Mint error: " ++ e)%string
                   /\ new_timers s s' = []))
         /\ (JS.truthy (Page2.NEXT_PUBLIC_HACKATHON_PRIVATE_KEY env) = false ->
             let s' := exec (Page2.mintTestUSDC W env) s in
             new_events s s' = []
             /\ new_lines s s'
                = ["🚰 Minting 100 test USDC from MockUSDC faucet...";
                   "❌ Hackathon wallet not configured"]
             /\ new_timers s s' = [])).
Proof.
  intros Hw Hp. split.
  - intros payer Hkey s' request. subst s' request. split.
    + wp_start. unfold Page1.mintTestUSDC.
      repeat wp_step; wp_finish; reflexivity.
    + intros e He. split.
      * wp_start. unfold Page1.mintTestUSDC.
        repeat wp_step; wp_finish; reflexivity.
      * wp_start. unfold Page1.mintTestUSDC.
        repeat wp_step; wp_finish; reflexivity.
  - intros env token Ht Hne. apply truthy_Some in Hne. split.
    + intros key payer Hk Hkne Hkey s' request. subst s' request.
      apply truthy_Some in Hkne. split.
      * wp_start. unfold Page2.mintTestUSDC, Page2.MOCK_USDC. rewrite Ht, Hk.
        repeat wp_step; wp_finish; reflexivity.
      * intros e He. split.
        -- wp_start. unfold Page2.mintTestUSDC, Page2.MOCK_USDC. rewrite Ht, Hk.
           repeat wp_step; wp_finish; reflexivity.
        -- wp_start. unfold Page2.mintTestUSDC, Page2.MOCK_USDC. rewrite Ht, Hk.
           repeat wp_step; wp_finish; reflexivity.
    + intros Hnokey s'. subst s'.
      wp_start. unfold Page2.mintTestUSDC, Page2.MOCK_USDC. rewrite Ht.
      repeat wp_step; wp_finish; repeat split; reflexivity.
Qed.

Lemma mint_is_signed_by_the_privileged_key_witness :
  new_events Demo.ready
    (exec (Page1.mintTestUSDC (Demo.world 0 true)) Demo.ready)
  = [EvSend Page1.FAUCET_KEY Page1.USDC_ADDRESS
       (Mint Demo.user_address (units6 100));
     EvWait Demo.tx_hash]
  /\ last (new_lines Demo.ready
             (exec (Page2.mintTestUSDC (Demo.world 0 false) Demo.env) Demo.ready))
     = Some "❌ Mint error: Error: transaction reverted".
Proof.
  split.
  - exact (proj1 (proj1 (mint_is_signed_by_the_privileged_key
                           (Demo.world 0 true) Demo.ready Demo.user
                           eq_refl eq_refl)
                    Demo.hackathon_address eq_refl)).
  - exact (proj1 (proj2 (proj1 (proj2 (mint_is_signed_by_the_privileged_key
                                         (Demo.world 0 false) Demo.ready
                                         Demo.user eq_refl eq_refl)
                                  Demo.env Page1.USDC_ADDRESS eq_refl
                                  ltac:(discriminate))
                           Page1.FAUCET_KEY Demo.hackathon_address eq_refl
                           ltac:(discriminate) eq_refl)
                    "Error: transaction reverted" eq_refl)).
Defined.

(** *** Peer transfer *)

(** X9. A transfer that passed validation reads the balance and compares it
    with the amount in token units.  With less than the amount it stops
    after the read with the insufficient-balance line and sends nothing;
    otherwise its one transaction is a [transfer] of exactly the parsed
    amount to the recipient, signed with the user's key, followed by the
    wait for its confirmation when it was accepted. *)
Theorem transfer_sends_only_what_the_balance_covers
    (W : World) (s : State) (w : UserWallet)
    (toAddress amount signer : string) (b units : Z) :
  wallet s = Some w ->
  provider s = true ->
  isAddress W toAddress = true ->
  JS.le_zero (JS.parseFloat amount) = false ->
  newWallet W (privateKey w) = Ok signer ->
  rpc_balanceOf W (trace s) Page1.USDC_ADDRESS (address w) = Ok b ->
  parseUnits6 W amount = Ok units ->
  let s' := exec (Page1.transferUSDC W toAddress amount) s in
  ((b < units)%Z ->
     new_events s s' = [EvBalanceOf Page1.USDC_ADDRESS (address w)]
     /\ last (new_lines s s')
        = Some ("❌ Insufficient balance. Have "
                ++ formatUnits6 W b ++ " USDC")%string
     /\ new_timers s s' = [])
  /\ ((units <= b)%Z ->
      new_events s s'
      = EvBalanceOf Page1.USDC_ADDRESS (address w)
        :: EvSend (privateKey w) Page1.USDC_ADDRESS (Transfer toAddress units)
        :: match rpc_send W
                   (trace s ++ [EvBalanceOf Page1.USDC_ADDRESS (address w)])
                   (privateKey w) Page1.USDC_ADDRESS
                   (Transfer toAddress units) with
           | Ok tx => [EvWait tx]
           | Throw _ => []
           end).
Proof.
  intros Hw Hp Ha Hpos Hkey Hbal Hunits s'. subst s'. split.
  - intros Hlt. apply Z.ltb_lt in Hlt.
    repeat split; wp_start; unfold Page1.transferUSDC;
      repeat wp_step; wp_finish; reflexivity.
  - intros Hge. apply Z.ltb_ge in Hge.
    wp_start. unfold Page1.transferUSDC.
    repeat wp_step; wp_finish; reflexivity.
Qed.

Lemma transfer_sends_only_what_the_balance_covers_witness :
  new_events Demo.ready
    (exec (Page1.transferUSDC (Demo.world 3000000 true)
             Demo.hackathon_address "5") Demo.ready)
  = [EvBalanceOf Page1.USDC_ADDRESS Demo.user_address]
  /\ new_events Demo.ready
       (exec (Page1.transferUSDC (Demo.world 30000000 true)
                Demo.hackathon_address "5") Demo.ready)
     = [EvBalanceOf Page1.USDC_ADDRESS Demo.user_address;
        EvSend Demo.user_key Page1.USDC_ADDRESS
          (Transfer Demo.hackathon_address 5000000);
        EvWait Demo.tx_hash].
Proof.
  split.
  - exact (proj1 (proj1 (transfer_sends_only_what_the_balance_covers
                           (Demo.world 3000000 true) Demo.ready Demo.user
                           Demo.hackathon_address "5" Demo.user_address
                           3000000 5000000
                           eq_refl eq_refl eq_refl eq_refl eq_refl eq_refl
                           eq_refl)
                    eq_refl)).
  - exact (proj2 (transfer_sends_only_what_the_balance_covers
                    (Demo.world 30000000 true) Demo.ready Demo.user
                    Demo.hackathon_address "5" Demo.user_address
                    30000000 5000000
                    eq_refl eq_refl eq_refl eq_refl eq_refl eq_refl eq_refl)
             ltac:(discriminate)).
Defined.

(** *** Deposit: where it can fail *)

(** X10. The deposit of the second document stops at the first request that
    fails, and undoes nothing.  When the approve is rejected the deposit
    is never attempted.  When the approve was sent and confirmed and the
    vault then rejects the deposit, the rejected deposit is the last
    request: no approve of zero, no other call follows, so the allowance
    of 50 units stays granted.  In both cases the error is logged under
    the operation's name, no refresh is queued and the busy flag is
    down. *)
Theorem deposit_stops_at_first_failure
    (W : World) (env : Page2.Env) (token vault : string)
    (s : State) (w : UserWallet) (signer : string) (b : Z) :
  Page2.NEXT_PUBLIC_MOCK_USDC env = Some token -> token <> "" ->
  Page2.NEXT_PUBLIC_BROWSER_VAULT env = Some vault -> vault <> "" ->
  wallet s = Some w ->
  provider s = true ->
  newWallet W (privateKey w) = Ok signer ->
  rpc_balanceOf W (trace s) token (address w) = Ok b ->
  (units6 50 <= b)%Z ->
  let read := EvBalanceOf token (address w) in
  let approve := EvSend (privateKey w) token (Approve vault (units6 50)) in
  let deposit := EvSend (privateKey w) vault (Deposit (units6 50)) in
  let s' := exec (Page2.depositUSDC W env) s in
  (forall e,
      rpc_send W (trace s ++ [read]) (privateKey w) token
        (Approve vault (units6 50)) = Throw e ->
      new_events s s' = [read; approve]
      /\ last (new_lines s s') = Some ("❌ Deposit error: " ++ e)%string
      /\ new_timers s s' = []
      /\ loading s' = false)
  /\ (forall approveTx receipt e,
         rpc_send W (trace s ++ [read]) (privateKey w) token
           (Approve vault (units6 50)) = Ok approveTx ->
         rpc_wait W (trace s ++ [read; approve]) approveTx = Ok receipt ->
         rpc_send W (trace s ++ [read; approve; EvWait approveTx])
           (privateKey w) vault (Deposit (units6 50)) = Throw e ->
         new_events s s' = [read; approve; EvWait approveTx; deposit]
         /\ last (new_lines s s') = Some ("❌ Deposit error: " ++ e)%string
         /\ new_timers s s' = []
         /\ loading s' = false).
Proof.
  intros Ht Htne Hv Hvne Hw Hp Hkey Hbal Hb read approve deposit s'.
  subst read approve deposit s'.
  apply truthy_Some in Htne, Hvne.
  assert (Hz : (b =? 0)%Z = false) by (apply Z.eqb_neq; unfold units6 in Hb; lia).
  assert (Hlt : (b <? units6 50)%Z = false) by (apply Z.ltb_ge; exact Hb).
  split.
  - intros e He.
    repeat split; wp_start;
      unfold Page2.depositUSDC, Page2.MOCK_USDC, Page2.BROWSER_VAULT;
      rewrite Ht, Hv; repeat wp_step; wp_finish; reflexivity.
  - intros approveTx receipt e Happrove Hwait He.
    repeat split; wp_start;
      unfold Page2.depositUSDC, Page2.MOCK_USDC, Page2.BROWSER_VAULT;
      rewrite Ht, Hv; repeat wp_step; wp_finish; reflexivity.
Qed.

Lemma deposit_stops_at_first_failure_witness :
  let s' := exec (Page2.depositUSDC Scenario.vault_reverts Demo.env) Demo.ready in
  new_events Demo.ready s'
  = [EvBalanceOf Page1.USDC_ADDRESS Demo.user_address;
     EvSend Demo.user_key Page1.USDC_ADDRESS
       (Approve Page1.BROWSER_VAULT (units6 50));
     EvWait Demo.tx_hash;
     EvSend Demo.user_key Page1.BROWSER_VAULT (Deposit (units6 50))]
  /\ last (new_lines Demo.ready s')
     = Some "❌ Deposit error: Error: execution reverted"
  /\ new_timers Demo.ready s' = []
  /\ loading s' = false.
Proof.
  exact (proj2 (deposit_stops_at_first_failure Scenario.vault_reverts Demo.env
                  Page1.USDC_ADDRESS Page1.BROWSER_VAULT Demo.ready Demo.user
                  Demo.user_address 50000000
                  eq_refl ltac:(discriminate) eq_refl ltac:(discriminate)
                  eq_refl eq_refl eq_refl eq_refl ltac:(discriminate))
           Demo.tx_hash "7" "Error: execution reverted"
           eq_refl eq_refl eq_refl).
Defined.

(** *** A stored record that does not parse *)

(** X11. When [JSON.parse] throws on the stored wallet record, the mount
    effect of the first document throws that error to its caller: the
    provider is set, but there is no wallet, nothing is logged, no balance
    is read and storage is left as found.  The mount effect of the second
    document (fully configured) catches it: it returns normally with the
    failed-to-initialize line as the last thing logged, and likewise no
    wallet, no request and storage untouched. *)
Theorem corrupted_record_stops_mount
    (W : World) (storage : gmap string string) (text e : string) :
  storage !! "burgerbrows_wallet" = Some text ->
  text <> "" ->
  JSON_parse W text = Throw e ->
  (let s0 := initial_state storage in
   let s' := exec (Page1.onMount W) s0 in
   result (Page1.onMount W) s0 = Throw e
   /\ wallet s' = None /\ provider s' = true
   /\ new_lines s0 s' = [] /\ new_events s0 s' = []
   /\ localStorage s' = storage)
  /\ (forall env : Page2.Env,
         JS.truthy (Page2.NEXT_PUBLIC_RPC_URL env) = true ->
         JS.truthy (Page2.NEXT_PUBLIC_MOCK_USDC env) = true ->
         JS.truthy (Page2.NEXT_PUBLIC_BROWSER_VAULT env) = true ->
         JS.truthy (Page2.NEXT_PUBLIC_REWARD_POOL env) = true ->
         let s0 := initial_state storage in
         let s' := exec (Page2.onMount W env) s0 in
         result (Page2.onMount W env) s0 = Ok tt
         /\ wallet s' = None /\ provider s' = true
         /\ last (new_lines s0 s')
            = Some ("❌ Failed to initialize: " ++ e)%string
         /\ new_events s0 s' = []
         /\ localStorage s' = storage).
Proof.
  intros Hget Hne Hparse. apply truthy_Some in Hne. split.
  - intros s0 s'. subst s0 s'.
    unfold Page1.onMount, initializeWallet, localStorage_getItem,
      exec, result, bind, gets, modify, lift_res.
    cbn. rewrite Hget, Hne. cbn. rewrite Hparse.
    repeat split.
  - intros env Hrpc Htoken Hvault Hpool s0 s'. subst s0 s'.
    unfold Page2.onMount, Page2.RPC_URL, Page2.MOCK_USDC, Page2.BROWSER_VAULT,
      Page2.REWARD_POOL, initializeWallet, localStorage_getItem,
      exec, result, try_catch, bind, gets, modify, lift_res.
    rewrite Hrpc, Htoken, Hvault, Hpool.
    cbn. rewrite Hget, Hne. cbn. rewrite Hparse.
    read_off. repeat split.
Qed.

Lemma corrupted_record_stops_mount_witness :
  result (Page1.onMount (Demo.world 0 true)) (initial_state Scenario.corrupted)
  = Throw "SyntaxError: Unexpected token"
  /\ result (Page2.onMount (Demo.world 0 true) Demo.env)
       (initial_state Scenario.corrupted) = Ok tt.
Proof.
  split.
  - exact (proj1 (proj1 (corrupted_record_stops_mount (Demo.world 0 true)
                           Scenario.corrupted "{oops"
                           "SyntaxError: Unexpected token"
                           eq_refl ltac:(discriminate) eq_refl))).
  - exact (proj1 (proj2 (corrupted_record_stops_mount (Demo.world 0 true)
                           Scenario.corrupted "{oops"
                           "SyntaxError: Unexpected token"
                           eq_refl ltac:(discriminate) eq_refl)
                    Demo.env eq_refl eq_refl eq_refl eq_refl)).
Defined.

(** *** Copying the address *)

(** X12. [copyWalletAddress] hands the clipboard the wallet's address and
    nothing else: with a wallet whose address is not empty, the one
    request it makes is a clipboard write of that address (never of the
    private key), and it logs the copied line when the write is accepted
    and the failed line when it is refused, returning normally either
    way; without a wallet it does nothing at all. *)
Theorem copy_writes_only_the_address (W : World) (s : State) :
  (wallet s = None -> exec (copyWalletAddress W) s = s)
  /\ (forall w,
         wallet s = Some w -> address w <> "" ->
         let s' := exec (copyWalletAddress W) s in
         result (copyWalletAddress W) s = Ok tt
         /\ new_events s s' = [EvClipboard (address w)]
         /\ new_lines s s'
            = [match clipboard_writeText W (trace s) (address w) with
               | Ok _ => "📋 Wallet address copied to clipboard!"
               | Throw _ => "❌ Failed to copy address"
               end]).
Proof.
  split.
  - intros Hw. unfold copyWalletAddress, exec, bind, gets. now rewrite Hw.
  - intros w Hw Hne s'. subst s'. apply truthy_Some in Hne.
    unfold copyWalletAddress, exec, result, try_catch, bind, gets.
    rewrite Hw, Hne.
    destruct (clipboard_writeText W (trace s) (address w)) as [[]|e];
      cbn; read_off; repeat split.
Qed.

Lemma copy_writes_only_the_address_witness :
  new_events Demo.ready (exec (copyWalletAddress (Demo.world 0 true)) Demo.ready)
  = [EvClipboard Demo.user_address]
  /\ exec (copyWalletAddress (Demo.world 0 true)) Demo.first_run = Demo.first_run.
Proof.
  split.
  - exact (proj1 (proj2 (proj2 (copy_writes_only_the_address
                                  (Demo.world 0 true) Demo.ready)
                           Demo.user eq_refl ltac:(discriminate)))).
  - exact (proj1 (copy_writes_only_the_address (Demo.world 0 true)
                    Demo.first_run) eq_refl).
Defined.

(** *** Guards *)

Ltac guard_closed H s :=
  unfold_handler; cbv beta;
  destruct (wallet s); try discriminate H;
  destruct (provider s); try discriminate H; reflexivity.

(** X13. Until mount has produced both a provider and a wallet, every
    operation of either document returns at its first line: the state is
    exactly what it was (nothing logged, nothing asked of the chain, no
    timer, the busy flag untouched). *)
Theorem operations_wait_for_wallet_and_provider
    (W : World) (s : State) (toAddress amount : string) :
  wallet s = None \/ provider s = false ->
  (exec (Page1.checkBalance W false None) s = s
   /\ exec (Page1.mintTestUSDC W) s = s
   /\ exec (Page1.depositUSDC W) s = s
   /\ exec (Page1.claimRewards W) s = s
   /\ exec (Page1.transferUSDC W toAddress amount) s = s)
  /\ (forall env : Page2.Env,
         exec (Page2.checkBalance W env false None) s = s
         /\ exec (Page2.mintTestUSDC W env) s = s
         /\ exec (Page2.depositUSDC W env) s = s
         /\ exec (Page2.claimRewards W env) s = s).
Proof.
  intros [H|H]; (split; [|intros env]); repeat split; guard_closed H s.
Qed.

Lemma operations_wait_for_wallet_and_provider_witness :
  exec (Page1.mintTestUSDC (Demo.world 0 true)) Demo.first_run = Demo.first_run
  /\ exec (Page2.claimRewards (Demo.world 0 true) Demo.env) Demo.first_run
     = Demo.first_run.
Proof.
  split.
  - exact (proj1 (proj2 (proj1 (operations_wait_for_wallet_and_provider
                                  (Demo.world 0 true) Demo.first_run "" ""
                                  (or_introl eq_refl))))).
  - exact (proj2 (proj2 (proj2 (proj2 (operations_wait_for_wallet_and_provider
                                         (Demo.world 0 true) Demo.first_run
                                         "" "" (or_introl eq_refl))
                                  Demo.env)))).
Defined.

(** *** Missing configuration *)

Ltac page2_op :=
  wp_start;
  unfold Page2.checkBalance, Page2.mintTestUSDC, Page2.depositUSDC,
    Page2.claimRewards, Page2.MOCK_USDC, Page2.BROWSER_VAULT;
  repeat wp_step; wp_finish; repeat split; reflexivity.

(** X14. In the second document a missing setting is reported before
    anything is asked of the chain.  With wallet and provider in place:
    without the token address the balance refresh, the mint and the claim
    only log that the contract is not configured; without the token or
    the vault address the deposit only logs that the addresses are not
    configured; with the token but without the paying key the claim stops
    right after its first line.  None of them makes a request, queues a
    timer or touches the busy flag before stopping. *)
Theorem missing_configuration_stops_before_any_request
    (W : World) (env : Page2.Env) (s : State) (w : UserWallet) :
  wallet s = Some w ->
  provider s = true ->
  (JS.truthy (Page2.NEXT_PUBLIC_MOCK_USDC env) = false ->
   (let s' := exec (Page2.checkBalance W env false None) s in
    new_lines s s' = ["❌ MockUSDC contract not configured"]
    /\ new_events s s' = [] /\ new_timers s s' = [] /\ loading s' = loading s)
   /\ (let s' := exec (Page2.mintTestUSDC W env) s in
       new_lines s s' = ["❌ MockUSDC contract not configured"]
       /\ new_events s s' = [] /\ new_timers s s' = []
       /\ loading s' = loading s)
   /\ (let s' := exec (Page2.claimRewards W env) s in
       new_lines s s' = ["❌ MockUSDC contract not configured"]
       /\ new_events s s' = [] /\ new_timers s s' = []
       /\ loading s' = loading s))
  /\ (JS.truthy (Page2.NEXT_PUBLIC_MOCK_USDC env) = false
      \/ JS.truthy (Page2.NEXT_PUBLIC_BROWSER_VAULT env) = false ->
      let s' := exec (Page2.depositUSDC W env) s in
      new_lines s s' = ["❌ Contract addresses not configured"]
      /\ new_events s s' = [] /\ new_timers s s' = []
      /\ loading s' = loading s)
  /\ (JS.truthy (Page2.NEXT_PUBLIC_MOCK_USDC env) = true ->
      JS.truthy (Page2.NEXT_PUBLIC_HACKATHON_PRIVATE_KEY env) = false ->
      let s' := exec (Page2.claimRewards W env) s in
      new_lines s s'
      = ["🎁 Claiming browsing rewards..."; "❌ Hackathon wallet not configured"]
      /\ new_events s s' = [] /\ new_timers s s' = []).
Proof.
  intros Hw Hp. split; [|split].
  - intros Hm. split; [|split]; intros s'; subst s'; [|page2_op..].
    unfold_handler. rewrite Hw, Hp, Hm. cbn. read_off. repeat split.
  - intros [Hm|Hv] s'; subst s'.
    + page2_op.
    + destruct (JS.truthy (Page2.NEXT_PUBLIC_MOCK_USDC env)) eqn:Hm; page2_op.
  - intros Hm Hk s'. subst s'. page2_op.
Qed.

Lemma missing_configuration_stops_before_any_request_witness :
  new_lines Demo.ready
    (exec (Page2.depositUSDC (Demo.world 0 true) Scenario.env_empty) Demo.ready)
  = ["❌ Contract addresses not configured"]
  /\ new_lines Demo.ready
       (exec (Page2.claimRewards (Demo.world 0 true) Scenario.env_without_key)
          Demo.ready)
     = ["🎁 Claiming browsing rewards..."; "❌ Hackathon wallet not configured"].
Proof.
  split.
  - exact (proj1 (proj1 (proj2 (missing_configuration_stops_before_any_request
                                  (Demo.world 0 true) Scenario.env_empty
                                  Demo.ready Demo.user eq_refl eq_refl))
                    (or_introl eq_refl))).
  - exact (proj1 (proj2 (proj2 (missing_configuration_stops_before_any_request
                                  (Demo.world 0 true) Scenario.env_without_key
                                  Demo.ready Demo.user eq_refl eq_refl))
                    eq_refl eq_refl)).
Defined.

(** X15. Mount of the second document with a missing setting: without the
    RPC URL, or with it but without one of the three contract addresses,
    the effect logs which setting is missing and stops.  No provider is
    created, no wallet is resolved, storage is neither read into a wallet
    nor written, and nothing is asked of the chain. *)
Theorem mount_without_configuration_resolves_nothing
    (W : World) (env : Page2.Env) (storage : gmap string string) :
  let s0 := initial_state storage in
  let s' := exec (Page2.onMount W env) s0 in
  (JS.truthy (Page2.NEXT_PUBLIC_RPC_URL env) = false ->
   new_lines s0 s' = ["❌ RPC URL not configured"]
   /\ provider s' = false /\ wallet s' = None
   /\ localStorage s' = storage /\ new_events s0 s' = [])
  /\ (JS.truthy (Page2.NEXT_PUBLIC_RPC_URL env) = true ->
      JS.truthy (Page2.NEXT_PUBLIC_MOCK_USDC env) = false
      \/ JS.truthy (Page2.NEXT_PUBLIC_BROWSER_VAULT env) = false
      \/ JS.truthy (Page2.NEXT_PUBLIC_REWARD_POOL env) = false ->
      new_lines s0 s' = ["❌ Contract addresses not configured"]
      /\ provider s' = false /\ wallet s' = None
      /\ localStorage s' = storage /\ new_events s0 s' = []).
Proof.
  intros s0 s'. subst s0 s'.
  unfold Page2.onMount, Page2.RPC_URL, Page2.MOCK_USDC, Page2.BROWSER_VAULT,
    Page2.REWARD_POOL.
  split.
  - intros ->. repeat split.
  - intros -> Hmissing.
    assert (negb (JS.truthy (Page2.NEXT_PUBLIC_MOCK_USDC env))
            || negb (JS.truthy (Page2.NEXT_PUBLIC_BROWSER_VAULT env))
            || negb (JS.truthy (Page2.NEXT_PUBLIC_REWARD_POOL env)) = true) as ->.
    { destruct Hmissing as [->|[->| ->]]; cbn [negb orb];
        rewrite ?orb_true_r; reflexivity. }
    repeat split.
Qed.

Lemma mount_without_configuration_resolves_nothing_witness :
  let s0 := initial_state Scenario.returning in
  let s' := exec (Page2.onMount (Demo.world 0 true) Scenario.env_empty) s0 in
  new_lines s0 s' = ["❌ RPC URL not configured"]
  /\ provider s' = false /\ wallet s' = None
  /\ localStorage s' = Scenario.returning /\ new_events s0 s' = [].
Proof.
  exact (proj1 (mount_without_configuration_resolves_nothing
                  (Demo.world 0 true) Scenario.env_empty Scenario.returning)
           eq_refl).
Defined.

(** *** The address bar *)

Lemma navigateToUrl_again (W : World) (s1 s2 : State) (url : string) :
  currentUrl (exec (navigateToUrl W
                      (currentUrl (exec (navigateToUrl W url) s1))) s2)
  = currentUrl (exec (navigateToUrl W url) s1).
Proof.
  rewrite !navigateToUrl_target.
  destruct (negb (JS.startsWith url "http://")
            && negb (JS.startsWith url "https://")) eqn:Htest.
  - unfold JS.startsWith at 1 2. rewrite (prefix_app "https://" url).
    now rewrite andb_false_r.
  - now rewrite Htest.
Qed.

(** X16. Navigation settles after one step.  Navigating to the URL a
    navigation produced leaves the target as it is: the scheme is put in
    front at most once.  Typing in the address bar only changes the text;
    Enter navigates to what was typed, and Enter again changes nothing of
    the target; any other key does nothing at all. *)
Theorem address_bar_enter_settles (W : World) (s : State) :
  (forall url,
      let s1 := exec (navigateToUrl W url) s in
      currentUrl (exec (navigateToUrl W (currentUrl s1)) s1) = currentUrl s1)
  /\ (forall typed,
         let s1 := exec (onChange_addressBar typed) s in
         let s2 := exec (onKeyPress_addressBar W "Enter") s1 in
         currentUrl s1 = typed
         /\ new_lines s s1 = [] /\ new_timers s s1 = []
         /\ currentUrl s2 = currentUrl (exec (navigateToUrl W typed) s)
         /\ currentUrl (exec (onKeyPress_addressBar W "Enter") s2)
            = currentUrl s2)
  /\ (forall key, key <> "Enter" ->
         exec (onKeyPress_addressBar W key) s = s).
Proof.
  split; [|split].
  - intros url s1. apply navigateToUrl_again.
  - intros typed s1 s2.
    split; [reflexivity|]. split; [subst s1; read_off; reflexivity|].
    split; [subst s1; read_off; reflexivity|].
    split; [reflexivity|].
    change (exec (onKeyPress_addressBar W "Enter") s2)
      with (exec (navigateToUrl W (currentUrl s2)) s2).
    change (currentUrl s2) with (currentUrl (exec (navigateToUrl W typed) s1)).
    apply navigateToUrl_again.
  - intros key Hkey. unfold onKeyPress_addressBar.
    apply String.eqb_neq in Hkey. now rewrite Hkey.
Qed.

Lemma address_bar_enter_settles_witness :
  exec (onKeyPress_addressBar (Demo.world 0 true) "a") Demo.ready = Demo.ready.
Proof.
  exact (proj2 (proj2 (address_bar_enter_settles (Demo.world 0 true) Demo.ready))
           "a" ltac:(discriminate)).
Defined.

(** *** The error panel *)

(** X17. A frame that fails to load replaces the viewport by the error panel
    and keeps the target; the panel offers the first three quick links
    and nothing past them; any navigation, from the panel or elsewhere,
    and a successful load of the frame clear the error, so that the frame
    is rendered again with the (normalised) target. *)
Theorem error_panel_until_next_navigation (W : World) (s : State) :
  let s1 := exec (handleIframeError W) s in
  View.errorPanel s1 = true
  /\ View.iframe_src s1 = None
  /\ currentUrl s1 = currentUrl s
  /\ new_lines s s1 = [("❌ Failed to load: " ++ currentUrl s)%string]
  /\ new_events s s1 = []
  /\ (forall url,
         let s2 := exec (navigateToUrl W url) s1 in
         View.errorPanel s2 = false
         /\ View.iframe_src s2 = Some (currentUrl s2))
  /\ map (fun index => View.iframe_src (exec (onClick_fallback W index) s1))
       [0; 1; 2]
     = [Some "https:///google-home.html"; Some "https:///test-page.html";
        Some "https://example.com"]
  /\ (forall index, exec (onClick_fallback W (3 + index)) s1 = s1)
  /\ View.errorPanel (exec (handleIframeLoad W) s1) = false.
Proof.
  intros s1. subst s1.
  split; [reflexivity|]. split; [reflexivity|]. split; [reflexivity|].
  split; [read_off; reflexivity|]. split; [read_off; reflexivity|].
  split; [intros url s2; split; reflexivity|].
  split; [reflexivity|]. split; [|reflexivity].
  intros index. reflexivity.
Qed.

(** *** Browsing *)

(** X18. Browsing is only ever logged.  A navigation makes no request of the
    chain, leaves wallet and displayed balance alone, clears the error,
    logs the target and queues exactly one browsing-activity callback at
    3000 ms; when that callback fires, in either document, it logs the
    earning line and again asks nothing of the chain, changes no balance
    and queues nothing. *)
Theorem browsing_is_only_logged (W : World) (s : State) (url : string) :
  let s1 := exec (navigateToUrl W url) s in
  new_events s s1 = []
  /\ new_timers s s1 = [(3000, CbBrowsingActivity)]
  /\ new_lines s s1 = [("🌐 Navigating to: " ++ currentUrl s1)%string]
  /\ browserError s1 = ""
  /\ wallet s1 = wallet s /\ balance s1 = balance s
  /\ (let s2 := exec (Page1.fire W CbBrowsingActivity) s1 in
      new_events s1 s2 = [] /\ new_timers s1 s2 = []
      /\ new_lines s1 s2 = ["👀 Browsing activity detected - earning rewards!"]
      /\ balance s2 = balance s)
  /\ (forall env,
         let s2 := exec (Page2.fire W env CbBrowsingActivity) s1 in
         new_events s1 s2 = [] /\ new_timers s1 s2 = []
         /\ new_lines s1 s2
            = ["👀 Browsing activity detected - earning rewards!"]
         /\ balance s2 = balance s).
Proof.
  intros s1.
  assert (Hfire : forall s0 : State,
             let s2 := exec (addLog W "👀 Browsing activity detected - earning rewards!") s0 in
             new_events s0 s2 = [] /\ new_timers s0 s2 = []
             /\ new_lines s0 s2
                = ["👀 Browsing activity detected - earning rewards!"]
             /\ balance s2 = balance s0).
  { intros s0 s2. subst s2. repeat split; read_off; reflexivity. }
  assert (Hbal : balance s1 = balance s) by reflexivity.
  split; [subst s1; read_off; reflexivity|].
  split; [subst s1; read_off; reflexivity|].
  split; [subst s1; read_off; reflexivity|].
  split; [reflexivity|]. split; [reflexivity|]. split; [exact Hbal|].
  rewrite <- Hbal. split; [|intros env]; exact (Hfire s1).
Qed.

(** *** Recent activity *)

Lemma slice_last_of_slice_last {A : Type} (n m : nat) (xs : list A) :
  n <= m -> JS.slice_last n (JS.slice_last m xs) = JS.slice_last n xs.
Proof.
  intros Hnm. unfold JS.slice_last. rewrite length_drop, drop_drop.
  f_equal. lia.
Qed.

(** X19. The popup's Recent Activity shows the last three lines of the log:
    never more than three; after a call of [addLog] the last of them is
    the line just written; and after any run of calls it is the last three
    lines of what the log held before followed by the lines written. *)
Theorem recent_activity_shows_latest_lines (W : World) :
  (forall s, length (View.recentActivity s) <= 3)
  /\ (forall s m,
         last (View.recentActivity (exec (addLog W m) s))
         = Some (log_line (toLocaleTimeString W (clockReads s)) m))
  /\ (forall s m ms,
         View.recentActivity (exec (addLog_all W (m :: ms)) s)
         = JS.slice_last 3 (logs s ++ stamped W (clockReads s) (m :: ms)))
  /\ (forall s m1 m2 m3,
         View.recentActivity (exec (addLog_all W [m1; m2; m3]) s)
         = stamped W (clockReads s) [m1; m2; m3]).
Proof.
  assert (Hrun : forall s m ms,
             View.recentActivity (exec (addLog_all W (m :: ms)) s)
             = JS.slice_last 3 (logs s ++ stamped W (clockReads s) (m :: ms))).
  { intros s m ms. unfold View.recentActivity.
    rewrite <- (slice_last_all 11 (logs (exec (addLog_all W (m :: ms)) s)))
      by apply addLog_all_length.
    rewrite addLog_all_logs. apply slice_last_of_slice_last. lia. }
  split; [|split; [|split]].
  - intros s. apply slice_last_length.
  - intros s m. unfold View.recentActivity. rewrite addLog_logs.
    unfold JS.slice_last at 1.
    rewrite length_app. cbn [length].
    rewrite drop_app_le by lia. now rewrite last_snoc.
  - exact Hrun.
  - intros s m1 m2 m3. rewrite Hrun.
    unfold JS.slice_last. rewrite length_app. cbn [stamped length].
    replace (length (logs s) + 3 - 3) with (length (logs s)) by lia.
    now rewrite drop_app_length.
Qed.

(** *** Device fingerprint *)

(** X20. The fingerprint is the hash of the browser signals joined with an
    installation id.  With a non-empty id in storage the function reads
    it, draws nothing and changes nothing, so the hash is the same on
    every call.  Without one it hashes a freshly drawn id and does not
    store it: storage is left as it was, and the next call draws again. *)
Theorem fingerprint_is_stable_only_with_stored_id (W : World) (s : State) :
  (forall id,
      localStorage s !! "burgerbrows_device_id" = Some id -> id <> "" ->
      generateDeviceFingerprint W s
      = (Ok (keccak256 W (fingerprint_text W id)), s))
  /\ (JS.truthy (localStorage s !! "burgerbrows_device_id") = false ->
      let s1 := exec (generateDeviceFingerprint W) s in
      result (generateDeviceFingerprint W) s
      = Ok (keccak256 W (fingerprint_text W (randomUUID W (randomDraws s))))
      /\ result (generateDeviceFingerprint W) s1
         = Ok (keccak256 W
                 (fingerprint_text W (randomUUID W (S (randomDraws s)))))
      /\ localStorage s1 = localStorage s
      /\ new_events s s1 = []).
Proof.
  split.
  - intros id Hget Hne. apply truthy_Some in Hne.
    unfold generateDeviceFingerprint, localStorage_getItem, bind, gets.
    rewrite Hget, Hne. reflexivity.
  - intros Hnone s1. subst s1.
    unfold generateDeviceFingerprint, localStorage_getItem, exec, result,
      bind, gets.
    rewrite Hnone. cbn. rewrite Hnone. cbn.
    repeat split. read_off. reflexivity.
Qed.

Lemma fingerprint_is_stable_only_with_stored_id_witness :
  generateDeviceFingerprint (Demo.world 0 true)
    (initial_state Scenario.returning)
  = (Ok (keccak256 (Demo.world 0 true)
           (fingerprint_text (Demo.world 0 true)
              "123e4567-e89b-42d3-a456-426614174000")),
     initial_state Scenario.returning)
  /\ localStorage (exec (generateDeviceFingerprint (Demo.world 0 true))
                     Demo.first_run)
     = localStorage Demo.first_run.
Proof.
  split.
  - exact (proj1 (fingerprint_is_stable_only_with_stored_id
                    (Demo.world 0 true) (initial_state Scenario.returning))
             "123e4567-e89b-42d3-a456-426614174000"
             ltac:(vm_compute; reflexivity) ltac:(discriminate)).
  - exact (proj1 (proj2 (proj2 (proj2 (fingerprint_is_stable_only_with_stored_id
                                         (Demo.world 0 true) Demo.first_run)
                                  ltac:(vm_compute; reflexivity))))).
Defined.

(** X21. On a first run (no wallet record, no installation id) the wallet's
    device tag is cut from the hash of one drawn id, while the id that
    [initializeWallet] then stores is another draw: the stored wallet is
    the pair of the second draw with the first sixteen characters of the
    fingerprint of the first draw, the stored installation id is the third
    draw, and a fingerprint taken afterwards hashes that third draw. *)
Theorem first_run_tag_and_stored_id_are_different_draws
    (W : World) (s : State) :
  JS.truthy (localStorage s !! "burgerbrows_wallet") = false ->
  JS.truthy (localStorage s !! "burgerbrows_device_id") = false ->
  let d := randomDraws s in
  let s1 := exec (initializeWallet W) s in
  result (initializeWallet W) s
  = Ok {| address := fst (createRandom W (S d));
          privateKey := snd (createRandom W (S d));
          deviceHash :=
            JS.str_slice0 16
              (keccak256 W (fingerprint_text W (randomUUID W d))) |}
  /\ localStorage s1 !! "burgerbrows_device_id"
     = Some (randomUUID W (S (S d)))
  /\ (randomUUID W (S (S d)) <> "" ->
      result (generateDeviceFingerprint W) s1
      = Ok (keccak256 W (fingerprint_text W (randomUUID W (S (S d)))))).
Proof.
  intros Hnow Hnoid d s1. subst d s1.
  unfold initializeWallet, generateDeviceFingerprint, localStorage_getItem,
    exec, result, bind, gets.
  rewrite Hnow. cbn. rewrite Hnoid. cbn.
  split; [reflexivity|]. split.
  - apply lookup_insert_eq.
  - intros Hne. apply truthy_Some in Hne.
    rewrite lookup_insert_eq, Hne. reflexivity.
Qed.

Lemma first_run_tag_and_stored_id_are_different_draws_witness :
  localStorage (exec (initializeWallet (Demo.world 0 true)) Demo.first_run)
    !! "burgerbrows_device_id"
  = Some "123e4567-e89b-42d3-a456-426614174000".
Proof.
  exact (proj1 (proj2 (first_run_tag_and_stored_id_are_different_draws
                         (Demo.world 0 true) Demo.first_run
                         ltac:(vm_compute; reflexivity)
                         ltac:(vm_compute; reflexivity)))).
Defined.

(** *** The Send button *)

(** X22. The Send button with an empty recipient or an empty amount does
    nothing.  With both filled in it runs the transfer on the two texts as
    typed and then clears both fields and closes the popup whatever the
    transfer did, a rejected one included; the requests, the lines and the
    timers are those of the transfer. *)
Theorem send_button_clears_the_form (W : World) (s : State) :
  (transferAddress s = "" \/ transferAmount s = "" ->
   exec (Page1.onClick_send W) s = s)
  /\ (transferAddress s <> "" -> transferAmount s <> "" ->
      let s1 := exec (Page1.transferUSDC W (transferAddress s)
                        (transferAmount s)) s in
      let s' := exec (Page1.onClick_send W) s in
      transferAddress s' = "" /\ transferAmount s' = ""
      /\ showWalletPopup s' = false
      /\ trace s' = trace s1 /\ logged s' = logged s1
      /\ timers s' = timers s1 /\ balance s' = balance s1).
Proof.
  split.
  - intros H. unfold Page1.onClick_send. rewrite !exec_gets_bind.
    destruct H as [-> | ->]; cbn [JS.truthy String.eqb negb andb];
      [|rewrite andb_false_r]; reflexivity.
  - intros Ha Hm s1 s'. subst s1 s'.
    apply truthy_Some in Ha, Hm.
    unfold Page1.onClick_send. rewrite !exec_gets_bind, Ha, Hm.
    cbn [andb].
    rewrite (exec_then _ _ s tt
               (proj1 (settles_page1_transfer W (transferAddress s)
                         (transferAmount s) s))).
    generalize (exec (Page1.transferUSDC W (transferAddress s)
                        (transferAmount s)) s).
    intros s1. repeat split.
Qed.

Lemma send_button_clears_the_form_witness :
  exec (Page1.onClick_send (Demo.world 0 true)) Demo.ready = Demo.ready
  /\ transferAddress
       (exec (Page1.onClick_send (Demo.world 0 true))
          (setTransferAmount "5" (setTransferAddress "nobody" Demo.ready)))
     = "".
Proof.
  split.
  - exact (proj1 (send_button_clears_the_form (Demo.world 0 true) Demo.ready)
             (or_introl eq_refl)).
  - exact (proj1 (proj2 (send_button_clears_the_form (Demo.world 0 true)
                           (setTransferAmount "5"
                              (setTransferAddress "nobody" Demo.ready)))
                    ltac:(discriminate) ltac:(discriminate))).
Defined.

(** *** Timers *)

Lemma fire1_keeps_timers (W : World) (cb : Callback) (T : list (nat * Callback)) :
  keeps (fun s => timers s = T) (Page1.fire W cb).
Proof. destruct cb; repeat frame_step. Qed.

Lemma fire2_keeps_timers (W : World) (env : Page2.Env) (cb : Callback)
    (T : list (nat * Callback)) :
  keeps (fun s => timers s = T) (Page2.fire W env cb).
Proof. destruct cb; repeat frame_step. Qed.

(** X23. A timer fires once and arms nothing.  When the pending timer at
    [index] fires, in either document, it leaves the queue and its
    callback (the balance refresh or the browsing-activity line) queues
    no timer: the queue is the old one without that entry.  Firing at an
    index with no pending timer does nothing. *)
Theorem timer_fires_once_and_arms_nothing (W : World) (s : State) (index : nat) :
  (forall timer,
      timers s !! index = Some timer ->
      timers (exec (Session1.timer_fires W index) s) = delete index (timers s)
      /\ forall env,
           timers (exec (Session2.timer_fires W env index) s)
           = delete index (timers s))
  /\ (timers s !! index = None ->
      exec (Session1.timer_fires W index) s = s
      /\ forall env, exec (Session2.timer_fires W env index) s = s).
Proof.
  split.
  - intros timer Hget. split; [|intros env].
    + unfold Session1.timer_fires. rewrite exec_gets_bind, Hget.
      change (exec (modify (clear_timer index) >> Page1.fire W (snd timer)) s)
        with (exec (Page1.fire W (snd timer)) (clear_timer index s)).
      now apply fire1_keeps_timers.
    + unfold Session2.timer_fires. rewrite exec_gets_bind, Hget.
      change (exec (modify (clear_timer index) >> Page2.fire W env (snd timer)) s)
        with (exec (Page2.fire W env (snd timer)) (clear_timer index s)).
      now apply fire2_keeps_timers.
  - intros Hnone. split; [|intros env].
    + unfold Session1.timer_fires. now rewrite exec_gets_bind, Hnone.
    + unfold Session2.timer_fires. now rewrite exec_gets_bind, Hnone.
Qed.

Lemma timer_fires_once_and_arms_nothing_witness :
  timers (exec (Session1.timer_fires (Demo.world 0 true) 0)
            (exec (Page1.mintTestUSDC (Demo.world 0 true)) Demo.ready))
  = []
  /\ exec (Session1.timer_fires (Demo.world 0 true) 0) Demo.ready = Demo.ready.
Proof.
  split.
  - exact (proj1 (proj1 (timer_fires_once_and_arms_nothing (Demo.world 0 true)
                           (exec (Page1.mintTestUSDC (Demo.world 0 true))
                              Demo.ready) 0)
                    (2000, CbCheckBalance) eq_refl)).
  - exact (proj1 (proj2 (timer_fires_once_and_arms_nothing (Demo.world 0 true)
                           Demo.ready 0) eq_refl)).
Defined.

(** *** The displayed balance *)

(** X24. Only the refresh writes the displayed balance.  No mint, deposit,
    claim or transfer, and no button that starts one, changes [balance]:
    after a successful operation the display shows the old figure until a
    queued refresh fires. *)
Theorem displayed_balance_waits_for_refresh (W : World) (s : State) :
  (forall toAddress amount,
      balance (exec (Page1.mintTestUSDC W) s) = balance s
      /\ balance (exec (Page1.depositUSDC W) s) = balance s
      /\ balance (exec (Page1.claimRewards W) s) = balance s
      /\ balance (exec (Page1.transferUSDC W toAddress amount) s) = balance s
      /\ balance (exec (Page1.onClick_mint W) s) = balance s
      /\ balance (exec (Page1.onClick_deposit W) s) = balance s
      /\ balance (exec (Page1.onClick_claim W) s) = balance s
      /\ balance (exec (Page1.onClick_send W) s) = balance s)
  /\ (forall env,
         balance (exec (Page2.mintTestUSDC W env) s) = balance s
         /\ balance (exec (Page2.depositUSDC W env) s) = balance s
         /\ balance (exec (Page2.claimRewards W env) s) = balance s
         /\ balance (exec (Page2.onClick_mint W env) s) = balance s
         /\ balance (exec (Page2.onClick_deposit W env) s) = balance s
         /\ balance (exec (Page2.onClick_claim W env) s) = balance s).
Proof.
  assert (Hkeep : forall (m : M unit),
             keeps (fun s' => balance s' = balance s) m ->
             balance (exec m s) = balance s).
  { intros m Hm. now apply Hm. }
  split; [intros toAddress amount|intros env];
    repeat split; apply Hkeep; repeat frame_step.
Qed.

(** *** Mount, start to end *)

Lemma result_bind {A B : Type} (m : M A) (k : A -> M B) (s : State) :
  result (bind m k) s
  = match result m s with
    | Ok a => result (k a) (exec m s)
    | Throw e => Throw e
    end.
Proof.
  unfold exec, result, bind. destruct (m s) as [[a|e] s1]; reflexivity.
Qed.

Lemma result_addLog_bind {B : Type} (W : World) (m : string) (k : M B)
    (s : State) :
  result (addLog W m >> k) s = result k (exec (addLog W m) s).
Proof. reflexivity. Qed.

Lemma result_modify_bind {B : Type} (f : State -> State) (k : M B) (s : State) :
  result (modify f >> k) s = result k (f s).
Proof. reflexivity. Qed.

Lemma returns_page2_checkBalance (W : World) (env : Page2.Env)
    (providerInstance : bool) (address_arg : option string) :
  returns (Page2.checkBalance W env providerInstance address_arg).
Proof. repeat returns_step. Qed.

(** The state a successful load leaves. *)
Lemma initializeWallet_loaded (W : World) (s : State) (text : string)
    (w : UserWallet) :
  localStorage s !! "burgerbrows_wallet" = Some text ->
  text <> "" ->
  JSON_parse W text = Ok w ->
  initializeWallet W s
  = (Ok w,
     exec (addLog W ("👋 Welcome back! Loaded wallet: "
                     ++ JS.str_slice0 20 (address w) ++ "..."))
       (setWallet w s)).
Proof.
  intros Hget Hne Hparse. apply truthy_Some in Hne.
  unfold initializeWallet, localStorage_getItem, gets, bind, lift_res.
  rewrite Hget, Hne. cbn [default from_option id]. rewrite Hparse.
  reflexivity.
Qed.

(** What the handlers before the first balance read leave alone. *)
Lemma addLog_leaves (W : World) (m : string) (s : State) :
  let s' := exec (addLog W m) s in
  wallet s' = wallet s /\ trace s' = trace s
  /\ localStorage s' = localStorage s /\ balance s' = balance s.
Proof. repeat split. Qed.

Lemma setWallet_leaves (w : UserWallet) (s : State) :
  wallet (setWallet w s) = Some w /\ trace (setWallet w s) = trace s
  /\ localStorage (setWallet w s) = localStorage s
  /\ balance (setWallet w s) = balance s.
Proof. repeat split. Qed.

Lemma setProvider_leaves (s : State) :
  wallet (setProvider s) = wallet s /\ trace (setProvider s) = trace s
  /\ localStorage (setProvider s) = localStorage s
  /\ balance (setProvider s) = balance s.
Proof. repeat split. Qed.

Ltac leaves :=
  repeat first
    [ rewrite (proj1 (addLog_leaves _ _ _))
    | rewrite (proj1 (proj2 (addLog_leaves _ _ _)))
    | rewrite (proj1 (proj2 (proj2 (addLog_leaves _ _ _))))
    | rewrite (proj2 (proj2 (proj2 (addLog_leaves _ _ _))))
    | rewrite (proj1 (setWallet_leaves _ _))
    | rewrite (proj1 (proj2 (setWallet_leaves _ _)))
    | rewrite (proj1 (proj2 (proj2 (setWallet_leaves _ _))))
    | rewrite (proj2 (proj2 (proj2 (setWallet_leaves _ _))))
    | rewrite (proj1 (setProvider_leaves _))
    | rewrite (proj1 (proj2 (setProvider_leaves _)))
    | rewrite (proj1 (proj2 (proj2 (setProvider_leaves _))))
    | rewrite (proj2 (proj2 (proj2 (setProvider_leaves _)))) ].

(** The first balance read, for the address mount has just resolved. *)
Lemma checkBalance1_after_resolve (W : World) (s : State) (w : UserWallet) :
  wallet s = Some w ->
  let s' := exec (Page1.checkBalance W true (Some (address w))) s in
  trace s' = (trace s ++ [EvBalanceOf Page1.USDC_ADDRESS (address w)])%list
  /\ wallet s' = Some w
  /\ localStorage s' = localStorage s
  /\ loading s' = false
  /\ balance s'
     = match rpc_balanceOf W (trace s) Page1.USDC_ADDRESS (address w) with
       | Ok b => formatUnits6 W b
       | Throw _ => balance s
       end.
Proof.
  intros Hw s'. subst s'.
  unfold Page1.checkBalance, exec, try_catch_finally, bind, gets.
  rewrite Hw. cbn. rewrite andb_false_r.
  destruct (negb (String.eqb (address w) "")); cbn;
    destruct (rpc_balanceOf W (trace s) Page1.USDC_ADDRESS (address w));
    cbn; repeat split; exact Hw.
Qed.

Lemma checkBalance2_after_resolve (W : World) (env : Page2.Env)
    (token : string) (s : State) (w : UserWallet) :
  Page2.NEXT_PUBLIC_MOCK_USDC env = Some token -> token <> "" ->
  wallet s = Some w ->
  let s' := exec (Page2.checkBalance W env true (Some (address w))) s in
  trace s' = (trace s ++ [EvBalanceOf token (address w)])%list
  /\ wallet s' = Some w
  /\ localStorage s' = localStorage s
  /\ loading s' = false
  /\ balance s'
     = match rpc_balanceOf W (trace s) token (address w) with
       | Ok b => formatUnits6 W b
       | Throw _ => balance s
       end.
Proof.
  intros Ht Hne Hw s'. subst s'. apply truthy_Some in Hne.
  unfold Page2.checkBalance, Page2.MOCK_USDC, exec, try_catch_finally,
    bind, gets.
  rewrite Hw, Ht, Hne. cbn. rewrite andb_false_r.
  destruct (negb (String.eqb (address w) "")); cbn;
    destruct (rpc_balanceOf W (trace s) token (address w));
    cbn; repeat split; exact Hw.
Qed.

(** X25. Mount in a browser that holds a wallet record.  When the stored
    record parses to a wallet with a non-empty address, mount makes that
    wallet the component's, writes nothing to storage, and asks the chain
    exactly one thing: the token balance of that wallet's address.  The
    displayed balance is the formatted answer, or stays at its initial
    ["0.000000"] when the read throws.  Both documents agree, the second
    one once it is fully configured. *)
Theorem mount_loads_wallet_and_reads_its_balance
    (W : World) (storage : gmap string string) (text : string)
    (w : UserWallet) :
  storage !! "burgerbrows_wallet" = Some text ->
  text <> "" ->
  JSON_parse W text = Ok w ->
  address w <> "" ->
  (let s' := Session1.mounted W storage in
   wallet s' = Some w
   /\ trace s' = [EvBalanceOf Page1.USDC_ADDRESS (address w)]
   /\ localStorage s' = storage
   /\ loading s' = false
   /\ balance s'
      = match rpc_balanceOf W [] Page1.USDC_ADDRESS (address w) with
        | Ok b => formatUnits6 W b
        | Throw _ => "0.000000"
        end)
  /\ (forall (env : Page2.Env) (token : string),
         JS.truthy (Page2.NEXT_PUBLIC_RPC_URL env) = true ->
         Page2.NEXT_PUBLIC_MOCK_USDC env = Some token -> token <> "" ->
         JS.truthy (Page2.NEXT_PUBLIC_BROWSER_VAULT env) = true ->
         JS.truthy (Page2.NEXT_PUBLIC_REWARD_POOL env) = true ->
         let s' := Session2.mounted W env storage in
         wallet s' = Some w
         /\ trace s' = [EvBalanceOf token (address w)]
         /\ localStorage s' = storage
         /\ loading s' = false
         /\ balance s'
            = match rpc_balanceOf W [] token (address w) with
              | Ok b => formatUnits6 W b
              | Throw _ => "0.000000"
              end).
Proof.
  intros Hget Hne Hparse Haddress. apply truthy_Some in Haddress. split.
  - intros s'. subst s'.
    unfold Session1.mounted, Page1.onMount.
    rewrite exec_modify_bind, exec_bind.
    destruct (result_exec_of_run _ _ _ _
                (initializeWallet_loaded W (setProvider (initial_state storage))
                   text w Hget Hne Hparse)) as [-> ->].
    rewrite Haddress.
    match goal with
    | |- context [exec (Page1.checkBalance W true _) ?s1] =>
        destruct (checkBalance1_after_resolve W s1 w)
          as (Htr & Hw' & Hst & Hld & Hbal);
          [leaves; reflexivity|];
          rewrite Htr, Hst, Hbal; leaves
    end.
    now repeat split.
  - intros env token Hrpc Ht Htne Hvault Hpool s'. subst s'.
    unfold Session2.mounted, Page2.onMount, Page2.RPC_URL, Page2.MOCK_USDC,
      Page2.BROWSER_VAULT, Page2.REWARD_POOL.
    rewrite Hrpc, Ht, (truthy_Some _ Htne), Hvault, Hpool.
    cbn [negb orb default from_option id].
    rewrite exec_try_catch.
    rewrite !result_addLog_bind, result_modify_bind, result_bind.
    rewrite !exec_addLog_bind, exec_modify_bind, exec_bind.
    match goal with
    | |- context [result (initializeWallet W) ?s2] =>
        destruct (result_exec_of_run _ _ _ _
                    (initializeWallet_loaded W s2 text w Hget Hne Hparse))
          as [-> ->]
    end.
    rewrite result_addLog_bind, exec_addLog_bind, Haddress.
    match goal with
    | |- context [result (Page2.checkBalance W env true ?a) ?s1] =>
        destruct (returns_page2_checkBalance W env true a s1) as [[] ->];
        destruct (checkBalance2_after_resolve W env token s1 w Ht Htne)
          as (Htr & Hw' & Hst & Hld & Hbal);
          [leaves; reflexivity|];
          rewrite Htr, Hst, Hbal; leaves
    end.
    now repeat split.
Qed.

Lemma mount_loads_wallet_and_reads_its_balance_witness :
  let s' := Session1.mounted (Demo.world 30000000 true) Scenario.returning in
  wallet s' = Some Demo.user
  /\ trace s' = [EvBalanceOf Page1.USDC_ADDRESS Demo.user_address]
  /\ localStorage s' = Scenario.returning
  /\ loading s' = false
  /\ balance s' = "30.0".
Proof.
  exact (proj1 (mount_loads_wallet_and_reads_its_balance
                  (Demo.world 30000000 true) Scenario.returning
                  (Demo.stringify_wallet Demo.user) Demo.user
                  ltac:(vm_compute; reflexivity) ltac:(discriminate)
                  eq_refl ltac:(discriminate))).
Defined.

Lemma session_identity_and_storage_fixed_witness :
  localStorage
    (Session2.session (Demo.world 60000000 true) Demo.env Scenario.returning
       Scenario.later_visit)
  = Scenario.returning.
Proof.
  exact (proj2 (proj2 (proj2 (proj2
           (proj2 session_identity_and_storage_fixed
              (Demo.world 60000000 true) Demo.env Scenario.returning
              Scenario.later_visit))))
           ltac:(vm_compute; reflexivity)).
Defined.

Lemma busy_flag_always_released_witness :
  loading (exec (Page1.mintTestUSDC (Demo.world 0 false)) Demo.ready) = false
  /\ loading (exec (Page2.depositUSDC Scenario.vault_reverts Demo.env)
                Demo.ready) = false.
Proof.
  split.
  - exact (proj1 (proj2 (proj1 busy_flag_always_released
                           (Demo.world 0 false) "" ""))
             Demo.ready eq_refl).
  - exact (proj1 (proj2 (proj2 (proj1 (proj2 busy_flag_always_released)
                                  Scenario.vault_reverts Demo.env)))
             Demo.ready eq_refl).
Defined.

(** ** Sessions on concrete inputs *)

Example first_visit_runs :
  let s := Session1.session (Demo.world 30000000 true) ∅ Scenario.first_visit in
  drop 2 (trace s)
  = [EvBalanceOf Page1.USDC_ADDRESS Demo.user_address;
     EvSend Page1.FAUCET_KEY Page1.USDC_ADDRESS
       (Mint Demo.user_address 100000000);
     EvWait Demo.tx_hash;
     EvBalanceOf Page1.USDC_ADDRESS Demo.user_address;
     EvBalanceOf Page1.USDC_ADDRESS Demo.user_address;
     EvSend Demo.user_key Page1.USDC_ADDRESS
       (Transfer Demo.hackathon_address 5000000);
     EvWait Demo.tx_hash]
  /\ timers s
     = [(2000, CbCheckBalance); (3000, CbBrowsingActivity);
        (3000, CbBrowsingActivity)]
  /\ View.recentActivity s
     = ["[10:00:16] 🌐 Navigating to: https://example.com";
        "[10:00:17] ❌ Failed to load: https://example.com";
        "[10:00:18] 🌐 Navigating to: https://example.com"]
  /\ View.iframe_src s = Some "https://example.com"
  /\ View.walletLabel s = "0x1111...1111"
  /\ balance s = "30.0"
  /\ showWalletPopup s = false.
Proof. vm_compute. repeat split. Qed.

Example later_visit_runs :
  let s := Session2.session (Demo.world 60000000 true) Demo.env
             Scenario.returning Scenario.later_visit in
  trace s
  = [EvBalanceOf Page1.USDC_ADDRESS Demo.user_address;
     EvBalanceOf Page1.USDC_ADDRESS Demo.user_address;
     EvSend Demo.user_key Page1.USDC_ADDRESS
       (Approve Page1.BROWSER_VAULT 50000000);
     EvWait Demo.tx_hash;
     EvSend Demo.user_key Page1.BROWSER_VAULT (Deposit 50000000);
     EvWait Demo.tx_hash;
     EvBalanceOf Page1.USDC_ADDRESS Demo.hackathon_address;
     EvSend Page1.FAUCET_KEY Page1.USDC_ADDRESS
       (Transfer Demo.user_address 10000000);
     EvWait Demo.tx_hash;
     EvBalanceOf Page1.USDC_ADDRESS Demo.user_address;
     EvClipboard Demo.user_address]
  /\ timers s
     = [(2000, CbCheckBalance); (2000, CbCheckBalance); (3000, CbCheckBalance)]
  /\ balance s = "60.0"
  /\ showWalletPopup s = false
  /\ forallb (Session2.permitted (Demo.world 60000000 true) Demo.env Demo.user)
       (trace s) = true.
Proof. vm_compute. repeat split. Qed.

(** A stored record with an empty address: mount resolves the wallet and
    asks nothing of the chain. *)
Example mount_with_empty_address_reads_nothing :
  let nameless :=
    {| address := ""; privateKey := Demo.user_key; deviceHash := "0xabcdef" |} in
  let storage : gmap string string :=
    {[ "burgerbrows_wallet" := Demo.stringify_wallet nameless ]} in
  let s1 := Session1.mounted (Demo.world 30000000 true) storage in
  let s2 := Session2.mounted (Demo.world 30000000 true) Demo.env storage in
  wallet s1 = Some nameless /\ trace s1 = [] /\ balance s1 = "0.000000"
  /\ loading s1 = false
  /\ wallet s2 = Some nameless /\ trace s2 = [] /\ balance s2 = "0.000000"
  /\ loading s2 = false.
Proof. vm_compute. repeat split. Qed.

Example empty_label_without_wallet :
  View.walletLabel Demo.first_run = "Wallet"
  /\ View.fallbackSites
     = [("Google", "/google-home.html"); ("Test Page", "/test-page.html");
        ("Example", "https://example.com")].
Proof. split; reflexivity. Qed.

(** ** Checks on concrete inputs *)

Example parseFloat_zero : JS.parseFloat "0" = JS.Decimal false 0 0.
Proof. reflexivity. Qed.

Example parseFloat_letters : JS.parseFloat "abc" = JS.NaN.
Proof. reflexivity. Qed.

Example parseFloat_empty : JS.parseFloat "" = JS.NaN.
Proof. reflexivity. Qed.

Example parseFloat_lone_dot : JS.parseFloat "." = JS.NaN.
Proof. reflexivity. Qed.

Example parseFloat_prefix : JS.parseFloat "  12.50abc" = JS.Decimal false 1250 (-2).
Proof. reflexivity. Qed.

Example parseFloat_leading_dot : JS.parseFloat "-.5e3x" = JS.Decimal true 5 2.
Proof. reflexivity. Qed.

Example parseFloat_dangling_exponent : JS.parseFloat "7e+" = JS.Decimal false 7 0.
Proof. reflexivity. Qed.

Example parseFloat_infinity : JS.parseFloat "-Infinityx" = JS.Infinity true.
Proof. reflexivity. Qed.

Example le_zero_underflow : JS.le_zero (JS.parseFloat "1e-400") = true.
Proof. vm_compute. reflexivity. Qed.

Example le_zero_one_unit : JS.le_zero (JS.parseFloat "0.000001") = false.
Proof. vm_compute. reflexivity. Qed.

Example le_zero_negative : JS.le_zero (JS.parseFloat "-3") = true.
Proof. reflexivity. Qed.

Example format_units_thirty : Demo.format_units 30000000 = "30.0".
Proof. reflexivity. Qed.

Example format_units_fraction : Demo.format_units 1234567 = "1.234567".
Proof. reflexivity. Qed.

Example parse_units_letters :
  Demo.parse_units "abc" = Throw "TypeError: invalid FixedNumber string value".
Proof. reflexivity. Qed.

Example parse_units_decimal : Demo.parse_units "1.5" = Ok 1500000%Z.
Proof. reflexivity. Qed.

Example address_shape_rejects : Demo.address_shape "not-an-address" = false.
Proof. reflexivity. Qed.

Example wallet_text_round_trip :
  Demo.parse_wallet (Demo.stringify_wallet Demo.user) = Ok Demo.user.
Proof. reflexivity. Qed.

(** A successful peer transfer of 5 units, start to end. *)
Example transfer_five_units :
  let s' := exec (Page1.transferUSDC (Demo.world 30000000 true)
                    Demo.hackathon_address "5") Demo.ready in
  new_events Demo.ready s'
  = [EvBalanceOf Page1.USDC_ADDRESS Demo.user_address;
     EvSend Demo.user_key Page1.USDC_ADDRESS
       (Transfer Demo.hackathon_address 5000000);
     EvWait Demo.tx_hash]
  /\ new_lines Demo.ready s'
     = ["💸 Preparing to send 5 USDC...";
        "📤 Sending 5 USDC to 0x333333...3333";
        "🔄 Transaction submitted: 0x444444444444444444...";
        "✅ Transfer completed!";
        "🔗 Block: 7"]
  /\ new_timers Demo.ready s' = [(2000, CbCheckBalance)].
Proof. vm_compute. repeat split. Qed.

(** Mount on a browser with nothing stored, first document. *)
Example mount_first_run :
  let s' := exec (Page1.onMount (Demo.world 30000000 true)) Demo.first_run in
  wallet s' = Some Demo.user
  /\ balance s' = "30.0"
  /\ new_lines Demo.first_run s'
     = ["🆕 New wallet created: 0x111111111111111111...";
        "👤 Device ID: 0x55555555555555";
        "🏦 Checking USDC balance...";
        "💰 USDC Balance: 30.0"].
Proof. vm_compute. repeat split. Qed.
